(* ===== verification/_CoqProject ===== *)
-Q . S2P
Prelude.v
ExchangeStore.v
Services.v
Runtime.v
ConsumerExchange.v
ConsumerImport.v
System.v
Interleaving.v
