(* ===== verification/Prelude.v ===== *)
(** * Verification of the dataspace connector's consumer controller

    The program is the consumer side of a dataspace connector,
    [src/controllers/public/v1/consumer.public.controller.ts]: two Express
    handlers that coordinate a data exchange between this consumer and a
    provider under a contract.
    - [consumerExchange] (lines 21-123) starts an exchange: it fetches the
      contract, tells an ecosystem contract (reference containing
      ["contracts"]) from a bilateral one, validates the request, creates a
      [DataExchange] document (status PENDING), registers it at the
      provider, answers 200 and triggers the provider's export.
    - [consumerImport] (lines 131-225) receives the provider's data: it
      finds the exchange by the provider's identifier, resolves the
      purpose's service offering and its first software resource in the
      catalog, posts the data to the resource's REST representation,
      forwards an API's answer to the provider, and records IMPORT_SUCCESS
      or CONSUMER_IMPORT_ERROR.
    They interact through the DataExchange collection (the export creates
    the document and records the provider's identifier of it; the import
    looks it up by that identifier and resolves it) and through calls to
    collaborators: the contract service, the catalog, the provider's
    endpoints and the consumer's own API.

    ** Files
    - [Prelude] (this file): the JavaScript exceptions the handlers raise
      ([exn], [exn_message]), a state and exception monad [M] with
      [try_catch] and the [let*] notation in [js_scope], settled promises
      and [handle] ([libs/loaders/handler]), JavaScript truthiness
      ([truthy], [truthy_array]), property reads that throw on
      [undefined]/[null] ([deref], [deref_null]), [nth0] and
      [str_includes] ([String.prototype.includes]), checked against its
      reference meaning [occurs_in] ([str_includes_occurs]).
    - [ExchangeStore]: the [DataExchange] model and its collection
      ([Store]: documents in insertion order, next identifier, clock), with
      [create], [findOne], [updateStatus] and [setProviderDataExchange].
      Their code is not in the sources: they follow the Exchange Record
      Store of the specification (duplicate refusal, terminal statuses
      frozen, idempotent transitions, invalid transitions logged). The
      invariants [store_wf], [inflight_unique] (at most one in-flight
      exchange per conflict key) and [histories_ok] (each status history
      follows the state machine, [history_shape]) and the evolutions
      [store_le] (identities kept, terminal documents frozen),
      [status_kept], [no_new], as preorders; the hint base [store].
    - [Services]: the documents the collaborators return ([ContractDoc],
      [ProviderSD], [CatalogEntry], [Representation]), the trace of
      outbound calls ([Call]), and the class [Services], the interface of
      every collaborator: all handler theorems hold for every instance,
      i.e. whatever the collaborators answer. [sample_services] is the
      concrete instance the witnesses run on.
    - [Runtime]: the context of one request ([Ctx]: collection, Express
      response, log, call trace, and [answered_at], the number of
      outbound calls made when the answer was written, which orders the
      answer among the calls), [restfulResponse] (a second write throws,
      as Express does), [Logger_error], [await_handle], and the
      controller's calls of the document operations; frame lemmas
      [preserves_by] with the hint base and tactic [mono], the graded
      frame [grows_by] (how much a computation raises a measure of the
      context: documents [store_count], outbound calls [call_count]) with
      the tactics [count] and [bound_by], the allowed answers [body_ok]
      and the frame [keeps_resp] with the tactic [answers], the tactic
      [unfold_js], run lemmas, and the claims on the document operations
      as the controller calls them (C17, C18).
    - [ConsumerExchange]: [reject_if], [ecosystem_branch],
      [bilateral_branch], [export_prefix] (the [try] block up to the
      creation), [export_suffix] (registration, answer, export trigger),
      [export_catch], [consumerExchange], one definition per part of the
      handler, and claims C1, C2, C4, C5, C15, C24, C30, C32-C34.
    - [ConsumerImport]: [software_resource_ref], [first_software_resource],
      [rest_dispatch], [import_pipeline] (the [try] block), [import_catch],
      [import_after] (all that follows the lookup), [consumerImport], and
      claims C3, C6, C8-C12, C19, C20, C31.
    - [System]: the connector as a transition system ([step]: one request
      served to completion on the collection), the abstract lifecycle of an
      exchange ([exch_step]: absent, created PENDING, resolved once into a
      terminal status, kept), the abstraction [abs_view], the composition
      of the two handlers, and claims C7, C13, C14, C16, C21-C23, C29, C35.
    - [Interleaving]: concurrent requests interleaved at their awaits. A
      request runs in two phases around its accesses to the collection
      ([start]: the export up to [DataExchange.create], the import's
      [findOne]; [resume]: the rest, on the collection as it is then);
      [cstep] starts a request or resumes any suspended one; [exec] runs a
      schedule and reaches exactly the states of [cstep]
      ([creachable_exec]); the serial connector is one schedule
      ([serial_is_interleaving]); claims C25-C28.

    ** What the theorems show
    - The export handler (C1, C2, C4, C5, C15): under an ecosystem contract
      no exchange is ever created and a valid request is refused with
      "Wrong purpose given" (the check tests an array, always truthy, and
      the validation answers do not return, so the next answer throws); a
      bilateral export creates the expected PENDING document, registers it,
      answers 200 after the registration and before the export trigger;
      a provider without endpoint is refused with 500 yet an exchange is
      created; one request adds at most one document (C24).
    - Bounds and error paths (C30-C34): an export makes at most four
      outbound calls and an import at most five, on every path (no
      retries); a bilateral export that is a duplicate of an in-flight
      exchange, whose contract cannot be fetched, or whose contract has no
      purpose entry is never answered (the [catch] block only logs) and
      stores nothing.
    - The import handler (C3, C6, C8-C12, C19, C20): every import for a
      known exchange is answered and leaves it terminal, changing no other
      exchange, and a duplicate callback for a terminal exchange changes
      nothing; an unknown one is never answered (the catch block fails on
      [null]); the outcome of each branch: API forward, plain REST delivery
      (success even if the post failed), non-REST type (success without
      delivery), missing endpoint (error status, success answer),
      exceptions (error status with the message, 500).
    - The collection (C7, C13, C14, C17, C18, C22, C23): every reachable
      collection is well-formed and has no PEP_ERROR (the policy gate is
      commented out); the connector refines the abstract lifecycle;
      terminal statuses are never left; duplicates are refused; terminal
      transitions are idempotent; every reachable collection holds at most
      one in-flight exchange per contract, resource, purpose and provider,
      and no exchange is ever deleted or has its identity fields changed.
    - End to end (C16, C21, C35): what the export stores is what the
      provider's callback reads back (the contract it fetches, the purpose
      it looks up in the catalog); a bilateral export whose registration
      succeeds creates a PENDING exchange that the callback, whatever the
      collaborators answer then, resolves into a terminal status. When the
      registration fails the exchange stays PENDING and no callback naming
      an identifier can reach it, but a callback without
      [providerDataExchange] settles it: [findOne] is queried for
      [undefined], which matches the documents without the field.
    - Concurrency (C25-C28): under every interleaving the conflict
      invariant holds (the duplicate check of [create] is atomic), a
      terminal status is never overwritten, even by an import that looked
      the exchange up before it was resolved, and each status history is
      the creation entry, or the creation entry and one terminal entry
      that is the current status; an import resumed with a stale document
      runs exactly as the serial handler at its resumption when the
      self-description processor throws alike on both versions, since the
      handler reads only the immutable fields of the document.
    - Answers (C29): every answer is none, a success envelope with 200, a
      failure envelope with 500, or the API's raw answer with 200.

    ** Modelling choices
    No fuel is needed: the handlers have no loops or recursion, and every
    definition is a terminating function evaluated by [vm_compute] in the
    witnesses. A field of a JSON document or request body that may be
    missing is [option string] ([None] for [undefined]); the collaborators'
    answers are settled before they are read (each [await] is a step of the
    monad); the handler's promise resolving or rejecting is [Ret] or
    [Throw]. Express refuses a second response: [restfulResponse] throws
    then, which is what stops the handlers after a validation answer.
    [DataExchange.findOne] returns the first match in insertion order;
    [apiResponseRepresentation] is kept as its truthiness;
    [selfDescriptionProcessor], called synchronously with the resource,
    the whole document, the contract and the contract document (line
    151), only as whether it throws, since its result is unused (the
    specification, section 4.4 step 2, asks this re-derivation to be
    side-effect free); the registration at the provider, when it fails, leaves the
    document without provider identifier, and [findOne] for [undefined]
    matches the documents without one (a query value [undefined] is sent
    as [null], which matches a missing field).

    ** Not modelled
    The policy gate (its call is commented out in the source), the HTTP
    routing layer, the persistence engine, the transports of the outbound
    calls (their answers are arbitrary, as [Services] instances), logging
    sinks and credentials; timestamps beyond a logical clock. Concurrent
    requests are interleaved at the awaits that reach the collection
    ([Interleaving]); the other awaits of a phase are not told apart, as
    the phase reads nothing of the collection before its one access.

    ** Open directions
    The uniqueness of the provider's identifiers across exchanges, which
    C21 and C27 take as a hypothesis, is a property of the provider and is
    not derived; the detached execution of the provider notification that
    the specification asks for (section 4.3) is not what the code does
    (it awaits it), and a model of a detached notification is left out.
    The axios response object is reduced to the self-description it
    carries ([ProviderSD]); with axios's default response the code reads
    [dataspaceEndpoint] on the wrapper, which a finding records. *)

From stdpp Require Import base list strings.
From Stdlib Require Import String.

(** ** Exceptions of the JavaScript runtime

    The controller raises three kinds of exception: a [TypeError] when it
    reads a property of [undefined] or [null], the Express error raised when
    a response is written twice, and the rejection of an awaited promise
    that is not wrapped in [handle] (e.g. [DataExchange.create]). *)
Inductive exn : Type :=
| TypeError (of_null : bool) (prop : string)
| HeadersSent
| Rejected (msg : string).

#[export] Instance exn_eq_dec : EqDecision exn.
Proof. solve_decision. Defined.

(** [e.message], the string the catch blocks log and store. *)
Definition exn_message (e : exn) : string :=
  match e with
  | TypeError n p =>
      "Cannot read properties of " ++ (if n then "null" else "undefined")
      ++ " (reading '" ++ p ++ "')"
  | HeadersSent => "Cannot set headers after they are sent to the client"
  | Rejected m => m
  end.

(** ** A state and exception monad

    An [async] handler runs as a function of the state it observes to the
    state it leaves and either a value or the exception it raises. *)
Inductive outcome (A : Type) : Type :=
| Ret (a : A)
| Throw (e : exn).
Arguments Ret {A} a.
Arguments Throw {A} e.

Definition M (S A : Type) : Type := S -> S * outcome A.

Definition ret {S A} (a : A) : M S A := fun s => (s, Ret a).

Definition bind {S A B} (m : M S A) (k : A -> M S B) : M S B :=
  fun s =>
    match m s with
    | (s', Ret a) => k a s'
    | (s', Throw e) => (s', Throw e)
    end.

Definition throw {S A} (e : exn) : M S A := fun s => (s, Throw e).

(** [try { m } catch (e) { h e }]. *)
Definition try_catch {S A} (m : M S A) (h : exn -> M S A) : M S A :=
  fun s =>
    match m s with
    | (s', Throw e) => h e s'
    | r => r
    end.

Definition gets {S A} (f : S -> A) : M S A := fun s => (s, Ret (f s)).

Definition modify {S} (f : S -> S) : M S unit := fun s => (f s, Ret tt).

Declare Scope js_scope.
Delimit Scope js_scope with js.
Notation "'let*' x := m 'in' k" := (bind m (fun x => k))
  (at level 10, x name, m at level 100, k at level 200) : js_scope.
Notation "'let*' ' p := m 'in' k" := (bind m (fun x => match x with p => k end))
  (at level 10, p pattern, m at level 100, k at level 200) : js_scope.
Notation "m ;; k" := (bind m (fun _ => k))
  (at level 100, right associativity) : js_scope.
Open Scope js_scope.

(** ** Settled promises *)

(** A promise once settled: fulfilled with a value or rejected with an
    error. *)
Inductive settled (A : Type) : Type :=
| Fulfilled (a : A)
| Failed (err : string).
Arguments Fulfilled {A} a.
Arguments Failed {A} err.

(** [handle(p)] resolves to [[data, undefined]] or [[undefined, error]]
    and never rejects. *)
Definition handle {A} (p : settled A) : option A * option string :=
  match p with
  | Fulfilled a => (Some a, None)
  | Failed e => (None, Some e)
  end.

Lemma handle_Fulfilled {A} (a : A) : handle (Fulfilled a) = (Some a, None).
Proof. reflexivity. Qed.

(** ** JavaScript values

    A field of a request body or of a fetched JSON document is [None] when
    it is [undefined]. *)

(** [!x] for a string field: [undefined] and [""] are falsy. *)
Definition truthy (o : option string) : bool :=
  match o with
  | Some s => negb (String.eqb s "")
  | None => false
  end.

(** [if (arr)] on an array: every object, the empty array included, is
    truthy. *)
Definition truthy_array {A} (l : list A) : bool :=
  match l with _ => true end.

(** [o.prop]: reading a property of [undefined] throws. *)
Definition deref {S A} (o : option A) (prop : string) : M S A :=
  match o with
  | Some a => ret a
  | None => throw (TypeError false prop)
  end.

(** The same on a value that is [null] when absent (a Mongoose query
    result). *)
Definition deref_null {S A} (o : option A) (prop : string) : M S A :=
  match o with
  | Some a => ret a
  | None => throw (TypeError true prop)
  end.

(** [arr[0]]: reading past the end gives [undefined]. *)
Definition nth0 {A} (l : list (option A)) : option A :=
  match l with
  | x :: _ => x
  | [] => None
  end.

(** [hay.includes(needle)]. *)
Fixpoint str_includes (needle hay : string) : bool :=
  String.prefix needle hay ||
  match hay with
  | EmptyString => false
  | String _ t => str_includes needle t
  end.

Lemma truthy_Some s : s <> "" -> truthy (Some s) = true.
Proof. intros Hs. simpl. by destruct (String.eqb_spec s ""). Qed.

Lemma find_app_None {A} (f : A -> bool) l1 l2 :
  List.find f l1 = None -> List.find f (l1 ++ l2) = List.find f l2.
Proof. induction l1 as [|x l1 IH]; simpl; [done|]. by destruct (f x). Qed.

(** [find] over an appended list looks in the second part only when the
    first has no match. *)
Lemma find_app {A} (f : A -> bool) l1 l2 :
  List.find f (l1 ++ l2) =
    match List.find f l1 with Some x => Some x | None => List.find f l2 end.
Proof. induction l1 as [|x l1 IH]; simpl; [done|]. by destruct (f x). Qed.

(** ** [String.prototype.includes] against its definition *)

(** The reference meaning of [hay.includes(needle)]: [needle] occurs in
    [hay] at some position. *)
Definition occurs_in (needle hay : string) : Prop :=
  exists pre suf, hay = String.append pre (String.append needle suf).

Lemma prefix_app_iff needle hay :
  String.prefix needle hay = true <-> exists suf, hay = String.append needle suf.
Proof.
  revert hay. induction needle as [|a n IH]; intros [|b t]; simpl.
  - split; [intros _; by exists ""|done].
  - split; [intros _; by exists (String b t)|done].
  - split; [done|]. by intros [suf ?].
  - destruct (Ascii.ascii_dec a b) as [->|Hab].
    + rewrite IH. split; intros [suf Hs]; exists suf; [by rewrite Hs|by inversion Hs].
    + split; [done|]. intros [suf Hs]. simpl in Hs. inversion Hs. by subst.
Qed.

Lemma str_includes_unfold needle hay :
  str_includes needle hay =
    String.prefix needle hay ||
    match hay with EmptyString => false | String _ t => str_includes needle t end.
Proof. by destruct hay. Qed.


(** The model of [contract.includes('contracts')] is
    [String.prototype.includes]: [str_includes needle hay] holds exactly
    when [needle] occurs in [hay] at some position, the empty needle
    included. *)
Lemma str_includes_occurs needle hay : str_includes needle hay = true <-> occurs_in needle hay.
Proof.
  unfold occurs_in. induction hay as [|c t IH];
    rewrite str_includes_unfold, orb_true_iff, prefix_app_iff.
  - split.
    + intros [[suf Hs]|?]; [by exists "", suf|done].
    + intros ([|c' pre] & suf & Hs); simpl in Hs; [left; by exists suf|discriminate].
  - split.
    + intros [[suf Hs]|(pre & suf & Hs)%IH]; [by exists "", suf|].
      exists (String c pre), suf. simpl. by rewrite Hs.
    + intros ([|c' pre] & suf & Hs); simpl in Hs; [left; by exists suf|].
      right. apply IH. injection Hs as -> Ht. by exists pre, suf.
Qed.
