(* ===== verification/ExchangeStore.v ===== *)
(** * The DataExchange collection

    The Mongoose model [DataExchange] of [utils/types/dataExchange] and the
    status enumeration of [utils/enums/dataExchangeStatusEnum], which the
    controller uses through [DataExchange.create], [DataExchange.findOne]
    and the document methods [updateStatus] and
    [createDataExchangeToOtherParticipant]. These files are not in the
    sources given here: their behaviour is the one the specification gives
    the Exchange Record Store (section 4.2): creation refuses an in-flight
    duplicate, a transition out of a terminal status is refused and logged,
    repeating the terminal transition is a no-op. *)

From stdpp Require Import base list sets strings.
From Stdlib Require Import String.
From S2P Require Import Prelude.

(** ** Data *)

Inductive DataExchangeStatusEnum :=
| PENDING
| IMPORT_SUCCESS
| CONSUMER_IMPORT_ERROR
| PEP_ERROR.

#[export] Instance DataExchangeStatusEnum_eq_dec : EqDecision DataExchangeStatusEnum.
Proof. solve_decision. Defined.

Definition is_terminal (st : DataExchangeStatusEnum) : bool :=
  match st with
  | PENDING => false
  | _ => true
  end.

Record DataExchange := mkDataExchange {
  _id : nat;
  providerEndpoint : option string;
  resourceId : option string;
  purposeId : option string;
  contract : option string;
  status : DataExchangeStatusEnum;
  providerDataExchange : option string;
  error : option string;
  statusHistory : list (DataExchangeStatusEnum * option string);
  createdAt : nat;
  updatedAt : nat
}.

(** The object literal the controller passes to [DataExchange.create]. *)
Record DataExchangeFields := mkFields {
  f_providerEndpoint : option string;
  f_resourceId : option string;
  f_purposeId : option string;
  f_contract : option string;
  f_status : DataExchangeStatusEnum
}.

(** The collection in insertion order, the next identifier and the clock
    that timestamps writes. *)
Record Store := mkStore {
  records : list DataExchange;
  next_id : nat;
  clock : nat
}.

Definition empty_store : Store := mkStore [] 0 0.

(** ** Operations *)

Definition new_record (f : DataExchangeFields) (id now : nat) : DataExchange :=
  mkDataExchange id (f_providerEndpoint f) (f_resourceId f) (f_purposeId f)
    (f_contract f) (f_status f) None None [(f_status f, None)] now now.

Definition set_status (r : DataExchange) (st : DataExchangeStatusEnum)
    (err : option string) (now : nat) : DataExchange :=
  mkDataExchange (_id r) (providerEndpoint r) (resourceId r) (purposeId r)
    (contract r) st (providerDataExchange r) err
    (statusHistory r ++ [(st, err)]) (createdAt r) now.

Definition set_provider_exchange (r : DataExchange) (pde : string) (now : nat)
    : DataExchange :=
  mkDataExchange (_id r) (providerEndpoint r) (resourceId r) (purposeId r)
    (contract r) (status r) (Some pde) (error r) (statusHistory r)
    (createdAt r) now.

Definition find_by_id (id : nat) (l : list DataExchange) : option DataExchange :=
  List.find (fun r => Nat.eqb (_id r) id) l.

Definition replace_by_id (r : DataExchange) (l : list DataExchange)
    : list DataExchange :=
  map (fun x => if Nat.eqb (_id x) (_id r) then r else x) l.

(** An in-flight exchange with the same contract, resource, purpose and
    counterpart. *)
Definition same_key (f : DataExchangeFields) (r : DataExchange) : bool :=
  bool_decide (contract r = f_contract f) &&
  bool_decide (resourceId r = f_resourceId f) &&
  bool_decide (purposeId r = f_purposeId f) &&
  bool_decide (providerEndpoint r = f_providerEndpoint f) &&
  negb (is_terminal (status r)).

(** [DataExchange.create(fields)]. *)
Definition create (f : DataExchangeFields) (s : Store)
    : Store * settled DataExchange :=
  if existsb (same_key f) (records s) then (s, Failed "DuplicateExchange")
  else
    let r := new_record f (next_id s) (clock s) in
    (mkStore (records s ++ [r]) (S (next_id s)) (S (clock s)), Fulfilled r).

(** [DataExchange.findOne({providerDataExchange: pde})]: the first document
    in insertion order whose field equals [pde]; [undefined] matches the
    documents where the field is absent. *)
Definition findOne (pde : option string) (s : Store) : option DataExchange :=
  List.find (fun r => bool_decide (providerDataExchange r = pde)) (records s).

Inductive Transition := Apply | Idempotent | InvalidTransition.

Definition transition (cur : DataExchange) (st : DataExchangeStatusEnum)
    (err : option string) : Transition :=
  if is_terminal (status cur) then
    if bool_decide (status cur = st /\ error cur = err) then Idempotent
    else InvalidTransition
  else Apply.

(** [doc.updateStatus(st, err)] on the stored version of [doc]; [None] when
    the document is not stored. *)
Definition updateStatus (d : DataExchange) (st : DataExchangeStatusEnum)
    (err : option string) (s : Store) : Store * option Transition :=
  match find_by_id (_id d) (records s) with
  | None => (s, None)
  | Some cur =>
      match transition cur st err with
      | Apply =>
          (mkStore (replace_by_id (set_status cur st err (clock s)) (records s))
             (next_id s) (S (clock s)), Some Apply)
      | t => (s, Some t)
      end
  end.

(** Records the provider's identifier of the exchange once the provider
    has registered it. *)
Definition setProviderDataExchange (d : DataExchange) (pde : string) (s : Store)
    : Store :=
  match find_by_id (_id d) (records s) with
  | None => s
  | Some cur =>
      mkStore (replace_by_id (set_provider_exchange cur pde (clock s)) (records s))
        (next_id s) (S (clock s))
  end.

(** ** Invariant and evolution of the collection *)

Definition history_ok (r : DataExchange) : Prop :=
  last (statusHistory r) = Some (status r, error r).

Definition store_wf (s : Store) : Prop :=
  NoDup (map _id (records s)) /\
  Forall (fun r => _id r < next_id s /\ history_ok r) (records s).

(** [r'] is a later version of the document [r]: same identity, and a
    terminal document is frozen. *)
Definition exchange_le (r r' : DataExchange) : Prop :=
  _id r' = _id r /\ providerEndpoint r' = providerEndpoint r /\
  resourceId r' = resourceId r /\ purposeId r' = purposeId r /\
  contract r' = contract r /\ createdAt r' = createdAt r /\
  (is_terminal (status r) = true -> status r' = status r /\ error r' = error r).

Definition store_le (s s' : Store) : Prop :=
  next_id s <= next_id s' /\
  forall r, r ∈ records s -> exists r', r' ∈ records s' /\ exchange_le r r'.

Definition no_pep (s : Store) : Prop :=
  Forall (fun r => status r <> PEP_ERROR) (records s).

(** Every document of [s'] is a document of [s] with the same status, or a
    new PENDING one. *)
Definition status_kept (s s' : Store) : Prop :=
  next_id s <= next_id s' /\
  forall r', r' ∈ records s' ->
    (exists r, r ∈ records s /\ _id r = _id r' /\ status r = status r') \/
    (next_id s <= _id r' /\ status r' = PENDING).

(** No document is added. *)
Definition no_new (s s' : Store) : Prop :=
  next_id s' = next_id s /\
  forall r', r' ∈ records s' -> exists r, r ∈ records s /\ _id r = _id r'.

(** The conflict key of an exchange (section 3): contract, resource,
    purpose and counterpart. *)
Definition exchange_key (r : DataExchange)
    : option string * option string * option string * option string :=
  (contract r, resourceId r, purposeId r, providerEndpoint r).

Definition inflight (r : DataExchange) : bool := negb (is_terminal (status r)).

(** At most one in-flight exchange per conflict key. *)
Definition inflight_unique (s : Store) : Prop :=
  forall r1 r2, r1 ∈ records s -> r2 ∈ records s ->
    inflight r1 = true -> inflight r2 = true ->
    exchange_key r1 = exchange_key r2 -> _id r1 = _id r2.

(** The status history of a document follows the state machine of the
    specification (section 4.2): created [PENDING], then resolved at most
    once into a terminal status, which is the last entry. *)
Definition history_shape (r : DataExchange) : Prop :=
  statusHistory r = [(PENDING, None)] \/
  (is_terminal (status r) = true /\ statusHistory r = [(PENDING, None); (status r, error r)]).

Definition histories_ok (s : Store) : Prop := Forall history_shape (records s).

(** A sample creation, used by the witnesses. *)
Definition sample_fields : DataExchangeFields :=
  mkFields (Some "https://provider.example/") (Some "so-1") (Some "so-2")
    (Some "https://contract.example/bilaterals/1") PENDING.

(** ** Lemmas on the collection *)

Create HintDb store discriminated.

#[export] Instance exchange_le_preorder : PreOrder exchange_le.
Proof.
  split.
  - intros r. repeat split; done.
  - intros r1 r2 r3 (?&?&?&?&?&?&H12) (?&?&?&?&?&?&H23).
    do 6 (split; [congruence|]). intros Ht.
    destruct (H12 Ht) as [Hs He]. rewrite <- Hs in Ht.
    destruct (H23 Ht). split; congruence.
Qed.

#[export] Instance store_le_preorder : PreOrder store_le.
Proof.
  split.
  - intros s. split; [lia|]. intros r Hr. exists r. split; [done|reflexivity].
  - intros s1 s2 s3 [Hn12 H12] [Hn23 H23]. split; [lia|].
    intros r Hr. destruct (H12 r Hr) as (r2 & Hr2 & Hle2).
    destruct (H23 r2 Hr2) as (r3 & Hr3 & Hle3).
    exists r3. split; [done|]. by transitivity r2.
Qed.

Lemma find_by_id_Some id l r :
  find_by_id id l = Some r -> r ∈ l /\ _id r = id.
Proof.
  unfold find_by_id. intros Hf.
  apply List.find_some in Hf as [Hin Hid].
  split; [by apply list_elem_of_In | by apply Nat.eqb_eq].
Qed.

Lemma find_by_id_elem l r :
  NoDup (map _id l) -> r ∈ l -> find_by_id (_id r) l = Some r.
Proof.
  induction l as [|x l IH]; simpl; intros Hnd Hin; [set_solver|].
  apply NoDup_cons in Hnd as [Hx Hnd].
  apply elem_of_cons in Hin as [->|Hin]; [by rewrite Nat.eqb_refl|].
  destruct (Nat.eqb_spec (_id x) (_id r)) as [Heq|]; [|by apply IH].
  exfalso. apply Hx. rewrite Heq. apply list_elem_of_In, in_map, list_elem_of_In, Hin.
Qed.

Lemma replace_by_id_ids r l : map _id (replace_by_id r l) = map _id l.
Proof.
  induction l as [|x l IH]; simpl; [done|].
  rewrite IH. destruct (Nat.eqb_spec (_id x) (_id r)); congruence.
Qed.

Lemma elem_of_replace_by_id r l y :
  y ∈ replace_by_id r l -> y = r \/ (y ∈ l /\ _id y <> _id r).
Proof.
  induction l as [|x l IH]; simpl; [set_solver|].
  rewrite elem_of_cons. intros [->|Hy].
  - destruct (Nat.eqb_spec (_id x) (_id r)); [by left|right; set_solver].
  - destruct (IH Hy) as [|[? ?]]; [by left|right; set_solver].
Qed.

Lemma replace_by_id_elem r l y :
  y ∈ l -> (if Nat.eqb (_id y) (_id r) then r else y) ∈ replace_by_id r l.
Proof.
  induction l as [|x l IH]; simpl; [set_solver|].
  rewrite !elem_of_cons. intros [->|Hy]; [by left|right; by apply IH].
Qed.

Lemma find_by_id_replace id l cur r :
  find_by_id id l = Some cur -> _id r = id ->
  find_by_id id (replace_by_id r l) = Some r.
Proof.
  unfold find_by_id, replace_by_id. intros Hf <-. revert Hf.
  induction l as [|x l IH]; simpl; [done|].
  destruct (Nat.eqb_spec (_id x) (_id r)); simpl.
  - by rewrite Nat.eqb_refl.
  - rewrite (proj2 (Nat.eqb_neq _ _)) by done. apply IH.
Qed.

#[export] Hint Resolve find_by_id_Some find_by_id_elem : store.

Lemma Forall_replace_by_id (P : DataExchange -> Prop) r l :
  Forall P l -> P r -> Forall P (replace_by_id r l).
Proof.
  rewrite !Forall_forall. intros Hl Hr y Hy.
  destruct (elem_of_replace_by_id r l y Hy) as [->|[Hy' _]]; [done|].
  by apply Hl.
Qed.

Lemma set_status_le cur st err now :
  is_terminal (status cur) = false -> exchange_le cur (set_status cur st err now).
Proof. intros Hnt. repeat split; congruence. Qed.

Lemma set_provider_exchange_le cur pde now :
  exchange_le cur (set_provider_exchange cur pde now).
Proof. repeat split; done. Qed.

Lemma set_status_history cur st err now :
  history_ok (set_status cur st err now).
Proof. unfold history_ok. simpl. by rewrite last_snoc. Qed.

Lemma set_provider_exchange_history cur pde now :
  history_ok cur -> history_ok (set_provider_exchange cur pde now).
Proof. done. Qed.

Lemma transition_set_status cur st err now :
  is_terminal st = true -> transition (set_status cur st err now) st err = Idempotent.
Proof. intros Ht. unfold transition. simpl. rewrite Ht. by rewrite bool_decide_true. Qed.

(** Replacing a stored document by a later version of it. *)
Lemma replace_store_le s cur r' n c :
  store_wf s -> cur ∈ records s -> _id r' = _id cur -> exchange_le cur r' ->
  next_id s <= n -> store_le s (mkStore (replace_by_id r' (records s)) n c).
Proof.
  intros [Hnd _] Hcur Hid Hle Hn. split; [done|]. intros y Hy.
  exists (if Nat.eqb (_id y) (_id r') then r' else y).
  split; [by apply replace_by_id_elem|].
  destruct (Nat.eqb_spec (_id y) (_id r')) as [E|]; [|reflexivity].
  assert (y = cur) as ->; [|done].
  apply find_by_id_elem in Hy, Hcur; [|done..]. congruence.
Qed.

Lemma replace_store_wf s cur r' n c :
  store_wf s -> cur ∈ records s -> _id r' = _id cur -> history_ok r' ->
  next_id s <= n -> store_wf (mkStore (replace_by_id r' (records s)) n c).
Proof.
  intros [Hnd Hall] Hcur Hid Hh Hn. split; simpl; [by rewrite replace_by_id_ids|].
  apply Forall_replace_by_id.
  - eapply Forall_impl; [done|]. simpl. intros ? []; split; [lia|done].
  - rewrite Forall_forall in Hall. destruct (Hall cur Hcur). split; [lia|done].
Qed.

#[export] Hint Resolve set_status_le set_provider_exchange_le set_status_history
  set_provider_exchange_history replace_store_le replace_store_wf : store.

Lemma create_Fulfilled f s s' r :
  create f s = (s', Fulfilled r) ->
  existsb (same_key f) (records s) = false /\ r = new_record f (next_id s) (clock s) /\
  s' = mkStore (records s ++ [r]) (S (next_id s)) (S (clock s)).
Proof. unfold create. destruct existsb; intros [= <- <-]; done. Qed.

Lemma create_Failed f s s' e : create f s = (s', Failed e) -> s' = s.
Proof. unfold create. destruct existsb; by intros [= <- _]. Qed.

Lemma create_store_le f s : store_le s (fst (create f s)).
Proof.
  unfold create. destruct existsb; simpl; [reflexivity|].
  split; simpl; [lia|]. intros r Hr. exists r. split; [set_solver|reflexivity].
Qed.

Lemma create_wf f s : store_wf s -> store_wf (fst (create f s)).
Proof.
  unfold create. destruct existsb; simpl; [done|]. intros [Hnd Hall].
  split; simpl.
  - rewrite map_app. apply NoDup_app. split_and!; [done| |by apply NoDup_singleton].
    intros i Hi ->%list_elem_of_singleton. simpl in Hi.
    apply list_elem_of_In, in_map_iff in Hi as (r & Hid & Hr%list_elem_of_In).
    rewrite Forall_forall in Hall. destruct (Hall r Hr). lia.
  - apply Forall_app. split.
    + eapply Forall_impl; [done|]. simpl. intros ? []; split; [lia|done].
    + apply Forall_singleton. split; [simpl; lia|done].
Qed.

Lemma updateStatus_store_le d st err s :
  store_wf s -> store_le s (fst (updateStatus d st err s)).
Proof.
  intros Hwf. unfold updateStatus.
  destruct (find_by_id _ _) as [cur|] eqn:F; [|reflexivity].
  apply find_by_id_Some in F as [Hin _].
  unfold transition. destruct (is_terminal (status cur)) eqn:Ht;
    [case_bool_decide; simpl; reflexivity|].
  simpl. eauto with store.
Qed.

Lemma updateStatus_wf d st err s :
  store_wf s -> store_wf (fst (updateStatus d st err s)).
Proof.
  intros Hwf. unfold updateStatus.
  destruct (find_by_id _ _) as [cur|] eqn:F; [|done].
  apply find_by_id_Some in F as [Hin _].
  destruct (transition cur st err); simpl; eauto with store.
Qed.

Lemma setProviderDataExchange_store_le d pde s :
  store_wf s -> store_le s (setProviderDataExchange d pde s).
Proof.
  intros Hwf. unfold setProviderDataExchange.
  destruct (find_by_id _ _) as [cur|] eqn:F; [|reflexivity].
  apply find_by_id_Some in F as [Hin _]. eauto with store.
Qed.

Lemma setProviderDataExchange_wf d pde s :
  store_wf s -> store_wf (setProviderDataExchange d pde s).
Proof.
  intros Hwf. unfold setProviderDataExchange.
  destruct (find_by_id _ _) as [cur|] eqn:F; [|done].
  apply find_by_id_Some in F as [Hin _].
  apply (replace_store_wf s cur); auto.
  apply set_provider_exchange_history.
  destruct Hwf as [_ Hall]. rewrite Forall_forall in Hall.
  by destruct (Hall cur Hin).
Qed.

Lemma find_pde_replace l id cur r pde :
  find_by_id id l = Some cur -> _id r = id -> providerDataExchange r = Some pde ->
  List.find (fun x => bool_decide (providerDataExchange x = Some pde)) l = None ->
  List.find (fun x => bool_decide (providerDataExchange x = Some pde))
    (replace_by_id r l) = Some r.
Proof.
  unfold find_by_id, replace_by_id. intros Hf <- Hr. revert Hf.
  induction l as [|x l IH]; simpl; [done|].
  destruct (Nat.eqb_spec (_id x) (_id r)); simpl.
  - intros _ _. by rewrite bool_decide_true.
  - destruct (bool_decide (providerDataExchange x = Some pde)); [done|].
    intros. by apply IH.
Qed.

Lemma updateStatus_again d st err s s1 t :
  is_terminal st = true -> updateStatus d st err s = (s1, t) ->
  updateStatus d st err s1 =
    (s1, match t with Some Apply => Some Idempotent | _ => t end).
Proof.
  intros Ht. unfold updateStatus at 1.
  destruct (find_by_id _ _) as [cur|] eqn:F;
    [|intros [= <- <-]; unfold updateStatus; by rewrite F].
  destruct (transition cur st err) eqn:T; intros [= <- <-]; unfold updateStatus;
    [|by rewrite F, T..].
  simpl. pose proof (find_by_id_Some _ _ _ F) as [_ Hid].
  rewrite (find_by_id_replace _ _ cur) by done. by rewrite transition_set_status.
Qed.

(** ** Properties of the collection *)

(** Creating the same in-flight exchange twice is refused: once
    [DataExchange.create] has stored a PENDING document, a second creation
    with the same contract, resource, purpose and provider endpoint fails
    with [DuplicateExchange] and leaves the collection unchanged. *)
Theorem create_duplicate f s s1 r :
  f_status f = PENDING -> create f s = (s1, Fulfilled r) ->
  create f s1 = (s1, Failed "DuplicateExchange").
Proof.
  intros Hst (_ & -> & ->)%create_Fulfilled.
  unfold create. simpl. rewrite existsb_app. simpl.
  unfold same_key. simpl. rewrite Hst, !bool_decide_true by done.
  by rewrite orb_true_r.
Qed.

(** A terminal transition is idempotent: applying
    [updateStatus(st, err)] with a terminal [st] a second time changes
    nothing, neither the status history nor [updatedAt], and is not an
    applied transition. *)
Theorem updateStatus_idempotent d st err s :
  is_terminal st = true ->
  let s1 := fst (updateStatus d st err s) in
  fst (updateStatus d st err s1) = s1 /\ snd (updateStatus d st err s1) <> Some Apply.
Proof.
  intros Ht. destruct (updateStatus d st err s) as [s1 t] eqn:E. simpl.
  rewrite (updateStatus_again _ _ _ _ _ _ Ht E). simpl.
  split; [done|]. by destruct t as [[]|].
Qed.

(** Registering the provider's identifier is a round trip with
    [findOne]: after [setProviderDataExchange d pde], looking the
    collection up by [providerDataExchange = pde] finds the updated
    document [d], when no document carried [pde] before. *)
Theorem findOne_setProviderDataExchange d pde s cur :
  find_by_id (_id d) (records s) = Some cur -> findOne (Some pde) s = None ->
  findOne (Some pde) (setProviderDataExchange d pde s) =
    Some (set_provider_exchange cur pde (clock s)).
Proof.
  intros F Hnone. unfold setProviderDataExchange. rewrite F.
  unfold findOne. simpl. eapply find_pde_replace; [done| |done|done].
  simpl. by apply find_by_id_Some in F as [_ ->].
Qed.

(** No stored document carries the next identifier. *)
Lemma find_by_id_next s : store_wf s -> find_by_id (next_id s) (records s) = None.
Proof.
  intros [_ Hall]. unfold find_by_id.
  induction Hall as [|x l [Hx _] _ IH]; simpl; [done|].
  destruct (Nat.eqb_spec (_id x) (next_id s)); [lia|done].
Qed.

(** Creating a fresh document and recording the provider's identifier
    [p] on it makes it the document [findOne] answers for [p], when no
    document carried [p] before. *)
Lemma findOne_create_register f s p :
  store_wf s -> existsb (same_key f) (records s) = false -> findOne (Some p) s = None ->
  let d := new_record f (next_id s) (clock s) in
  findOne (Some p) (setProviderDataExchange d p (fst (create f s))) =
    Some (set_provider_exchange d p (S (clock s))).
Proof.
  intros Hwf Hfresh Hnone d. unfold create. rewrite Hfresh.
  apply findOne_setProviderDataExchange.
  - simpl. unfold find_by_id. rewrite find_app_None by (by apply find_by_id_next).
    simpl. by rewrite Nat.eqb_refl.
  - unfold findOne in *. simpl. by rewrite find_app_None.
Qed.

(** A fresh document carries no provider identifier: looking up an
    identifier finds what it found before the creation. *)
Lemma findOne_create_Some f s p :
  findOne (Some p) (fst (create f s)) = findOne (Some p) s.
Proof.
  unfold create, findOne. destruct (existsb _ _); [done|].
  cbn [fst records]. rewrite find_app. destruct (List.find _ _); [done|]. cbn [List.find].
  by rewrite bool_decide_false.
Qed.

(** [findOne({providerDataExchange: undefined})] after a creation finds the
    new document, when no document lacked the identifier before. *)
Lemma findOne_create_None f s :
  existsb (same_key f) (records s) = false -> findOne None s = None ->
  findOne None (fst (create f s)) = Some (new_record f (next_id s) (clock s)).
Proof.
  intros Hfresh Hnone. unfold create. rewrite Hfresh. unfold findOne in *.
  cbn [fst records]. rewrite find_app, Hnone. cbn [List.find]. by rewrite bool_decide_true.
Qed.

(** ** No document is ever marked PEP_ERROR by these operations unless
    asked to *)

Lemma create_no_pep f s :
  f_status f <> PEP_ERROR -> no_pep s -> no_pep (fst (create f s)).
Proof.
  intros Hf Hs. unfold create. destruct existsb; simpl; [done|].
  unfold no_pep. simpl. apply Forall_app. split; [done|]. by apply Forall_singleton.
Qed.

Lemma updateStatus_no_pep d st err s :
  st <> PEP_ERROR -> no_pep s -> no_pep (fst (updateStatus d st err s)).
Proof.
  intros Hst Hs. unfold updateStatus.
  destruct (find_by_id _ _); [|done]. destruct transition; [|done..].
  by apply Forall_replace_by_id.
Qed.

Lemma setProviderDataExchange_no_pep d pde s :
  no_pep s -> no_pep (setProviderDataExchange d pde s).
Proof.
  intros Hs. unfold setProviderDataExchange.
  destruct (find_by_id _ _) as [cur|] eqn:F; [|done].
  apply Forall_replace_by_id; [done|]. simpl.
  apply find_by_id_Some in F as [Hin _]. unfold no_pep in Hs.
  rewrite Forall_forall in Hs. by apply Hs.
Qed.

(** ** Lookups after a transition *)

Lemma findOne_elem pde s d : findOne pde s = Some d -> d ∈ records s.
Proof. unfold findOne. intros [Hin _]%List.find_some. by apply list_elem_of_In. Qed.

Lemma find_by_id_exists l d : d ∈ l -> exists cur, find_by_id (_id d) l = Some cur.
Proof.
  intros Hd. destruct (find_by_id (_id d) l) as [cur|] eqn:F; [by eexists|].
  apply list_elem_of_In in Hd. unfold find_by_id in F.
  pose proof (List.find_none _ _ F d Hd) as Hn. simpl in Hn. by rewrite Nat.eqb_refl in Hn.
Qed.

(** After a transition to a terminal status, the stored version of the
    document is terminal, whether the transition applied or was refused. *)
Lemma updateStatus_terminal d st err s cur :
  is_terminal st = true -> find_by_id (_id d) (records s) = Some cur ->
  exists d', find_by_id (_id d) (records (fst (updateStatus d st err s))) = Some d' /\
    is_terminal (status d') = true.
Proof.
  intros Ht F. unfold updateStatus. rewrite F. unfold transition.
  destruct (is_terminal (status cur)) eqn:Hc.
  - case_bool_decide; simpl; eauto.
  - simpl. exists (set_status cur st err (clock s)). split; [|done].
    apply (find_by_id_replace _ _ cur); [done|]. simpl. by apply find_by_id_Some in F as [_ ->].
Qed.

(** ** Finer evolutions of the collection *)

#[export] Instance status_kept_preorder : PreOrder status_kept.
Proof.
  split.
  - intros s. split; [lia|]. intros r' Hr'. left. by exists r'.
  - intros s1 s2 s3 [Hn12 H12] [Hn23 H23]. split; [lia|]. intros r3 Hr3.
    destruct (H23 r3 Hr3) as [(r2 & Hr2 & Hid & Hst)|[Hge Hp]]; [|right; split; [lia|done]].
    destruct (H12 r2 Hr2) as [(r1 & Hr1 & Hid' & Hst')|[Hge Hp]].
    + left. exists r1. split_and!; congruence.
    + right. split; congruence.
Qed.

#[export] Instance no_new_preorder : PreOrder no_new.
Proof.
  split.
  - intros s. split; [done|]. intros r' Hr'. by exists r'.
  - intros s1 s2 s3 [Hn12 H12] [Hn23 H23]. split; [congruence|]. intros r3 Hr3.
    destruct (H23 r3 Hr3) as (r2 & Hr2 & Hid). destruct (H12 r2 Hr2) as (r1 & Hr1 & Hid').
    exists r1. split; [done|congruence].
Qed.

Lemma create_status_kept f s :
  f_status f = PENDING -> status_kept s (fst (create f s)).
Proof.
  intros Hf. unfold create. destruct existsb; simpl; [reflexivity|].
  split; [simpl; lia|]. intros r' Hr'. apply elem_of_app in Hr' as [Hr'|Hr'].
  - left. by exists r'.
  - apply list_elem_of_singleton in Hr' as ->. right. simpl. split; [lia|done].
Qed.

(** Replacing a stored document by a version with the same identifier and
    status. *)
Lemma replace_status_kept s cur r' c :
  cur ∈ records s -> _id r' = _id cur -> status r' = status cur ->
  status_kept s (mkStore (replace_by_id r' (records s)) (next_id s) c).
Proof.
  intros Hcur Hid Hst. split; simpl; [lia|]. intros y Hy. left.
  destruct (elem_of_replace_by_id _ _ _ Hy) as [->|[Hy' _]]; [by exists cur|by exists y].
Qed.

Lemma replace_no_new s cur r' c :
  cur ∈ records s -> _id r' = _id cur ->
  no_new s (mkStore (replace_by_id r' (records s)) (next_id s) c).
Proof.
  intros Hcur Hid. split; [done|]. intros y Hy.
  destruct (elem_of_replace_by_id _ _ _ Hy) as [->|[Hy' _]]; [by exists cur|by exists y].
Qed.

Lemma setProviderDataExchange_status_kept d p s :
  status_kept s (setProviderDataExchange d p s).
Proof.
  unfold setProviderDataExchange. destruct (find_by_id _ _) as [cur|] eqn:F; [|reflexivity].
  apply find_by_id_Some in F as [Hin _]. by apply (replace_status_kept _ cur).
Qed.

Lemma updateStatus_no_new d st err s : no_new s (fst (updateStatus d st err s)).
Proof.
  unfold updateStatus. destruct (find_by_id _ _) as [cur|] eqn:F; [|reflexivity].
  apply find_by_id_Some in F as [Hin _].
  destruct transition; simpl; [by apply (replace_no_new _ cur)|reflexivity..].
Qed.

(** ** At most one in-flight exchange per key *)

Lemma same_key_spec f r :
  same_key f r = true <->
  exchange_key r = (f_contract f, f_resourceId f, f_purposeId f, f_providerEndpoint f) /\
  inflight r = true.
Proof.
  unfold same_key, exchange_key, inflight. rewrite !andb_true_iff, !bool_decide_eq_true.
  split; [intros [[[[-> ->] ->] ->] ->]; done|].
  intros [[= -> -> -> ->] ->]. done.
Qed.

Lemma create_inflight_unique f s : inflight_unique s -> inflight_unique (fst (create f s)).
Proof.
  unfold create. destruct existsb eqn:E; [done|]. simpl. intros H y1 y2 Hy1 Hy2 Hi1 Hi2 Hk.
  assert (forall y, y ∈ records s -> inflight y = true ->
            exchange_key y = exchange_key (new_record f (next_id s) (clock s)) -> False) as Hnew.
  { intros y Hy Hi Hky. assert (same_key f y = true) as Hs by (by apply same_key_spec).
    enough (existsb (same_key f) (records s) = true) by congruence.
    apply existsb_exists. exists y. split; [by apply list_elem_of_In|done]. }
  apply elem_of_app in Hy1, Hy2.
  destruct Hy1 as [Hy1|Hy1%list_elem_of_singleton], Hy2 as [Hy2|Hy2%list_elem_of_singleton];
    subst; [by apply H|exfalso..|done].
  - by apply (Hnew y1).
  - by apply (Hnew y2).
Qed.

(** Replacing a document by a version with the same key that is in flight
    only if the document was. *)
Lemma replace_inflight_unique s cur r' n c :
  inflight_unique s -> cur ∈ records s -> _id r' = _id cur ->
  exchange_key r' = exchange_key cur -> (inflight r' = true -> inflight cur = true) ->
  inflight_unique (mkStore (replace_by_id r' (records s)) n c).
Proof.
  intros H Hcur Hid Hk Hi.
  assert (forall y, y ∈ replace_by_id r' (records s) -> inflight y = true ->
            exists x, x ∈ records s /\ _id x = _id y /\ exchange_key x = exchange_key y /\
              inflight x = true) as Hback.
  { intros y Hy Hiy. destruct (elem_of_replace_by_id _ _ _ Hy) as [->|[Hy' _]].
    - exists cur. auto.
    - by exists y. }
  intros y1 y2 Hy1 Hy2 Hi1 Hi2 Hk12. simpl in *.
  destruct (Hback y1 Hy1 Hi1) as (x1 & Hx1 & <- & Hk1 & Hix1).
  destruct (Hback y2 Hy2 Hi2) as (x2 & Hx2 & <- & Hk2 & Hix2).
  apply H; [done..|congruence].
Qed.

Lemma updateStatus_inflight_unique d st err s :
  inflight_unique s -> inflight_unique (fst (updateStatus d st err s)).
Proof.
  intros H. unfold updateStatus. destruct (find_by_id _ _) as [cur|] eqn:F; [|done].
  apply find_by_id_Some in F as [Hin _]. unfold transition.
  destruct (is_terminal (status cur)) eqn:Ht; [by case_bool_decide|].
  apply (replace_inflight_unique _ cur); [done..|]. unfold inflight. by rewrite Ht.
Qed.

Lemma setProviderDataExchange_inflight_unique d p s :
  inflight_unique s -> inflight_unique (setProviderDataExchange d p s).
Proof.
  intros H. unfold setProviderDataExchange.
  destruct (find_by_id _ _) as [cur|] eqn:F; [|done].
  apply find_by_id_Some in F as [Hin _]. by apply (replace_inflight_unique _ cur).
Qed.

(** ** Status histories *)

Lemma create_histories f s :
  f_status f = PENDING -> histories_ok s -> histories_ok (fst (create f s)).
Proof.
  intros Hf Hs. unfold create. destruct existsb; simpl; [done|].
  apply Forall_app. split; [done|]. apply Forall_singleton. left. simpl. by rewrite Hf.
Qed.

Lemma setProviderDataExchange_histories d p s :
  histories_ok s -> histories_ok (setProviderDataExchange d p s).
Proof.
  intros Hs. unfold setProviderDataExchange.
  destruct (find_by_id _ _) as [cur|] eqn:F; [|done].
  apply find_by_id_Some in F as [Hin _]. apply Forall_replace_by_id; [done|].
  unfold histories_ok in Hs. rewrite Forall_forall in Hs. apply (Hs cur Hin).
Qed.

(** A transition into a terminal status resolves a [PENDING] document
    once: its history gets the one terminal entry. *)
Lemma updateStatus_histories d st err s :
  is_terminal st = true -> histories_ok s -> histories_ok (fst (updateStatus d st err s)).
Proof.
  intros Ht Hs. unfold updateStatus.
  destruct (find_by_id _ _) as [cur|] eqn:F; [|done].
  apply find_by_id_Some in F as [Hin _]. unfold transition.
  destruct (is_terminal (status cur)) eqn:Hc; [by case_bool_decide|]. simpl.
  apply Forall_replace_by_id; [done|].
  unfold histories_ok in Hs. rewrite Forall_forall in Hs.
  destruct (Hs cur Hin) as [Hh|[Ht' _]]; [|congruence].
  right. simpl. by rewrite Hh.
Qed.

(** ** Deciding the invariant *)

#[export] Instance history_ok_dec r : Decision (history_ok r).
Proof. unfold history_ok. apply _. Defined.

#[export] Instance store_wf_dec s : Decision (store_wf s).
Proof. unfold store_wf. apply _. Defined.

(** A transition of a document stored in a terminal status changes
    nothing. *)
Lemma updateStatus_terminal_noop d st err s cur :
  find_by_id (_id d) (records s) = Some cur -> is_terminal (status cur) = true ->
  fst (updateStatus d st err s) = s.
Proof.
  intros F Ht. unfold updateStatus. rewrite F. unfold transition. rewrite Ht.
  by case_bool_decide.
Qed.

(** A transition leaves the other documents in place. *)
Lemma updateStatus_other d st err s r :
  r ∈ records s -> _id r <> _id d -> r ∈ records (fst (updateStatus d st err s)).
Proof.
  intros Hr Hne. unfold updateStatus.
  destruct (find_by_id _ _) as [cur|] eqn:F; [|done].
  apply find_by_id_Some in F as [_ Hid].
  destruct transition; simpl; [|done..].
  pose proof (replace_by_id_elem (set_status cur st err (clock s)) _ _ Hr) as Hin.
  simpl in Hin. rewrite Hid in Hin. by rewrite (proj2 (Nat.eqb_neq _ _) Hne) in Hin.
Qed.
