(* ===== verification/Services.v ===== *)
(** * External collaborators of the consumer controller

    The documents the controller fetches (contracts, provider
    self-descriptions, catalog entries), the trace of the calls it makes,
    and the class
    [Services] that states what each collaborator returns for a given
    request. The handlers are proved against any instance of [Services]. *)

From stdpp Require Import base list strings.
From Stdlib Require Import String.
From S2P Require Import Prelude ExchangeStore.

(** The request and response payloads the controller forwards. *)
Abbreviation Payload := string.

(** A contract document as the contract service returns it; every field
    may be missing. [servicesOfferings] lists the [serviceOffering] field of
    each entry and [purpose] the [purpose] field of each entry. *)
Record ContractDoc := mkContractDoc {
  servicesOfferings : option (list (option string));
  dataProvider : option string;
  serviceOffering : option string;
  purpose : option (list (option string))
}.

(** The value [axios.get(contractResponse.dataProvider)] resolves to, as
    the handler reads it: [dataspaceEndpoint] is the property read on that
    value ([providerResponse?.dataspaceEndpoint]). With axios's default
    response object the self-description is under [data] and this
    property is absent ([None]); it is present only if a response
    interceptor unwraps [data]. The theorems hold for both. *)
Record ProviderSD := mkProviderSD {
  dataspaceEndpoint : option string
}.

(** [representation] of a software resource in the catalog. *)
Record Representation := mkRepresentation {
  rep_type : option string;
  rep_method : option string;
  rep_url : option string;
  rep_credential : option string
}.

(** A catalog entry: a service offering (with [softwareResources]) or a
    software resource (with [representation] and [isAPI]). *)
Record CatalogEntry := mkCatalogEntry {
  softwareResources : option (list (option string));
  representation : option Representation;
  isAPI : bool
}.

(** The outbound calls, recorded in order in the trace of a run. *)
Inductive Call : Type :=
| CGetContract (ref : option string)
| CAxiosGet (url : option string)
| CGetCatalog (id : option string)
| CPost (meth : option string) (url : option string) (data : option Payload)
        (cred : option string)
| CProviderExport (endpoint : option string) (id : nat)
| CProviderImport (endpoint : option string) (data : option Payload) (id : nat)
| CRegister (endpoint : option string) (id : nat).

#[export] Instance Call_eq_dec : EqDecision Call.
Proof. solve_decision. Defined.

(** What each collaborator answers. [selfDescriptionProcessor] is
    synchronous: [Some e] when it throws [e]; its result is unused by the
    controller. [registerAtProvider] is the provider-side registration that
    [createDataExchangeToOtherParticipant] performs; it answers the
    provider's identifier of the exchange. *)
Class Services := {
  getContract : option string -> settled ContractDoc;
  axios_get : option string -> settled ProviderSD;
  getCatalogData : option string -> settled CatalogEntry;
  postRepresentation :
    option string -> option string -> option Payload -> option string -> settled Payload;
  providerExport : option string -> nat -> settled unit;
  providerImport : option string -> option Payload -> nat -> settled unit;
  registerAtProvider : option string -> nat -> settled string;
  selfDescriptionProcessor :
    option string -> DataExchange -> option string -> option ContractDoc -> option exn
}.

(** ** A concrete configuration of the collaborators

    Used by the witnesses: a bilateral contract on offering [so-1] with
    purpose [purpose-1], a provider self-description [sd], and a catalog
    where [purpose-1] references the software resource [sr-1], described
    by [sr]; [sample_services_with] also chooses the offering. *)

Definition sample_contract : ContractDoc :=
  mkContractDoc (Some [Some "so-1"; Some "purpose-1"]) (Some "https://provider.example/sd")
    (Some "so-1") (Some [Some "purpose-1"]).

Definition sample_offering : CatalogEntry :=
  mkCatalogEntry (Some [Some "sr-1"]) None false.

Definition rest_rep : Representation :=
  mkRepresentation (Some "REST") (Some "post") (Some "https://consumer.example/in")
    (Some "token").

Definition rest_resource (api : bool) : CatalogEntry :=
  mkCatalogEntry None (Some rest_rep) api.

Definition sample_services_with (sd : ProviderSD) (so sr : CatalogEntry) : Services := {|
  getContract := fun _ => Fulfilled sample_contract;
  axios_get := fun _ => Fulfilled sd;
  getCatalogData := fun id =>
    if bool_decide (id = Some "purpose-1") then Fulfilled so
    else if bool_decide (id = Some "sr-1") then Fulfilled sr
    else Failed "not found";
  postRepresentation := fun _ _ _ _ => Fulfilled "accepted";
  providerExport := fun _ _ => Fulfilled tt;
  providerImport := fun _ _ _ => Failed "provider unreachable";
  registerAtProvider := fun _ id => Fulfilled "provider-exchange-1";
  selfDescriptionProcessor := fun _ _ _ _ => None
|}.

Definition sample_services (sd : ProviderSD) (sr : CatalogEntry) : Services :=
  sample_services_with sd sample_offering sr.

Definition typed_rep (ty : string) : Representation :=
  mkRepresentation (Some ty) (Some "post") (Some "https://consumer.example/in") None.

Definition typed_resource (ty : string) : CatalogEntry :=
  mkCatalogEntry None (Some (typed_rep ty)) false.
