(* ===== verification/Runtime.v ===== *)
(** * The request context of a handler

    What one invocation of a controller handler can observe and change:
    the DataExchange collection, the Express response [res] (written by
    [restfulResponse] of [libs/api/RESTfulResponse]), the error log
    ([Logger.error] of [libs/loggers]), the trace of outbound calls and
    the place of the answer among them. The
    primitives the handlers are written with, and the frame lemmas that
    say which of them may change the collection and how. *)

From stdpp Require Import base list sets strings.
From Stdlib Require Import String.
From S2P Require Import Prelude Services ExchangeStore.

(** The JSON body of a response: the [{success, message}] envelope or a
    forwarded payload. *)
Inductive Body : Type :=
| Envelope (success : bool) (message : option string)
| Raw (data : option Payload).

#[export] Instance Body_eq_dec : EqDecision Body.
Proof. solve_decision. Defined.

(** The context of one request: the collection, the answer written to
    [res] if any, the log, the outbound calls in the order they were made,
    and how many of those calls had been made when the answer was written,
    which places the answer in the sequence of calls. *)
Record Ctx := mkCtx {
  store : Store;
  resp : option (nat * Body);
  logs : list string;
  calls : list Call;
  answered_at : nat
}.

(** A fresh request on the collection [s]: nothing answered, logged or
    called yet. *)
Definition init_ctx (s : Store) : Ctx := mkCtx s None [] [] 0.

Definition set_store (s : Store) (c : Ctx) : Ctx :=
  mkCtx s (resp c) (logs c) (calls c) (answered_at c).

(** [restfulResponse(res, code, body)] is [res.status(code).json(body)]:
    Express refuses to write a second response, and the write throws. *)
Definition restfulResponse (code : nat) (b : Body) : M Ctx unit :=
  fun c =>
    match resp c with
    | None =>
        (mkCtx (store c) (Some (code, b)) (logs c) (calls c) (List.length (calls c)), Ret tt)
    | Some _ => (c, Throw HeadersSent)
    end.

(** [Logger.error({message, location})]: the message is kept. *)
Definition Logger_error (msg : string) : M Ctx unit :=
  modify (fun c => mkCtx (store c) (resp c) (logs c ++ [msg]) (calls c) (answered_at c)).

(** [await handle(p)] for the outbound call [k] answered by [p]. *)
Definition await_handle {A} (k : Call) (p : settled A) : M Ctx (option A * option string) :=
  modify (fun c => mkCtx (store c) (resp c) (logs c) (calls c ++ [k]) (answered_at c)) ;;
  ret (handle p).

(** [await DataExchange.create(fields)]: a refusal rejects the promise,
    which is not handled. *)
Definition DataExchange_create (f : DataExchangeFields) : M Ctx DataExchange :=
  fun c =>
    match create f (store c) with
    | (s', Fulfilled d) => (set_store s' c, Ret d)
    | (s', Failed e) => (set_store s' c, Throw (Rejected e))
    end.

(** [await DataExchange.findOne({providerDataExchange})]. *)
Definition DataExchange_findOne (pde : option string) : M Ctx (option DataExchange) :=
  gets (fun c => findOne pde (store c)).

(** [await dataExchange.updateStatus(st, err)]: an invalid transition is
    logged, not raised. *)
Definition doc_updateStatus (d : DataExchange) (st : DataExchangeStatusEnum)
    (err : option string) : M Ctx unit :=
  fun c =>
    match updateStatus d st err (store c) with
    | (s', Some InvalidTransition) =>
        Logger_error "InvalidTransition" (set_store s' c)
    | (s', _) => (set_store s' c, Ret tt)
    end.

(** [await dataExchange.createDataExchangeToOtherParticipant('provider')]:
    registers the exchange at the provider and stores the provider's
    identifier of it; a failed registration leaves the document as it is. *)
Definition createDataExchangeToOtherParticipant `{Services} (d : DataExchange)
    : M Ctx unit :=
  let* '(pde, _) := await_handle (CRegister (providerEndpoint d) (_id d))
                      (registerAtProvider (providerEndpoint d) (_id d)) in
  match pde with
  | Some p => modify (fun c => set_store (setProviderDataExchange d p (store c)) c)
  | None => ret tt
  end.

Definition transition_log (t : option Transition) : list string :=
  match t with
  | Some InvalidTransition => ["InvalidTransition"]
  | _ => []
  end.

(** ** Frame lemmas: what a computation may do to the collection *)

(** The collection invariant of the controller: well-formed, no
    document in [PEP_ERROR], at most one in-flight exchange per conflict
    key, and status histories that follow the state machine. *)
Definition store_ok (s : Store) : Prop :=
  store_wf s /\ no_pep s /\ inflight_unique s /\ histories_ok s.

(** [m] keeps the invariant and relates the collection before and after
    by [R]. *)
Definition preserves_by (R : Store -> Store -> Prop) {A} (m : M Ctx A) : Prop :=
  forall c, store_ok (store c) ->
    store_ok (store (fst (m c))) /\ R (store c) (store (fst (m c))).

(** [m] keeps the invariant and only moves the collection forward. *)
Abbreviation preserves := (preserves_by store_le).

(** The evolutions the two handlers make: the export handler adds PENDING
    documents and changes no status; the import handler adds no
    document. *)
Definition export_rel (s s' : Store) : Prop := store_le s s' /\ status_kept s s'.
Definition import_rel (s s' : Store) : Prop := store_le s s' /\ no_new s s'.

(** [m] raises the measure [mu] of the context by at most [n]. *)
Definition grows_by (mu : Ctx -> nat) (n : nat) {A} (m : M Ctx A) : Prop :=
  forall c, mu (fst (m c)) <= mu c + n.

(** The number of documents of the collection, and the number of outbound
    calls made so far. *)
Definition store_count (c : Ctx) : nat := List.length (records (store c)).
Definition call_count (c : Ctx) : nat := List.length (calls c).

(** [m] adds at most [n] documents to the collection. *)
Notation grows_at_most := (grows_by store_count).

(** The answers the connector's contract allows (specification, section
    6): the success envelope with 200, the failure envelope with 500, or
    the raw answer of the consumer's API with 200. *)
Definition body_ok (code : nat) (b : Body) : bool :=
  match b with
  | Envelope true _ => Nat.eqb code 200
  | Envelope false _ => Nat.eqb code 500
  | Raw _ => Nat.eqb code 200
  end.

Definition resp_ok (r : option (nat * Body)) : bool :=
  match r with
  | None => true
  | Some (code, b) => body_ok code b
  end.

(** [m] writes only answers of that shape. *)
Definition keeps_resp {A} (m : M Ctx A) : Prop :=
  forall c, resp_ok (resp c) = true -> resp_ok (resp (fst (m c))) = true.

(** ** Fixtures of the witnesses *)

Definition created_ctx : Ctx := fst (DataExchange_create sample_fields (init_ctx empty_store)).

#[export] Instance export_rel_preorder : PreOrder export_rel.
Proof.
  split; [intros s; split; reflexivity|].
  intros s1 s2 s3 [] []. split; by etransitivity.
Qed.

#[export] Instance import_rel_preorder : PreOrder import_rel.
Proof.
  split; [intros s; split; reflexivity|].
  intros s1 s2 s3 [] []. split; by etransitivity.
Qed.

Create HintDb mono discriminated.

Section Frame.
Context (R : Store -> Store -> Prop) `{!PreOrder R}.

Lemma preserves_frame {A} (m : M Ctx A) :
  (forall c, store (fst (m c)) = store c) -> preserves_by R m.
Proof. intros Hm c Hc. rewrite Hm. split; [done|reflexivity]. Qed.

Lemma preserves_bind {A B} (m : M Ctx A) (k : A -> M Ctx B) :
  preserves_by R m -> (forall a, preserves_by R (k a)) -> preserves_by R (bind m k).
Proof.
  intros Hm Hk c Hc. unfold bind.
  destruct (Hm c Hc) as [Hc' Hle]. destruct (m c) as [c' [a|e]]; simpl in *; [|done].
  destruct (Hk a c' Hc') as [Hc'' Hle']. split; [done|by etransitivity].
Qed.

Lemma preserves_try {A} (m : M Ctx A) (h : exn -> M Ctx A) :
  preserves_by R m -> (forall e, preserves_by R (h e)) -> preserves_by R (try_catch m h).
Proof.
  intros Hm Hh c Hc. unfold try_catch.
  destruct (Hm c Hc) as [Hc' Hle]. destruct (m c) as [c' [a|e]]; simpl in *; [done|].
  destruct (Hh e c' Hc') as [Hc'' Hle']. split; [done|by etransitivity].
Qed.

Lemma preserves_ret {A} (a : A) : preserves_by R (ret a).
Proof. by apply preserves_frame. Qed.

Lemma preserves_throw {A} e : preserves_by R (@throw Ctx A e).
Proof. by apply preserves_frame. Qed.

Lemma preserves_deref {A} (o : option A) p : preserves_by R (deref o p).
Proof. apply preserves_frame. by destruct o. Qed.

Lemma preserves_deref_null {A} (o : option A) p : preserves_by R (deref_null o p).
Proof. apply preserves_frame. by destruct o. Qed.

Lemma preserves_restfulResponse code b : preserves_by R (restfulResponse code b).
Proof. apply preserves_frame. intros c. unfold restfulResponse. by destruct (resp c). Qed.

Lemma preserves_Logger_error msg : preserves_by R (Logger_error msg).
Proof. by apply preserves_frame. Qed.

Lemma preserves_await_handle {A} k (p : settled A) : preserves_by R (await_handle k p).
Proof. by apply preserves_frame. Qed.

Lemma preserves_findOne pde : preserves_by R (DataExchange_findOne pde).
Proof. by apply preserves_frame. Qed.
End Frame.

Lemma preserves_create f :
  f_status f = PENDING -> preserves_by export_rel (DataExchange_create f).
Proof.
  intros Hf c (Hwf & Hnp & Hu & Hh). unfold DataExchange_create.
  pose proof (create_wf f _ Hwf) as Hwf'.
  pose proof (create_histories f _ Hf Hh) as Hh'.
  pose proof (create_inflight_unique f _ Hu) as Hu'.
  pose proof (create_no_pep f _ ltac:(by rewrite Hf) Hnp) as Hnp'.
  pose proof (create_store_le f (store c)) as Hle.
  pose proof (create_status_kept f (store c) Hf) as Hk.
  destruct (create f (store c)) as [s' [d|e]]; simpl in *; done.
Qed.

Lemma preserves_updateStatus d st err :
  st <> PEP_ERROR -> is_terminal st = true ->
  preserves_by import_rel (doc_updateStatus d st err).
Proof.
  intros Hst Ht c (Hwf & Hnp & Hu & Hh). unfold doc_updateStatus.
  pose proof (updateStatus_histories d st err _ Ht Hh) as Hh'.
  pose proof (updateStatus_wf d st err _ Hwf) as Hwf'.
  pose proof (updateStatus_inflight_unique d st err _ Hu) as Hu'.
  pose proof (updateStatus_no_pep d st err _ Hst Hnp) as Hnp'.
  pose proof (updateStatus_store_le d st err _ Hwf) as Hle.
  pose proof (updateStatus_no_new d st err (store c)) as Hk.
  destruct (updateStatus d st err (store c)) as [s' [[]|]]; simpl in *; done.
Qed.

Lemma preserves_setProviderDataExchange d p :
  preserves_by export_rel
    (modify (fun c => set_store (setProviderDataExchange d p (store c)) c)).
Proof.
  intros c (Hwf & Hnp & Hu & Hh). simpl. split; [split_and!|split].
  - by apply setProviderDataExchange_wf.
  - by apply setProviderDataExchange_no_pep.
  - by apply setProviderDataExchange_inflight_unique.
  - by apply setProviderDataExchange_histories.
  - by apply setProviderDataExchange_store_le.
  - apply setProviderDataExchange_status_kept.
Qed.

#[export] Hint Resolve preserves_ret preserves_throw preserves_deref preserves_deref_null
  preserves_restfulResponse preserves_Logger_error preserves_await_handle
  preserves_findOne preserves_setProviderDataExchange : mono.
#[export] Hint Resolve export_rel_preorder import_rel_preorder : mono.

(** Splits a handler into its primitives; the side conditions left are the
    statuses it writes. *)
Ltac mono :=
  repeat (intros; match goal with
  | |- preserves_by _ (bind _ _) => apply preserves_bind; [typeclasses eauto|..]
  | |- preserves_by _ (try_catch _ _) => apply preserves_try; [typeclasses eauto|..]
  | |- preserves_by _ (DataExchange_create _) => apply preserves_create; reflexivity
  | |- preserves_by _ (doc_updateStatus _ _ _) =>
      apply preserves_updateStatus; [discriminate|reflexivity]
  | |- preserves_by _ (match ?x with _ => _ end) => destruct x
  | |- preserves_by _ (if ?b then _ else _) => destruct b
  | |- preserves_by _ _ => eauto with mono typeclass_instances
  end).

Section Register.
Context `{Services}.

Lemma preserves_createDataExchangeToOtherParticipant d :
  preserves_by export_rel (createDataExchangeToOtherParticipant d).
Proof. unfold createDataExchangeToOtherParticipant. mono. Qed.
End Register.

#[export] Hint Resolve preserves_createDataExchangeToOtherParticipant : mono.

(** A finer evolution is in particular a forward one. *)
Lemma preserves_by_weaken (R R' : Store -> Store -> Prop) {A} (m : M Ctx A) :
  (forall s s', R s s' -> R' s s') -> preserves_by R m -> preserves_by R' m.
Proof. intros HR Hm c Hc. destruct (Hm c Hc). split; auto. Qed.

(** Unfolds the monad's primitives so that [cbn] can run a handler; the
    constants given to [cbn -[...]] stay folded. *)
Ltac unfold_js :=
  unfold try_catch, await_handle, restfulResponse, Logger_error, deref, deref_null in *;
  unfold bind, modify, gets, ret, throw in *.

Section RunLemmas.
Context `{Services}.

Lemma run_create_fresh f c :
  existsb (same_key f) (records (store c)) = false ->
  DataExchange_create f c =
    (set_store (fst (create f (store c))) c,
     Ret (new_record f (next_id (store c)) (clock (store c)))).
Proof. intros Hf. unfold DataExchange_create, create. by rewrite Hf. Qed.

Lemma run_create_duplicate f c :
  existsb (same_key f) (records (store c)) = true ->
  DataExchange_create f c = (c, Throw (Rejected "DuplicateExchange")).
Proof. intros Hf. unfold DataExchange_create, create. rewrite Hf. by destruct c. Qed.

Lemma run_register d c :
  createDataExchangeToOtherParticipant d c =
    (mkCtx (match registerAtProvider (providerEndpoint d) (_id d) with
            | Fulfilled p => setProviderDataExchange d p (store c)
            | Failed _ => store c
            end) (resp c) (logs c) (calls c ++ [CRegister (providerEndpoint d) (_id d)])
       (answered_at c),
     Ret tt).
Proof.
  unfold createDataExchangeToOtherParticipant, bind, await_handle, modify, ret.
  simpl. by destruct (registerAtProvider _ _).
Qed.

Lemma setProviderDataExchange_elem d p s r :
  store_wf s -> r ∈ records s ->
  r ∈ records (setProviderDataExchange d p s) \/
  set_provider_exchange r p (clock s) ∈ records (setProviderDataExchange d p s).
Proof.
  intros [Hnd _] Hr. unfold setProviderDataExchange.
  destruct (find_by_id _ _) as [cur|] eqn:F; [|by left].
  apply find_by_id_Some in F as [Hcur Hid]. simpl.
  pose proof (replace_by_id_elem (set_provider_exchange cur p (clock s)) _ _ Hr) as Hin.
  simpl in Hin. destruct (Nat.eqb_spec (_id r) (_id cur)) as [E|]; [right|by left].
  assert (r = cur) as ->; [|done].
  apply find_by_id_elem in Hr, Hcur; [|done..]. congruence.
Qed.
End RunLemmas.

Lemma run_updateStatus d st err c :
  doc_updateStatus d st err c =
    (mkCtx (fst (updateStatus d st err (store c))) (resp c)
       (logs c ++ transition_log (snd (updateStatus d st err (store c)))) (calls c)
       (answered_at c),
     Ret tt).
Proof.
  unfold doc_updateStatus. destruct (updateStatus d st err (store c)) as [s' [[]|]];
    simpl; by rewrite ?app_nil_r.
Qed.

(** ** Counting what a computation adds

    One count lemma per construct of the monad: a sequence adds what its
    two parts add, a branch what its larger branch adds. The tactic
    [count] builds the bound of a handler from them, leaving the grade of
    each primitive to [leaf]. *)

Section Graded.
Context {mu : Ctx -> nat}.

Lemma grows_frame {A} (m : M Ctx A) : (forall c, mu (fst (m c)) = mu c) -> grows_by mu 0 m.
Proof. intros Hm c. rewrite Hm. lia. Qed.

Lemma grows_weaken n n' {A} (m : M Ctx A) : n <= n' -> grows_by mu n m -> grows_by mu n' m.
Proof. intros Hn Hm c. specialize (Hm c). lia. Qed.

Lemma grows_bind n1 n2 {A B} (m : M Ctx A) (k : A -> M Ctx B) :
  grows_by mu n1 m -> (forall a, grows_by mu n2 (k a)) -> grows_by mu (n1 + n2) (bind m k).
Proof.
  intros Hm Hk c. specialize (Hm c). unfold bind.
  destruct (m c) as [c' [a|e]]; simpl in *; [specialize (Hk a c')|]; lia.
Qed.

Lemma grows_try n1 n2 {A} (m : M Ctx A) (h : exn -> M Ctx A) :
  grows_by mu n1 m -> (forall e, grows_by mu n2 (h e)) -> grows_by mu (n1 + n2) (try_catch m h).
Proof.
  intros Hm Hh c. specialize (Hm c). unfold try_catch.
  destruct (m c) as [c' [a|e]]; simpl in *; [|specialize (Hh e c')]; lia.
Qed.

Lemma grows_if n1 n2 (b : bool) {A} (t e : M Ctx A) :
  grows_by mu n1 t -> grows_by mu n2 e -> grows_by mu (Nat.max n1 n2) (if b then t else e).
Proof.
  intros Ht He. destruct b; [apply (grows_weaken n1)|apply (grows_weaken n2)]; try done; lia.
Qed.

Lemma grows_match_option n1 n2 {X A} (o : option X) (f : X -> M Ctx A) (g : M Ctx A) :
  (forall x, grows_by mu n1 (f x)) -> grows_by mu n2 g ->
  grows_by mu (Nat.max n1 n2) (match o with Some x => f x | None => g end).
Proof.
  intros Hf Hg. destruct o; [apply (grows_weaken n1)|apply (grows_weaken n2)]; try done; lia.
Qed.

Lemma grows_ret {A} (a : A) : grows_by mu 0 (ret a).
Proof. by apply grows_frame. Qed.

Lemma grows_throw {A} e : grows_by mu 0 (@throw Ctx A e).
Proof. by apply grows_frame. Qed.

Lemma grows_deref {A} (o : option A) p : grows_by mu 0 (deref o p).
Proof. apply grows_frame. by destruct o. Qed.

Lemma grows_deref_null {A} (o : option A) p : grows_by mu 0 (deref_null o p).
Proof. apply grows_frame. by destruct o. Qed.
End Graded.

(** Builds the bound of a computation; [leaf] grades its primitives. *)
Ltac count leaf :=
  intros; lazymatch goal with
  | |- grows_by _ _ (bind _ _) => eapply grows_bind; [count leaf|intros; count leaf]
  | |- grows_by _ _ (try_catch _ _) => eapply grows_try; [count leaf|intros; count leaf]
  | |- grows_by _ _ (if _ then _ else _) => eapply grows_if; [count leaf|count leaf]
  | |- grows_by _ _ (match _ with Some _ => _ | None => _ end) =>
      eapply grows_match_option; [intros; count leaf|count leaf]
  | |- grows_by _ _ (match ?x with _ => _ end) => destruct x; count leaf
  | |- grows_by _ _ (ret _) => apply grows_ret
  | |- grows_by _ _ (throw _) => apply grows_throw
  | |- grows_by _ _ (deref _ _) => apply grows_deref
  | |- grows_by _ _ (deref_null _ _) => apply grows_deref_null
  | |- grows_by _ _ _ => leaf
  end.

(** Proves [grows_by mu n m] for a closed [n] by building a bound of [m]
    and comparing. *)
Ltac bound_by leaf := eapply grows_weaken; [|count leaf]; simpl; lia.

(** *** Documents *)

Create HintDb grow discriminated.

Section StoreCount.

Lemma grows_store_frame {A} (m : M Ctx A) :
  (forall c, store (fst (m c)) = store c) -> grows_at_most 0 m.
Proof. intros Hm. apply grows_frame. intros c. unfold store_count. by rewrite Hm. Qed.

Lemma grows_restfulResponse code b : grows_at_most 0 (restfulResponse code b).
Proof. apply grows_store_frame. intros c. unfold restfulResponse. by destruct (resp c). Qed.

Lemma grows_Logger_error msg : grows_at_most 0 (Logger_error msg).
Proof. by apply grows_store_frame. Qed.

Lemma grows_await_handle {A} k (p : settled A) : grows_at_most 0 (await_handle k p).
Proof. by apply grows_store_frame. Qed.

Lemma grows_findOne pde : grows_at_most 0 (DataExchange_findOne pde).
Proof. by apply grows_store_frame. Qed.

Lemma grows_create f : grows_at_most 1 (DataExchange_create f).
Proof.
  intros c. unfold store_count, DataExchange_create, create.
  destruct (existsb _ _); simpl; [lia|]. rewrite length_app. simpl. lia.
Qed.

Lemma grows_updateStatus d st err : grows_at_most 0 (doc_updateStatus d st err).
Proof.
  intros c. unfold store_count. rewrite run_updateStatus. simpl. unfold updateStatus, replace_by_id.
  destruct (find_by_id _ _); [destruct transition|]; simpl; rewrite ?length_map; lia.
Qed.

Lemma grows_setProviderDataExchange d p :
  grows_at_most 0 (modify (fun c => set_store (setProviderDataExchange d p (store c)) c)).
Proof.
  intros c. unfold store_count. simpl. unfold setProviderDataExchange, replace_by_id.
  destruct (find_by_id _ _); simpl; rewrite ?length_map; lia.
Qed.
End StoreCount.

#[export] Hint Resolve grows_restfulResponse grows_Logger_error grows_await_handle grows_findOne
  grows_create grows_updateStatus grows_setProviderDataExchange : grow.

(** *** Outbound calls *)

Create HintDb calls discriminated.

Section CallCount.

Lemma calls_frame {A} (m : M Ctx A) :
  (forall c, calls (fst (m c)) = calls c) -> grows_by call_count 0 m.
Proof. intros Hm. apply grows_frame. intros c. unfold call_count. by rewrite Hm. Qed.

Lemma calls_restfulResponse code b : grows_by call_count 0 (restfulResponse code b).
Proof. apply calls_frame. intros c. unfold restfulResponse. by destruct (resp c). Qed.

Lemma calls_Logger_error msg : grows_by call_count 0 (Logger_error msg).
Proof. by apply calls_frame. Qed.

(** Each [await] of a collaborator is one outbound call. *)
Lemma calls_await_handle {A} k (p : settled A) : grows_by call_count 1 (await_handle k p).
Proof. intros c. unfold call_count. simpl. rewrite length_app. simpl. lia. Qed.

Lemma calls_findOne pde : grows_by call_count 0 (DataExchange_findOne pde).
Proof. by apply calls_frame. Qed.

Lemma calls_create f : grows_by call_count 0 (DataExchange_create f).
Proof. apply calls_frame. intros c. unfold DataExchange_create. by destruct (create _ _) as [? []]. Qed.

Lemma calls_updateStatus d st err : grows_by call_count 0 (doc_updateStatus d st err).
Proof. apply calls_frame. intros c. by rewrite run_updateStatus. Qed.

Lemma calls_setProviderDataExchange d p :
  grows_by call_count 0 (modify (fun c => set_store (setProviderDataExchange d p (store c)) c)).
Proof. by apply calls_frame. Qed.
End CallCount.

#[export] Hint Resolve calls_restfulResponse calls_Logger_error calls_await_handle calls_findOne
  calls_create calls_updateStatus calls_setProviderDataExchange : calls.

Section RegisterCount.
Context `{Services}.

Lemma grows_createDataExchangeToOtherParticipant d :
  grows_at_most 0 (createDataExchangeToOtherParticipant d).
Proof. unfold createDataExchangeToOtherParticipant. bound_by ltac:(eauto with grow). Qed.

(** The registration at the provider is one call. *)
Lemma calls_createDataExchangeToOtherParticipant d :
  grows_by call_count 1 (createDataExchangeToOtherParticipant d).
Proof. unfold createDataExchangeToOtherParticipant. bound_by ltac:(eauto with calls). Qed.
End RegisterCount.

#[export] Hint Resolve grows_createDataExchangeToOtherParticipant : grow.
#[export] Hint Resolve calls_createDataExchangeToOtherParticipant : calls.

(** ** The shape of the answers *)

Create HintDb answer discriminated.

Section Answers.

Lemma keeps_resp_frame {A} (m : M Ctx A) :
  (forall c, resp (fst (m c)) = resp c) -> keeps_resp m.
Proof. intros Hm c. by rewrite Hm. Qed.

Lemma keeps_resp_bind {A B} (m : M Ctx A) (k : A -> M Ctx B) :
  keeps_resp m -> (forall a, keeps_resp (k a)) -> keeps_resp (bind m k).
Proof.
  intros Hm Hk c Hc. specialize (Hm c Hc). unfold bind.
  destruct (m c) as [c' [a|e]]; simpl in *; [by apply Hk|done].
Qed.

Lemma keeps_resp_try {A} (m : M Ctx A) (h : exn -> M Ctx A) :
  keeps_resp m -> (forall e, keeps_resp (h e)) -> keeps_resp (try_catch m h).
Proof.
  intros Hm Hh c Hc. specialize (Hm c Hc). unfold try_catch.
  destruct (m c) as [c' [a|e]]; simpl in *; [done|by apply Hh].
Qed.

Lemma keeps_resp_restfulResponse code b :
  body_ok code b = true -> keeps_resp (restfulResponse code b).
Proof. intros Hb c Hc. unfold restfulResponse. destruct (resp c) eqn:E; simpl; [by rewrite E|exact Hb]. Qed.

Lemma keeps_resp_ret {A} (a : A) : keeps_resp (ret a).
Proof. by apply keeps_resp_frame. Qed.

Lemma keeps_resp_throw {A} e : keeps_resp (@throw Ctx A e).
Proof. by apply keeps_resp_frame. Qed.

Lemma keeps_resp_deref {A} (o : option A) p : keeps_resp (deref o p).
Proof. apply keeps_resp_frame. by destruct o. Qed.

Lemma keeps_resp_deref_null {A} (o : option A) p : keeps_resp (deref_null o p).
Proof. apply keeps_resp_frame. by destruct o. Qed.

Lemma keeps_resp_Logger_error msg : keeps_resp (Logger_error msg).
Proof. by apply keeps_resp_frame. Qed.

Lemma keeps_resp_await_handle {A} k (p : settled A) : keeps_resp (await_handle k p).
Proof. by apply keeps_resp_frame. Qed.

Lemma keeps_resp_findOne pde : keeps_resp (DataExchange_findOne pde).
Proof. by apply keeps_resp_frame. Qed.

Lemma keeps_resp_create f : keeps_resp (DataExchange_create f).
Proof. apply keeps_resp_frame. intros c. unfold DataExchange_create. by destruct (create _ _) as [? []]. Qed.

Lemma keeps_resp_updateStatus d st err : keeps_resp (doc_updateStatus d st err).
Proof. apply keeps_resp_frame. intros c. by rewrite run_updateStatus. Qed.

Lemma keeps_resp_setProviderDataExchange d p :
  keeps_resp (modify (fun c => set_store (setProviderDataExchange d p (store c)) c)).
Proof. by apply keeps_resp_frame. Qed.
End Answers.

#[export] Hint Resolve keeps_resp_ret keeps_resp_throw keeps_resp_deref keeps_resp_deref_null
  keeps_resp_Logger_error keeps_resp_await_handle keeps_resp_findOne keeps_resp_create
  keeps_resp_updateStatus keeps_resp_setProviderDataExchange : answer.

(** Splits a handler into its primitives; each answer it writes is checked
    by computation. *)
Ltac answers :=
  repeat (intros; match goal with
  | |- keeps_resp (bind _ _) => apply keeps_resp_bind
  | |- keeps_resp (try_catch _ _) => apply keeps_resp_try
  | |- keeps_resp (restfulResponse _ _) => apply keeps_resp_restfulResponse; reflexivity
  | |- keeps_resp (match ?x with _ => _ end) => destruct x
  | |- keeps_resp (if ?b then _ else _) => destruct b
  | |- keeps_resp _ => eauto with answer
  end).

Section RegisterAnswers.
Context `{Services}.

Lemma keeps_resp_createDataExchangeToOtherParticipant d :
  keeps_resp (createDataExchangeToOtherParticipant d).
Proof. unfold createDataExchangeToOtherParticipant. answers. Qed.
End RegisterAnswers.

#[export] Hint Resolve keeps_resp_createDataExchangeToOtherParticipant : answer.

(** The four shapes of an allowed answer. *)
Lemma resp_ok_cases r :
  resp_ok r = true ->
  r = None \/ (exists m, r = Some (200, Envelope true m)) \/
  (exists m, r = Some (500, Envelope false m)) \/ (exists p, r = Some (200, Raw p)).
Proof.
  destruct r as [[code b]|]; [|by left]. simpl. intros H.
  destruct b as [[] m|p]; apply Nat.eqb_eq in H; subst; eauto 10.
Qed.

(** ** The document operations as the controller calls them *)

Lemma set_store_set_store s s' c : set_store s' (set_store s c) = set_store s' c.
Proof. by destruct c. Qed.

(** C17: [await DataExchange.create(fields)] refuses an in-flight
    duplicate: once a creation with PENDING status has succeeded, a second
    [create] with the same fields rejects with [DuplicateExchange] and
    leaves the context unchanged. *)
Theorem DataExchange_create_duplicate f c c1 d :
  f_status f = PENDING -> DataExchange_create f c = (c1, Ret d) ->
  DataExchange_create f c1 = (c1, Throw (Rejected "DuplicateExchange")).
Proof.
  intros Hst. unfold DataExchange_create.
  destruct (create f (store c)) as [s1 [r|e]] eqn:E; intros [= <- <-].
  simpl. rewrite (create_duplicate f (store c) s1 r Hst E). by rewrite set_store_set_store.
Qed.

(** C18: [await dataExchange.updateStatus(st)] with a terminal [st] is
    idempotent: a second identical call leaves the collection as the first
    left it, status history and [updatedAt] included. *)
Theorem doc_updateStatus_idempotent d st err c :
  is_terminal st = true ->
  let c1 := fst (doc_updateStatus d st err c) in
  store (fst (doc_updateStatus d st err c1)) = store c1.
Proof.
  intros Ht c1. unfold c1. rewrite !run_updateStatus. simpl.
  by destruct (updateStatus_idempotent d st err (store c) Ht).
Qed.

(** ** Witnesses *)

Lemma DataExchange_create_duplicate_witness :
  f_status sample_fields = PENDING /\
  DataExchange_create sample_fields (init_ctx empty_store) =
    (created_ctx, Ret (new_record sample_fields 0 0)) /\
  DataExchange_create sample_fields created_ctx =
    (created_ctx, Throw (Rejected "DuplicateExchange")).
Proof.
  split; [reflexivity|]. split; [reflexivity|].
  apply (DataExchange_create_duplicate sample_fields (init_ctx empty_store) _
           (new_record sample_fields 0 0)); reflexivity.
Defined.

Lemma doc_updateStatus_idempotent_witness :
  let d := new_record sample_fields 0 0 in
  is_terminal IMPORT_SUCCESS = true /\
  store (fst (doc_updateStatus d IMPORT_SUCCESS None
                (fst (doc_updateStatus d IMPORT_SUCCESS None created_ctx)))) =
    store (fst (doc_updateStatus d IMPORT_SUCCESS None created_ctx)).
Proof.
  split; [reflexivity|].
  apply (doc_updateStatus_idempotent (new_record sample_fields 0 0) IMPORT_SUCCESS None
           created_ctx); reflexivity.
Defined.

