(* ===== verification/ConsumerExchange.v ===== *)
(** * The export handler [consumerExchange]

    [src/controllers/public/v1/consumer.public.controller.ts], lines 21 to
    123: a requester asks this consumer connector to start a data exchange
    under a contract. The handler fetches the contract, branches on whether
    the contract reference names an ecosystem contract, creates the
    DataExchange document, registers it at the provider, answers 200 and
    triggers the provider's export. The validation failures answer 500 but
    do not return: execution goes on after them. The handler is written as
    its two phases around the creation of the document ([export_prefix],
    [export_suffix]) under its [catch] block ([export_catch]), which is how
    [Interleaving] suspends it. *)

From stdpp Require Import base list sets strings.
From Stdlib Require Import String.
From S2P Require Import Prelude Services ExchangeStore Runtime.

(** The fields of [req.body] the handler reads. *)
Module ExchangeRequest.
Record t := mk {
  providerEndpoint : option string;
  contract : option string;
  resourceId : option string;
  purposeId : option string
}.
End ExchangeRequest.

Section ConsumerExchange.
Context `{Services}.

(** [if (cond) { Logger.error({message}); restfulResponse(res, 500,
    {success: false, message}); }]: no [return] follows. *)
Definition reject_if (cond : bool) (msg : string) : M Ctx unit :=
  if cond then
    Logger_error msg ;;
    restfulResponse 500 (Envelope false (Some msg))
  else ret tt.

(** The ecosystem branch, lines 40 to 77. The two [filter] calls read
    [contractResponse.servicesOfferings] alike; the arrays they return are
    objects, hence truthy even when empty. *)
Definition ecosystem_branch (contractResponse : option ContractDoc)
    (b : ExchangeRequest.t) : M Ctx DataExchange :=
  let pe := ExchangeRequest.providerEndpoint b in
  let rid := ExchangeRequest.resourceId b in
  let pid := ExchangeRequest.purposeId b in
  reject_if (negb (truthy pe) && negb (truthy rid) && negb (truthy pid))
    "Missing body params" ;;
  let* cr := deref contractResponse "servicesOfferings" in
  let* sos := deref (servicesOfferings cr) "filter" in
  let resourceExists := List.filter (fun so => bool_decide (so = rid)) sos in
  let purposeExists := List.filter (fun so => bool_decide (so = pid)) sos in
  reject_if (truthy_array purposeExists) "Wrong purpose given" ;;
  reject_if (truthy_array resourceExists) "Wrong resource given" ;;
  DataExchange_create
    (mkFields pe rid pid (ExchangeRequest.contract b) PENDING).

(** The bilateral branch, lines 78 to 103: the provider endpoint comes
    from the provider's self-description, the resource from the
    contract's [serviceOffering] and the purpose from its first
    [purpose] entry. It answers the document and the reassigned
    [providerEndpoint]. *)
Definition bilateral_branch (contractResponse : option ContractDoc)
    (b : ExchangeRequest.t) : M Ctx (DataExchange * option string) :=
  let* cr := deref contractResponse "dataProvider" in
  let* '(providerResponse, _) :=
    await_handle (CAxiosGet (dataProvider cr)) (axios_get (dataProvider cr)) in
  let endpoint := providerResponse ≫= dataspaceEndpoint in
  reject_if (negb (truthy endpoint)) "Provider missing PDC endpoint" ;;
  let* purposes := deref (purpose cr) "0" in
  let* first := deref (head purposes) "purpose" in
  let* d := DataExchange_create
    (mkFields endpoint (serviceOffering cr) first (ExchangeRequest.contract b) PENDING) in
  ret (d, endpoint).

(** The [try] block up to the creation of the document, lines 27 to 103:
    it answers the document and the provider endpoint the rest uses. *)
Definition export_prefix (b : ExchangeRequest.t) : M Ctx (DataExchange * option string) :=
  let ref := ExchangeRequest.contract b in
  let* '(contractResponse, _) := await_handle (CGetContract ref) (getContract ref) in
  let* c := deref ref "includes" in
  if str_includes "contracts" c then
    let* d := ecosystem_branch contractResponse b in
    ret (d, ExchangeRequest.providerEndpoint b)
  else bilateral_branch contractResponse b.

(** The rest of the [try] block, lines 105 to 115: registration at the
    provider, the 200 answer, and the trigger of the provider's export. *)
Definition export_suffix (dataExchange : DataExchange) (providerEndpoint : option string)
    : M Ctx unit :=
  createDataExchangeToOtherParticipant dataExchange ;;
  restfulResponse 200 (Envelope true None) ;;
  let* _ := await_handle (CProviderExport providerEndpoint (_id dataExchange))
              (providerExport providerEndpoint (_id dataExchange)) in
  ret tt.

(** The [catch] block, lines 117 to 122. *)
Definition export_catch (e : exn) : M Ctx unit := Logger_error (exn_message e).

(** The handler, lines 21 to 123. *)
Definition consumerExchange (b : ExchangeRequest.t) : M Ctx unit :=
  try_catch (
    let* '(dataExchange, providerEndpoint) := export_prefix b in
    export_suffix dataExchange providerEndpoint)
  export_catch.
End ConsumerExchange.

(** ** Fixtures of the witnesses *)

Definition eco_ref : string := "https://contract.example/contracts/7".

Definition bil_ref : string := "https://contract.example/bilaterals/3".

Definition eco_request : ExchangeRequest.t :=
  ExchangeRequest.mk (Some "https://provider.example/") (Some eco_ref)
    (Some "so-1") (Some "purpose-1").

Definition eco_request_empty : ExchangeRequest.t :=
  ExchangeRequest.mk None (Some eco_ref) None None.

Definition bil_request : ExchangeRequest.t :=
  ExchangeRequest.mk None (Some bil_ref) None None.

Definition sample_sd : ProviderSD := mkProviderSD (Some "https://provider.example/").

(** The collaborators of [svc] with another contract service. *)
Definition with_contract (svc : Services) (g : option string -> settled ContractDoc)
    : Services := {|
  getContract := g;
  axios_get := @axios_get svc;
  getCatalogData := @getCatalogData svc;
  postRepresentation := @postRepresentation svc;
  providerExport := @providerExport svc;
  providerImport := @providerImport svc;
  registerAtProvider := @registerAtProvider svc;
  selfDescriptionProcessor := @selfDescriptionProcessor svc
|}.

Definition bil_svc : Services := sample_services sample_sd (rest_resource true).

(** The collection after a first bilateral export of [bil_request]. *)
Definition bil_store : Store :=
  store (fst (@consumerExchange bil_svc bil_request (init_ctx empty_store))).

(** A bilateral contract whose [purpose] list is empty. *)
Definition no_purpose_contract : ContractDoc :=
  mkContractDoc None (Some "https://provider.example/sd") (Some "so-1") (Some []).

(** ** The two phases of the handler *)

Section Phases.
Context `{Services}.

(** The handler is its first phase followed at once by its second. *)
Lemma consumerExchange_split b c :
  consumerExchange b c =
    match export_prefix b c with
    | (c', Ret (d, pe)) => try_catch (export_suffix d pe) export_catch c'
    | (c', Throw e) => export_catch e c'
    end.
Proof.
  unfold consumerExchange, try_catch, bind.
  by destruct (export_prefix b c) as [c' [[d pe]|e]].
Qed.
End Phases.

(** ** Behaviour of the ecosystem branch *)

Section EcosystemProofs.
Context `{Services}.

(** Whatever the contract and the body, the ecosystem branch ends in an
    exception before [DataExchange.create]: the "Wrong purpose given"
    check always answers, and the "Wrong resource given" check then
    writes a second response. *)
Lemma ecosystem_branch_throws cr b c :
  exists c' e, ecosystem_branch cr b c = (c', Throw e) /\
    store c' = store c /\ calls c' = calls c /\
    (resp c' = resp c \/
     exists m, resp c = None /\ resp c' = Some (500, Envelope false (Some m))).
Proof.
  unfold ecosystem_branch, reject_if. unfold_js.
  repeat (case_match; simplify_eq/=); eauto 10.
Qed.

(** The run of an export under an ecosystem contract: the collection is
    unchanged, only the contract is fetched, and the answer, if any, is a
    500 failure. *)
Lemma consumerExchange_ecosystem_run b ref c :
  ExchangeRequest.contract b = Some ref -> str_includes "contracts" ref = true ->
  let c' := fst (consumerExchange b c) in
  store c' = store c /\ calls c' = calls c ++ [CGetContract (Some ref)] /\
  (resp c = None ->
   resp c' = None \/ exists m, resp c' = Some (500, Envelope false (Some m))).
Proof.
  intros Href Hinc. unfold consumerExchange, export_prefix, export_suffix, export_catch.
  unfold_js. rewrite Href.
  cbn -[ecosystem_branch str_includes]. rewrite Hinc.
  destruct (handle _) as [cr err]. cbn -[ecosystem_branch str_includes].
  match goal with |- context [ecosystem_branch ?cr ?b ?c] =>
    destruct (ecosystem_branch_throws cr b c) as (c1 & e & -> & Hs & Hc & Hr) end.
  simpl in *. split_and!; [done|done|]. intros Hn. rewrite Hn in Hr.
  destruct Hr as [->|(m & _ & ->)]; eauto.
Qed.

(** C1: an export request under an ecosystem contract never creates an
    exchange: the collection is unchanged, the only outbound call is the
    contract fetch (no registration at the provider and no export
    trigger), and the requester gets no answer or a 500 failure, never
    the success envelope. *)
Theorem consumerExchange_ecosystem_no_exchange b ref c :
  ExchangeRequest.contract b = Some ref -> str_includes "contracts" ref = true ->
  let c' := fst (consumerExchange b c) in
  store c' = store c /\ calls c' = calls c ++ [CGetContract (Some ref)] /\
  (resp c = None ->
   resp c' = None \/ exists m, resp c' = Some (500, Envelope false (Some m))).
Proof. exact (consumerExchange_ecosystem_run b ref c). Qed.

(** C2: an ecosystem request that names any of [providerEndpoint],
    [resourceId] or [purposeId], under a contract that was fetched with
    its [servicesOfferings], is answered 500 "Wrong purpose given", even
    when the resource and the purpose are both offerings of the
    contract. *)
Theorem consumerExchange_ecosystem_rejects b ref cr sos s :
  ExchangeRequest.contract b = Some ref -> str_includes "contracts" ref = true ->
  getContract (Some ref) = Fulfilled cr -> servicesOfferings cr = Some sos ->
  truthy (ExchangeRequest.providerEndpoint b) || truthy (ExchangeRequest.resourceId b)
    || truthy (ExchangeRequest.purposeId b) = true ->
  resp (fst (consumerExchange b (init_ctx s))) =
    Some (500, Envelope false (Some "Wrong purpose given")).
Proof.
  intros Href Hinc Hgc Hso Hparams.
  assert (negb (truthy (ExchangeRequest.providerEndpoint b)) &&
          negb (truthy (ExchangeRequest.resourceId b)) &&
          negb (truthy (ExchangeRequest.purposeId b)) = false) as Hmiss.
  { by destruct (truthy _), (truthy _), (truthy _). }
  unfold consumerExchange, export_prefix, export_suffix, export_catch, ecosystem_branch, reject_if. unfold_js.
  rewrite Href, Hgc. cbn -[str_includes]. rewrite Hinc, Hmiss, Hso. done.
Qed.

(** C15: an ecosystem request with none of [providerEndpoint],
    [resourceId], [purposeId] is answered 500 "Missing body params" and
    creates nothing. *)
Theorem consumerExchange_ecosystem_missing_params b ref c :
  ExchangeRequest.contract b = Some ref -> str_includes "contracts" ref = true ->
  truthy (ExchangeRequest.providerEndpoint b) = false ->
  truthy (ExchangeRequest.resourceId b) = false ->
  truthy (ExchangeRequest.purposeId b) = false ->
  resp c = None ->
  resp (fst (consumerExchange b c)) =
    Some (500, Envelope false (Some "Missing body params")) /\
  store (fst (consumerExchange b c)) = store c.
Proof.
  intros Href Hinc Hpe Hrid Hpid Hn.
  split; [|by apply (consumerExchange_ecosystem_run b ref)].
  unfold consumerExchange, export_prefix, export_suffix, export_catch, ecosystem_branch, reject_if. unfold_js.
  rewrite Href. cbn -[str_includes]. rewrite Hinc, Hpe, Hrid, Hpid, Hn. simpl.
  by repeat (case_match; simplify_eq/=).
Qed.
End EcosystemProofs.

(** ** Behaviour of the bilateral branch *)

Section BilateralProofs.
Context `{Services}.

(** The [try] block of a bilateral export whose contract and provider
    endpoint are found, up to the creation of its document: the creation
    is attempted with the contract's offering, its first purpose and the
    provider's endpoint, unless the contract has no first purpose entry. *)
Lemma export_prefix_bilateral b ref cr sd ep s :
  ExchangeRequest.contract b = Some ref -> str_includes "contracts" ref = false ->
  getContract (Some ref) = Fulfilled cr -> axios_get (dataProvider cr) = Fulfilled sd ->
  dataspaceEndpoint sd = Some ep -> ep <> "" ->
  let c1 := mkCtx s None [] [CGetContract (Some ref); CAxiosGet (dataProvider cr)] 0 in
  export_prefix b (init_ctx s) =
    match purpose cr with
    | None => (c1, Throw (TypeError false "0"))
    | Some [] => (c1, Throw (TypeError false "purpose"))
    | Some (x :: _) =>
        match DataExchange_create (mkFields (Some ep) (serviceOffering cr) x (Some ref) PENDING) c1 with
        | (c', Ret d) => (c', Ret (d, Some ep))
        | (c', Throw e) => (c', Throw e)
        end
    end.
Proof.
  intros Href Hinc Hgc Hax Hep Hne c1.
  unfold export_prefix, bilateral_branch, reject_if. unfold_js. rewrite Href, Hgc.
  cbn -[str_includes DataExchange_create]. rewrite Hinc, Hax. cbn -[DataExchange_create].
  rewrite Hep. rewrite ?truthy_Some by done. cbn -[DataExchange_create].
  destruct (purpose cr) as [[|x ps]|]; [done| |done].
  cbn -[DataExchange_create]. by destruct (DataExchange_create _ _) as [? []].
Qed.

(** The run of a bilateral export on a fresh request whose checks all
    pass: the final context and the resolved promise. *)
Lemma consumerExchange_bilateral_run b ref cr sd ep x ps s :
  ExchangeRequest.contract b = Some ref -> str_includes "contracts" ref = false ->
  getContract (Some ref) = Fulfilled cr -> axios_get (dataProvider cr) = Fulfilled sd ->
  dataspaceEndpoint sd = Some ep -> ep <> "" -> purpose cr = Some (x :: ps) ->
  let f := mkFields (Some ep) (serviceOffering cr) x (Some ref) PENDING in
  existsb (same_key f) (records s) = false ->
  let d := new_record f (next_id s) (clock s) in
  let r := consumerExchange b (init_ctx s) in
  snd r = Ret tt /\
  resp (fst r) = Some (200, Envelope true None) /\ logs (fst r) = [] /\
  calls (fst r) = [CGetContract (Some ref); CAxiosGet (dataProvider cr);
                   CRegister (Some ep) (next_id s); CProviderExport (Some ep) (next_id s)] /\
  store (fst r) =
    match registerAtProvider (Some ep) (next_id s) with
    | Fulfilled p => setProviderDataExchange d p (fst (create f s))
    | Failed _ => fst (create f s)
    end.
Proof.
  intros Href Hinc Hgc Hax Hep Hne Hpu f Hfresh d r. unfold r.
  rewrite consumerExchange_split, (export_prefix_bilateral b ref cr sd ep s) by done.
  rewrite Hpu. cbn beta iota. rewrite run_create_fresh by exact Hfresh.
  unfold export_suffix. unfold_js. cbn -[createDataExchangeToOtherParticipant create].
  rewrite run_register. simpl. by destruct (registerAtProvider _ _).
Qed.

(** C4: the bilateral export on a fresh request: when the contract is
    fetched, the provider's self-description has a non-empty
    [dataspaceEndpoint] and the contract a first purpose entry, and no
    in-flight exchange has the same key, the handler creates exactly the
    PENDING document of the contract's offering and first purpose at the
    provider's endpoint, registers it at the provider, answers 200
    success, and then triggers the provider's export, in this order: the
    answer is written after the first three outbound calls (contract,
    self-description, registration) and before the fourth, the export
    trigger. *)
Theorem consumerExchange_bilateral_ok b ref cr sd ep x ps s :
  ExchangeRequest.contract b = Some ref -> str_includes "contracts" ref = false ->
  getContract (Some ref) = Fulfilled cr -> axios_get (dataProvider cr) = Fulfilled sd ->
  dataspaceEndpoint sd = Some ep -> ep <> "" -> purpose cr = Some (x :: ps) ->
  let f := mkFields (Some ep) (serviceOffering cr) x (Some ref) PENDING in
  existsb (same_key f) (records s) = false ->
  let d := new_record f (next_id s) (clock s) in
  let r := consumerExchange b (init_ctx s) in
  snd r = Ret tt /\
  resp (fst r) = Some (200, Envelope true None) /\ logs (fst r) = [] /\
  calls (fst r) = [CGetContract (Some ref); CAxiosGet (dataProvider cr);
                   CRegister (Some ep) (next_id s); CProviderExport (Some ep) (next_id s)] /\
  answered_at (fst r) = 3 /\
  store (fst r) =
    match registerAtProvider (Some ep) (next_id s) with
    | Fulfilled p => setProviderDataExchange d p (fst (create f s))
    | Failed _ => fst (create f s)
    end.
Proof.
  intros Href Hinc Hgc Hax Hep Hne Hpu f Hfresh d r. unfold r.
  rewrite consumerExchange_split, (export_prefix_bilateral b ref cr sd ep s) by done.
  rewrite Hpu. cbn beta iota. rewrite run_create_fresh by exact Hfresh.
  unfold export_suffix. unfold_js. cbn -[createDataExchangeToOtherParticipant create].
  rewrite run_register. simpl. by destruct (registerAtProvider _ _).
Qed.

(** C5: a bilateral export whose provider has no [dataspaceEndpoint]
    (or whose self-description could not be fetched) is answered 500
    "Provider missing PDC endpoint", but the handler goes on: it still
    creates the PENDING document with no provider endpoint and registers
    it at the provider; the success answer then fails on the response
    already sent, and the provider's export is never triggered. *)
Theorem consumerExchange_bilateral_missing_endpoint b ref cr ep x ps s :
  ExchangeRequest.contract b = Some ref -> str_includes "contracts" ref = false ->
  getContract (Some ref) = Fulfilled cr ->
  (fst (handle (axios_get (dataProvider cr))) ≫= dataspaceEndpoint) = ep ->
  truthy ep = false -> purpose cr = Some (x :: ps) ->
  let f := mkFields ep (serviceOffering cr) x (Some ref) PENDING in
  existsb (same_key f) (records s) = false ->
  let d := new_record f (next_id s) (clock s) in
  let r := consumerExchange b (init_ctx s) in
  resp (fst r) = Some (500, Envelope false (Some "Provider missing PDC endpoint")) /\
  calls (fst r) = [CGetContract (Some ref); CAxiosGet (dataProvider cr);
                   CRegister ep (next_id s)] /\
  store (fst r) =
    match registerAtProvider ep (next_id s) with
    | Fulfilled p => setProviderDataExchange d p (fst (create f s))
    | Failed _ => fst (create f s)
    end.
Proof.
  intros Href Hinc Hgc Hep Htr Hpu f Hfresh d.
  unfold consumerExchange, export_prefix, export_suffix, export_catch, bilateral_branch, reject_if. unfold_js.
  rewrite Href, Hgc.
  cbn -[str_includes DataExchange_create createDataExchangeToOtherParticipant].
  rewrite Hinc. destruct (axios_get (dataProvider cr)); simpl in Hep; subst ep;
    cbn -[DataExchange_create createDataExchangeToOtherParticipant];
    rewrite ?Htr, Hpu; cbn -[DataExchange_create createDataExchangeToOtherParticipant];
    rewrite run_create_fresh by exact Hfresh;
    cbn -[createDataExchangeToOtherParticipant create]; rewrite run_register; simpl;
    by destruct (registerAtProvider _ _).
Qed.
(** C32: a bilateral export for an exchange that is already in flight
    (same contract, resource, purpose and provider endpoint) is never
    answered: [DataExchange.create] rejects with [DuplicateExchange], the
    [catch] block only logs it, and the requester gets no response;
    nothing is registered, triggered or stored. *)
Theorem consumerExchange_bilateral_duplicate b ref cr sd ep x ps s :
  ExchangeRequest.contract b = Some ref -> str_includes "contracts" ref = false ->
  getContract (Some ref) = Fulfilled cr -> axios_get (dataProvider cr) = Fulfilled sd ->
  dataspaceEndpoint sd = Some ep -> ep <> "" -> purpose cr = Some (x :: ps) ->
  existsb (same_key (mkFields (Some ep) (serviceOffering cr) x (Some ref) PENDING))
    (records s) = true ->
  consumerExchange b (init_ctx s) =
    (mkCtx s None ["DuplicateExchange"] [CGetContract (Some ref); CAxiosGet (dataProvider cr)] 0,
     Ret tt).
Proof.
  intros Href Hinc Hgc Hax Hep Hne Hpu Hdup.
  rewrite consumerExchange_split, (export_prefix_bilateral b ref cr sd ep s) by done.
  rewrite Hpu. cbn beta iota. by rewrite run_create_duplicate by exact Hdup.
Qed.

(** C33: a bilateral export whose contract cannot be fetched is never
    answered: [handle] gives an undefined [contractResponse], reading its
    [dataProvider] throws, the [catch] block only logs the [TypeError],
    and nothing is stored or called after the contract fetch. *)
Theorem consumerExchange_contract_unavailable b ref err s :
  ExchangeRequest.contract b = Some ref -> str_includes "contracts" ref = false ->
  getContract (Some ref) = Failed err ->
  consumerExchange b (init_ctx s) =
    (mkCtx s None [exn_message (TypeError false "dataProvider")] [CGetContract (Some ref)] 0,
     Ret tt).
Proof.
  intros Href Hinc Hgc.
  unfold consumerExchange, export_prefix, export_suffix, export_catch, bilateral_branch.
  unfold_js. rewrite Href, Hgc. cbn -[str_includes]. by rewrite Hinc.
Qed.

(** C34: a bilateral contract with an empty [purpose] list is never
    answered: reading [purpose[0].purpose] throws after the provider's
    self-description was fetched, the [catch] block only logs it, and no
    exchange is created. *)
Theorem consumerExchange_bilateral_no_purpose b ref cr sd ep s :
  ExchangeRequest.contract b = Some ref -> str_includes "contracts" ref = false ->
  getContract (Some ref) = Fulfilled cr -> axios_get (dataProvider cr) = Fulfilled sd ->
  dataspaceEndpoint sd = Some ep -> ep <> "" -> purpose cr = Some [] ->
  consumerExchange b (init_ctx s) =
    (mkCtx s None [exn_message (TypeError false "purpose")]
       [CGetContract (Some ref); CAxiosGet (dataProvider cr)] 0, Ret tt).
Proof.
  intros Href Hinc Hgc Hax Hep Hne Hpu.
  rewrite consumerExchange_split, (export_prefix_bilateral b ref cr sd ep s) by done.
  by rewrite Hpu.
Qed.
End BilateralProofs.

(** ** The collection invariant *)

Section ExchangeInvariant.
Context `{Services}.

(** The export handler keeps the collection well-formed (distinct
    identifiers below [next_id], status history ending in the current
    status), never writes [PEP_ERROR], and only moves the collection
    forward: no document is removed, no identity field changes, a
    terminal document stays as it is, no status changes, and every
    document it adds is PENDING. *)
Lemma consumerExchange_export_rel b : preserves_by export_rel (consumerExchange b).
Proof. unfold consumerExchange, export_prefix, export_suffix, export_catch, ecosystem_branch, bilateral_branch, reject_if. mono. Qed.

(** The two phases of the handler around the creation of the document,
    as the interleaved connector runs them: the [try] block up to the
    creation, and the rest of the [try] block under the same [catch]. *)
Lemma export_prefix_rel b : preserves_by export_rel (export_prefix b).
Proof. unfold export_prefix, ecosystem_branch, bilateral_branch, reject_if. mono. Qed.

Lemma export_resume_rel d pe :
  preserves_by export_rel (try_catch (export_suffix d pe) export_catch).
Proof. unfold export_suffix, export_catch. mono. Qed.

(** Every answer the export handler writes is an allowed one. *)
Lemma consumerExchange_keeps_resp b : keeps_resp (consumerExchange b).
Proof.
  unfold consumerExchange, export_prefix, export_suffix, export_catch, ecosystem_branch,
    bilateral_branch, reject_if.
  answers.
Qed.
End ExchangeInvariant.

(** ** How many documents an export adds *)

Section ExchangeBound.
Context `{Services}.

(** C24: one export request adds at most one document to the
    collection, whatever the request, the contract and the collaborators'
    answers, and whichever branch, validation answer or exception the
    handler goes through. *)
Theorem consumerExchange_adds_at_most_one b c :
  List.length (records (store (fst (consumerExchange b c)))) <=
    S (List.length (records (store c))).
Proof.
  assert (grows_at_most 1 (consumerExchange b)) as G.
  { unfold consumerExchange, export_prefix, export_suffix, export_catch, ecosystem_branch,
      bilateral_branch, reject_if.
    cbv zeta. bound_by ltac:(eauto with grow). }
  specialize (G c). unfold store_count in G. lia.
Qed.

(** C30: one export request makes at most four outbound calls (the
    contract fetch, the provider's self-description, the registration and
    the export trigger), whatever the answers: no call is retried or
    repeated (specification, section 5: no automatic retries). *)
Theorem consumerExchange_call_bound b c :
  List.length (calls (fst (consumerExchange b c))) <= List.length (calls c) + 4.
Proof.
  assert (grows_by call_count 4 (consumerExchange b)) as G.
  { unfold consumerExchange, export_prefix, export_suffix, export_catch, ecosystem_branch,
      bilateral_branch, reject_if.
    cbv zeta. bound_by ltac:(eauto with calls). }
  specialize (G c). unfold call_count in G. lia.
Qed.
End ExchangeBound.

(** ** Witnesses *)

Lemma consumerExchange_ecosystem_no_exchange_witness :
  ExchangeRequest.contract eco_request = Some eco_ref /\
  str_includes "contracts" eco_ref = true /\
  (let c' := fst (@consumerExchange (sample_services sample_sd (rest_resource true))
                    eco_request (init_ctx empty_store)) in
   store c' = store (init_ctx empty_store) /\
   calls c' = calls (init_ctx empty_store) ++ [CGetContract (Some eco_ref)] /\
   (resp (init_ctx empty_store) = None ->
    resp c' = None \/ exists m, resp c' = Some (500, Envelope false (Some m)))).
Proof.
  split; [reflexivity|]. split; [reflexivity|].
  apply (@consumerExchange_ecosystem_no_exchange (sample_services sample_sd (rest_resource true)));
    reflexivity.
Defined.

(** The resource [so-1] and the purpose [purpose-1] are both offerings of
    the contract, and the request is still refused. *)
Lemma consumerExchange_ecosystem_rejects_witness :
  servicesOfferings sample_contract = Some [Some "so-1"; Some "purpose-1"] /\
  ExchangeRequest.contract eco_request = Some eco_ref /\
  str_includes "contracts" eco_ref = true /\
  resp (fst (@consumerExchange (sample_services sample_sd (rest_resource true))
               eco_request (init_ctx empty_store))) =
    Some (500, Envelope false (Some "Wrong purpose given")).
Proof.
  split; [reflexivity|]. split; [reflexivity|]. split; [reflexivity|].
  apply (@consumerExchange_ecosystem_rejects (sample_services sample_sd (rest_resource true))
           eco_request eco_ref sample_contract [Some "so-1"; Some "purpose-1"]);
    reflexivity.
Defined.

Lemma consumerExchange_ecosystem_missing_params_witness :
  truthy (ExchangeRequest.resourceId eco_request_empty) = false /\
  resp (fst (@consumerExchange (sample_services sample_sd (rest_resource true))
               eco_request_empty (init_ctx empty_store))) =
    Some (500, Envelope false (Some "Missing body params")) /\
  store (fst (@consumerExchange (sample_services sample_sd (rest_resource true))
               eco_request_empty (init_ctx empty_store))) = store (init_ctx empty_store).
Proof.
  split; [reflexivity|].
  apply (@consumerExchange_ecosystem_missing_params (sample_services sample_sd (rest_resource true))
           eco_request_empty eco_ref); reflexivity.
Defined.

Lemma consumerExchange_bilateral_ok_witness :
  let svc := sample_services sample_sd (rest_resource true) in
  let f := mkFields (Some "https://provider.example/") (Some "so-1") (Some "purpose-1")
             (Some bil_ref) PENDING in
  let r := @consumerExchange svc bil_request (init_ctx empty_store) in
  str_includes "contracts" bil_ref = false /\
  snd r = Ret tt /\ resp (fst r) = Some (200, Envelope true None) /\ logs (fst r) = [] /\
  calls (fst r) = [CGetContract (Some bil_ref); CAxiosGet (Some "https://provider.example/sd");
                   CRegister (Some "https://provider.example/") 0;
                   CProviderExport (Some "https://provider.example/") 0] /\
  answered_at (fst r) = 3 /\
  store (fst r) = setProviderDataExchange (new_record f 0 0) "provider-exchange-1"
                    (fst (create f empty_store)).
Proof.
  split; [reflexivity|].
  apply (@consumerExchange_bilateral_ok (sample_services sample_sd (rest_resource true))
           bil_request bil_ref sample_contract sample_sd "https://provider.example/"
           (Some "purpose-1") [] empty_store); try reflexivity; discriminate.
Defined.

Lemma consumerExchange_bilateral_missing_endpoint_witness :
  let svc := sample_services (mkProviderSD None) (rest_resource true) in
  let f := mkFields None (Some "so-1") (Some "purpose-1") (Some bil_ref) PENDING in
  let r := @consumerExchange svc bil_request (init_ctx empty_store) in
  truthy None = false /\
  resp (fst r) = Some (500, Envelope false (Some "Provider missing PDC endpoint")) /\
  calls (fst r) = [CGetContract (Some bil_ref); CAxiosGet (Some "https://provider.example/sd");
                   CRegister None 0] /\
  store (fst r) = setProviderDataExchange (new_record f 0 0) "provider-exchange-1"
                    (fst (create f empty_store)).
Proof.
  split; [reflexivity|].
  apply (@consumerExchange_bilateral_missing_endpoint
           (sample_services (mkProviderSD None) (rest_resource true))
           bil_request bil_ref sample_contract None (Some "purpose-1") [] empty_store);
    reflexivity.
Defined.


Lemma consumerExchange_bilateral_duplicate_witness :
  existsb (same_key (mkFields (Some "https://provider.example/") (Some "so-1")
                       (Some "purpose-1") (Some bil_ref) PENDING)) (records bil_store) = true /\
  @consumerExchange bil_svc bil_request (init_ctx bil_store) =
    (mkCtx bil_store None ["DuplicateExchange"]
       [CGetContract (Some bil_ref); CAxiosGet (Some "https://provider.example/sd")] 0, Ret tt).
Proof.
  split; [vm_compute; reflexivity|].
  apply (@consumerExchange_bilateral_duplicate bil_svc bil_request bil_ref sample_contract
           sample_sd "https://provider.example/" (Some "purpose-1") [] bil_store);
    try reflexivity; discriminate.
Defined.

Lemma consumerExchange_contract_unavailable_witness :
  @consumerExchange (with_contract bil_svc (fun _ => Failed "contract service unavailable"))
    bil_request (init_ctx empty_store) =
    (mkCtx empty_store None [exn_message (TypeError false "dataProvider")]
       [CGetContract (Some bil_ref)] 0, Ret tt).
Proof.
  apply (@consumerExchange_contract_unavailable _ bil_request bil_ref
           "contract service unavailable" empty_store); reflexivity.
Defined.

Lemma consumerExchange_bilateral_no_purpose_witness :
  @consumerExchange (with_contract bil_svc (fun _ => Fulfilled no_purpose_contract))
    bil_request (init_ctx empty_store) =
    (mkCtx empty_store None [exn_message (TypeError false "purpose")]
       [CGetContract (Some bil_ref); CAxiosGet (Some "https://provider.example/sd")] 0, Ret tt).
Proof.
  apply (@consumerExchange_bilateral_no_purpose _ bil_request bil_ref no_purpose_contract
           sample_sd "https://provider.example/" empty_store); try reflexivity; discriminate.
Defined.
