(* ===== verification/ConsumerImport.v ===== *)
(** * The import handler [consumerImport]

    [src/controllers/public/v1/consumer.public.controller.ts], lines 131 to
    225: the provider delivers the data of an exchange. The handler looks
    the exchange up by the provider's identifier, fetches the contract,
    resolves the purpose's service offering and its first software
    resource in the catalog, and delivers the data to the resource's
    representation (REST only), forwarding the API's answer to the
    provider when asked. The exchange ends in [IMPORT_SUCCESS] or
    [CONSUMER_IMPORT_ERROR]; the policy check (PEP) is commented out in the
    source and is not part of the handler. What follows the lookup is
    [import_after], the phase [Interleaving] resumes. *)

From stdpp Require Import base list sets strings.
From Stdlib Require Import String.
From S2P Require Import Prelude Services ExchangeStore Runtime.

(** The fields of [req.body] the handler reads; [apiResponseRepresentation]
    is kept as its truthiness, the only use the handler makes of it. *)
Module ImportRequest.
Record t := mk {
  providerDataExchange : option string;
  data : option Payload;
  apiResponseRepresentation : bool
}.
End ImportRequest.

(** [catalogServiceOffering?.softwareResources[0]]: [None] when the chain
    throws (an offering without [softwareResources]); the optional chain
    short-circuits on a missing offering. *)
Definition software_resource_ref (cso : option CatalogEntry) : option (option string) :=
  match cso with
  | None => Some None
  | Some so =>
      match softwareResources so with
      | Some l => Some (nth0 l)
      | None => None
      end
  end.

Section ConsumerImport.
Context `{Services}.

Definition first_software_resource (cso : option CatalogEntry) : M Ctx (option string) :=
  match software_resource_ref cso with
  | Some r => ret r
  | None => throw (TypeError false "0")
  end.

(** [case 'REST':], lines 177 to 203. Answers [true] when the handler
    returned from inside the switch (the API case). *)
Definition rest_dispatch (dataExchange : DataExchange)
    (catalogSoftwareResource : option CatalogEntry) (endpoint : option string)
    (b : ImportRequest.t) : M Ctx bool :=
  let rep := catalogSoftwareResource ≫= representation in
  let meth := rep ≫= rep_method in
  let cred := rep ≫= rep_credential in
  let* '(postConsumerData, _) :=
    await_handle (CPost meth endpoint (ImportRequest.data b) cred)
      (postRepresentation meth endpoint (ImportRequest.data b) cred) in
  let* sr := deref catalogSoftwareResource "isAPI" in
  if isAPI sr then
    (if ImportRequest.apiResponseRepresentation b then
       let* _ := await_handle
         (CProviderImport (providerEndpoint dataExchange) postConsumerData (_id dataExchange))
         (providerImport (providerEndpoint dataExchange) postConsumerData (_id dataExchange)) in
       ret tt
     else ret tt) ;;
    doc_updateStatus dataExchange IMPORT_SUCCESS None ;;
    restfulResponse 200 (Raw postConsumerData) ;;
    ret true
  else ret false.

(** The body of the [try] block, lines 146 to 208. *)
Definition import_pipeline (dataExchange : option DataExchange) (b : ImportRequest.t)
    : M Ctx unit :=
  let* d := deref_null dataExchange "contract" in
  let* '(contractResp, _) :=
    await_handle (CGetContract (contract d)) (getContract (contract d)) in
  (match selfDescriptionProcessor (resourceId d) d (contract d) contractResp with
   | Some e => throw e
   | None => ret tt
   end) ;;
  let* '(catalogServiceOffering, _) :=
    await_handle (CGetCatalog (purposeId d)) (getCatalogData (purposeId d)) in
  let* sr := first_software_resource catalogServiceOffering in
  let* '(catalogSoftwareResource, _) :=
    await_handle (CGetCatalog sr) (getCatalogData sr) in
  let endpoint := (catalogSoftwareResource ≫= representation) ≫= rep_url in
  let* returned :=
    if negb (truthy endpoint) then
      doc_updateStatus d CONSUMER_IMPORT_ERROR None ;; ret false
    else
      let* returned :=
        if bool_decide (((catalogSoftwareResource ≫= representation) ≫= rep_type) = Some "REST")
        then rest_dispatch d catalogSoftwareResource endpoint b
        else ret false in
      if returned then ret true
      else doc_updateStatus d IMPORT_SUCCESS None ;; ret false in
  if returned then ret tt
  else restfulResponse 200 (Envelope true None).

(** The [catch] block, lines 214 to 224: it dereferences the looked-up
    document again. *)
Definition import_catch (dataExchange : option DataExchange) (e : exn) : M Ctx unit :=
  Logger_error (exn_message e) ;;
  let* d := deref_null dataExchange "updateStatus" in
  doc_updateStatus d CONSUMER_IMPORT_ERROR (Some (exn_message e)) ;;
  restfulResponse 500 (Envelope false None).

(** What the handler does once [findOne] has answered, lines 144 to 224. *)
Definition import_after (dataExchange : option DataExchange) (b : ImportRequest.t)
    : M Ctx unit :=
  try_catch (import_pipeline dataExchange b) (import_catch dataExchange).

(** The handler, lines 131 to 225. The lookup is outside the [try]. *)
Definition consumerImport (b : ImportRequest.t) : M Ctx unit :=
  let* dataExchange := DataExchange_findOne (ImportRequest.providerDataExchange b) in
  import_after dataExchange b.
End ConsumerImport.

(** ** Fixtures of the witnesses *)

(** A PENDING exchange the provider knows as [provider-exchange-1]. *)
Definition pending_exchange : DataExchange :=
  mkDataExchange 0 (Some "https://provider.example/") (Some "so-1") (Some "purpose-1")
    (Some "https://contract.example/bilaterals/3") PENDING (Some "provider-exchange-1")
    None [(PENDING, None)] 0 1.

Definition pending_store : Store := mkStore [pending_exchange] 1 2.

Definition known_import (api : bool) : ImportRequest.t :=
  ImportRequest.mk (Some "provider-exchange-1") (Some "payload") api.

Definition svc_rest (api : bool) : Services := sample_services (mkProviderSD None) (rest_resource api).

Definition resolved_exchange : DataExchange :=
  mkDataExchange 0 (Some "https://provider.example/") (Some "so-1") (Some "purpose-1")
    (Some "https://contract.example/bilaterals/3") IMPORT_SUCCESS (Some "provider-exchange-1")
    None [(PENDING, None); (IMPORT_SUCCESS, None)] 0 2.

Definition resolved_store : Store := mkStore [resolved_exchange] 1 3.

(** A second exchange, known to the provider under another identifier. *)
Definition other_exchange : DataExchange :=
  mkDataExchange 1 (Some "https://provider.example/") (Some "so-7") (Some "purpose-7")
    (Some "https://contract.example/bilaterals/4") PENDING (Some "provider-exchange-2")
    None [(PENDING, None)] 2 3.

Definition two_store : Store := mkStore [pending_exchange; other_exchange] 2 4.

(** ** Runs of the import handler *)

Section ImportProofs.
Context `{Services}.

(** C6: an import for a [providerDataExchange] that matches no document
    is never answered: [findOne] gives [null], the [try] block throws on
    [dataExchange.contract], and the [catch] block throws again on
    [dataExchange.updateStatus], so the handler's promise rejects with
    the collection unchanged and nothing called. *)
Theorem consumerImport_unknown_exchange b c :
  findOne (ImportRequest.providerDataExchange b) (store c) = None ->
  consumerImport b c =
    (mkCtx (store c) (resp c) (logs c ++ [exn_message (TypeError true "contract")]) (calls c)
       (answered_at c),
     Throw (TypeError true "updateStatus")).
Proof.
  intros Hf.
  unfold consumerImport, import_after, import_catch, import_pipeline, DataExchange_findOne.
  unfold_js.
  cbn -[findOne]. by rewrite Hf.
Qed.

(** C9: when the software resource resolved from the catalog has no
    [representation.url] (the catalog lookup failed, the offering has no
    resource, or the resource has no URL), the exchange is moved to
    [CONSUMER_IMPORT_ERROR] with no error message, and the provider still
    receives 200 with the success envelope. *)
Theorem consumerImport_no_endpoint b c d srid :
  findOne (ImportRequest.providerDataExchange b) (store c) = Some d ->
  selfDescriptionProcessor (resourceId d) d (contract d)
    (fst (handle (getContract (contract d)))) = None ->
  software_resource_ref (fst (handle (getCatalogData (purposeId d)))) = Some srid ->
  truthy ((fst (handle (getCatalogData srid)) ≫= representation) ≫= rep_url) = false ->
  resp c = None ->
  let r := consumerImport b c in
  snd r = Ret tt /\ resp (fst r) = Some (200, Envelope true None) /\
  store (fst r) = fst (updateStatus d CONSUMER_IMPORT_ERROR None (store c)).
Proof.
  intros Hf Hsdp Hsr Hep Hr.
  unfold consumerImport, import_after, import_catch, import_pipeline, first_software_resource,
    DataExchange_findOne.
  unfold_js. cbn -[doc_updateStatus findOne handle]. rewrite Hf.
  cbn -[doc_updateStatus handle]. destruct (handle (getContract _)) as [cr e1].
  simpl in Hsdp. rewrite Hsdp. cbn -[doc_updateStatus handle].
  destruct (handle (getCatalogData (purposeId d))) as [cso e2].
  simpl in Hsr. rewrite Hsr. cbn -[doc_updateStatus handle].
  destruct (handle (getCatalogData srid)) as [csr e3].
  simpl in Hep. rewrite Hep. cbn -[doc_updateStatus].
  rewrite run_updateStatus. simpl. by rewrite Hr.
Qed.
End ImportProofs.

(** Runs the import handler on a found document up to the resolution of
    the software resource. *)
Ltac run_import_prefix Hf Hsdp Hsr :=
  unfold consumerImport, import_after, import_catch, import_pipeline, first_software_resource,
    rest_dispatch,
    DataExchange_findOne;
  unfold_js; cbn -[doc_updateStatus findOne handle]; rewrite Hf;
  cbn -[doc_updateStatus handle]; destruct (handle (getContract _));
  simpl in Hsdp; rewrite Hsdp; cbn -[doc_updateStatus handle];
  destruct (handle (getCatalogData (purposeId _))); simpl in Hsr; rewrite Hsr;
  cbn -[doc_updateStatus handle].

Section DispatchProofs.
Context `{Services}.
Context (b : ImportRequest.t) (c : Ctx) (d : DataExchange) (srid : option string)
  (csr : CatalogEntry) (rep : Representation) (ep : string).
Hypothesis Hf : findOne (ImportRequest.providerDataExchange b) (store c) = Some d.
Hypothesis Hsdp : selfDescriptionProcessor (resourceId d) d (contract d)
  (fst (handle (getContract (contract d)))) = None.
Hypothesis Hsr : software_resource_ref (fst (handle (getCatalogData (purposeId d)))) = Some srid.
Hypothesis Hcsr : getCatalogData srid = Fulfilled csr.
Hypothesis Hrep : representation csr = Some rep.
Hypothesis Hurl : rep_url rep = Some ep.
Hypothesis Hne : ep <> "".
Hypothesis Hr : resp c = None.

Let post := fst (handle (postRepresentation (rep_method rep) (Some ep)
                           (ImportRequest.data b) (rep_credential rep))).
Let resolved := [CGetContract (contract d); CGetCatalog (purposeId d); CGetCatalog srid].

(** C8: delivery to an API resource with [apiResponseRepresentation]:
    the data is posted to the representation's URL with its method and
    credential, the API's answer is forwarded to the provider with
    [providerImport], the exchange becomes [IMPORT_SUCCESS] whatever the
    post and the forward returned, and the provider receives 200 with the
    API's answer. *)
Theorem consumerImport_rest_api :
  rep_type rep = Some "REST" -> isAPI csr = true ->
  ImportRequest.apiResponseRepresentation b = true ->
  let r := consumerImport b c in
  snd r = Ret tt /\ resp (fst r) = Some (200, Raw post) /\
  calls (fst r) = calls c ++ resolved ++
    [CPost (rep_method rep) (Some ep) (ImportRequest.data b) (rep_credential rep);
     CProviderImport (providerEndpoint d) post (_id d)] /\
  store (fst r) = fst (updateStatus d IMPORT_SUCCESS None (store c)).
Proof.
  intros Htype Hapi Hask. unfold post, resolved. run_import_prefix Hf Hsdp Hsr.
  rewrite Hcsr, handle_Fulfilled. cbn -[doc_updateStatus handle]. rewrite Hrep. cbn -[doc_updateStatus handle].
  rewrite Hurl, truthy_Some, Htype, bool_decide_true by done.
  cbn -[doc_updateStatus handle]. destruct (handle (postRepresentation _ _ _ _)).
  rewrite Hapi, Hask. cbn -[doc_updateStatus]. rewrite run_updateStatus. simpl.
  rewrite Hr. by rewrite <- !app_assoc.
Qed.

(** C11: delivery to a REST resource that is not an API: the data is
    posted, the exchange becomes [IMPORT_SUCCESS] even when the post
    failed, nothing is forwarded, and the provider receives 200 with the
    success envelope. *)
Theorem consumerImport_rest_not_api :
  rep_type rep = Some "REST" -> isAPI csr = false ->
  let r := consumerImport b c in
  snd r = Ret tt /\ resp (fst r) = Some (200, Envelope true None) /\
  calls (fst r) = calls c ++ resolved ++
    [CPost (rep_method rep) (Some ep) (ImportRequest.data b) (rep_credential rep)] /\
  store (fst r) = fst (updateStatus d IMPORT_SUCCESS None (store c)).
Proof.
  intros Htype Hapi. unfold resolved. run_import_prefix Hf Hsdp Hsr.
  rewrite Hcsr, handle_Fulfilled. cbn -[doc_updateStatus handle]. rewrite Hrep. cbn -[doc_updateStatus handle].
  rewrite Hurl, truthy_Some, Htype, bool_decide_true by done.
  cbn -[doc_updateStatus handle]. destruct (handle (postRepresentation _ _ _ _)).
  rewrite Hapi. cbn -[doc_updateStatus]. rewrite run_updateStatus. simpl.
  rewrite Hr. by rewrite <- !app_assoc.
Qed.

(** C12: a resource whose representation type is not [REST] receives
    nothing, yet the exchange becomes [IMPORT_SUCCESS] and the provider
    receives 200 with the success envelope. *)
Theorem consumerImport_other_type :
  rep_type rep <> Some "REST" ->
  let r := consumerImport b c in
  snd r = Ret tt /\ resp (fst r) = Some (200, Envelope true None) /\
  calls (fst r) = calls c ++ resolved /\
  store (fst r) = fst (updateStatus d IMPORT_SUCCESS None (store c)).
Proof.
  intros Htype. unfold resolved. run_import_prefix Hf Hsdp Hsr.
  rewrite Hcsr, handle_Fulfilled. cbn -[doc_updateStatus handle]. rewrite Hrep. cbn -[doc_updateStatus handle].
  rewrite Hurl, truthy_Some by done.
  cbn -[doc_updateStatus handle]. rewrite bool_decide_false by done.
  cbn -[doc_updateStatus]. rewrite run_updateStatus. simpl.
  rewrite Hr. by rewrite <- !app_assoc.
Qed.
End DispatchProofs.

Section ErrorProofs.
Context `{Services}.

(** C10: an exception inside the pipeline (the self-description
    processing throws, or the service offering has no
    [softwareResources]) is caught: the exchange is moved to
    [CONSUMER_IMPORT_ERROR] carrying the exception's message, and the
    provider receives 500 with the failure envelope. *)
Theorem consumerImport_pipeline_error b c d e :
  findOne (ImportRequest.providerDataExchange b) (store c) = Some d ->
  (selfDescriptionProcessor (resourceId d) d (contract d)
     (fst (handle (getContract (contract d)))) = Some e \/
   (selfDescriptionProcessor (resourceId d) d (contract d)
      (fst (handle (getContract (contract d)))) = None /\
    software_resource_ref (fst (handle (getCatalogData (purposeId d)))) = None /\
    e = TypeError false "0")) ->
  resp c = None ->
  let r := consumerImport b c in
  snd r = Ret tt /\ resp (fst r) = Some (500, Envelope false None) /\
  store (fst r) =
    fst (updateStatus d CONSUMER_IMPORT_ERROR (Some (exn_message e)) (store c)).
Proof.
  intros Hf He Hr.
  unfold consumerImport, import_after, import_catch, import_pipeline, first_software_resource,
    DataExchange_findOne.
  unfold_js. cbn -[doc_updateStatus findOne handle]. rewrite Hf.
  cbn -[doc_updateStatus handle]. destruct (handle (getContract _)).
  destruct He as [He|(He & Hsr & ->)]; simpl in He; rewrite He.
  - cbn -[doc_updateStatus]. rewrite run_updateStatus. simpl. by rewrite Hr.
  - cbn -[doc_updateStatus handle]. destruct (handle (getCatalogData _)).
    simpl in Hsr. rewrite Hsr. cbn -[doc_updateStatus].
    rewrite run_updateStatus. simpl. by rewrite Hr.
Qed.

(** The import handler keeps the collection invariant (well-formed,
    no [PEP_ERROR]), only moves the collection forward (identities kept,
    terminal documents frozen) and adds no document. *)
Lemma consumerImport_import_rel b : preserves_by import_rel (consumerImport b).
Proof.
  unfold consumerImport, import_after, import_catch, import_pipeline, first_software_resource,
    rest_dispatch.
  mono.
Qed.

(** What the handler does after the lookup keeps the invariant and adds
    no document, whichever document the lookup answered. *)
Lemma import_after_rel dx b : preserves_by import_rel (import_after dx b).
Proof.
  unfold import_after, import_catch, import_pipeline, first_software_resource, rest_dispatch.
  mono.
Qed.

(** The handler is the lookup followed at once by the rest. *)
Lemma consumerImport_split b c :
  consumerImport b c =
    import_after (findOne (ImportRequest.providerDataExchange b) (store c)) b c.
Proof. reflexivity. Qed.
(** Every answer the import handler writes is an allowed one. *)
Lemma consumerImport_keeps_resp b : keeps_resp (consumerImport b).
Proof.
  unfold consumerImport, import_after, import_catch, import_pipeline, first_software_resource,
    rest_dispatch.
  answers.
Qed.

(** C31: one import request makes at most five outbound calls (the
    contract fetch, the two catalog lookups, the delivery to the
    representation and the forward to the provider), whatever the
    answers and whichever branch or exception it goes through: no call is
    retried (specification, section 5). *)
Theorem consumerImport_call_bound b c :
  List.length (calls (fst (consumerImport b c))) <= List.length (calls c) + 5.
Proof.
  assert (grows_by call_count 5 (consumerImport b)) as G.
  { unfold consumerImport, import_after, import_catch, import_pipeline, first_software_resource,
      rest_dispatch.
    bound_by ltac:(eauto with calls). }
  specialize (G c). unfold call_count in G. lia.
Qed.
End ErrorProofs.

Section Resolution.
Context `{Services}.

(** On a found document, the pipeline either throws before answering and
    before any write, or answers and makes exactly one terminal
    transition of the document. *)
Lemma import_pipeline_cases b c d :
  resp c = None ->
  (exists c' e, import_pipeline (Some d) b c = (c', Throw e) /\
     store c' = store c /\ resp c' = None) \/
  (exists c' st err, import_pipeline (Some d) b c = (c', Ret tt) /\ is_terminal st = true /\
     store c' = fst (updateStatus d st err (store c)) /\ resp c' <> None).
Proof.
  intros Hr. unfold import_pipeline, first_software_resource, rest_dispatch. unfold_js.
  repeat (case_match; simplify_eq/=; rewrite ?run_updateStatus in *; simplify_eq/=;
          rewrite ?Hr in * ); eauto 10.
  all: right; do 3 eexists; split_and!; [reflexivity| |reflexivity|done]; done.
Qed.

(** On a found document the handler resolves, answers, and its only
    write is one terminal transition of that document. *)
Lemma consumerImport_outcome b c d :
  findOne (ImportRequest.providerDataExchange b) (store c) = Some d -> resp c = None ->
  let r := consumerImport b c in
  snd r = Ret tt /\ resp (fst r) <> None /\
  exists st err, is_terminal st = true /\ store (fst r) = fst (updateStatus d st err (store c)).
Proof.
  intros Hf Hr. unfold consumerImport, import_after, import_catch, DataExchange_findOne. unfold_js.
  cbn -[findOne import_pipeline]. rewrite Hf.
  destruct (import_pipeline_cases b c d Hr)
    as [(c' & e & -> & Hs & Hr')|(c' & st & err & -> & Ht & Hs & Hr')].
  - cbn -[doc_updateStatus]. rewrite run_updateStatus. simpl. rewrite Hr', Hs.
    split_and!; [done|done|]. by exists CONSUMER_IMPORT_ERROR, (Some (exn_message e)).
  - simpl. split_and!; [done|done|]. by exists st, err.
Qed.

(** C3: every import for a known exchange is answered and resolves the
    exchange: whatever the contract service, the catalog, the
    representation and the provider answer, the handler's promise
    resolves, the provider receives a response, and the stored document
    of the exchange is in a terminal status afterwards. *)
Theorem consumerImport_known_resolves b c d :
  findOne (ImportRequest.providerDataExchange b) (store c) = Some d -> resp c = None ->
  let r := consumerImport b c in
  snd r = Ret tt /\ resp (fst r) <> None /\
  exists d', find_by_id (_id d) (records (store (fst r))) = Some d' /\
    is_terminal (status d') = true.
Proof.
  intros Hf Hr. cbv zeta. destruct (find_by_id_exists _ _ (findOne_elem _ _ _ Hf)) as [cur F].
  destruct (consumerImport_outcome b c d Hf Hr) as (Hret & Hresp & st & err & Ht & ->).
  split_and!; [done|done|]. by apply (updateStatus_terminal _ _ _ _ cur).
Qed.

(** C19: a duplicate or late callback for an exchange that is already
    terminal is tolerated: the handler resolves and answers, and the
    collection is left exactly as it was. *)
Theorem consumerImport_duplicate_callback b c d cur :
  findOne (ImportRequest.providerDataExchange b) (store c) = Some d ->
  find_by_id (_id d) (records (store c)) = Some cur -> is_terminal (status cur) = true ->
  resp c = None ->
  let r := consumerImport b c in
  snd r = Ret tt /\ resp (fst r) <> None /\ store (fst r) = store c.
Proof.
  intros Hf F Ht Hr. cbv zeta.
  destruct (consumerImport_outcome b c d Hf Hr) as (Hret & Hresp & st & err & _ & ->).
  split_and!; [done|done|]. by apply (updateStatus_terminal_noop _ _ _ _ cur).
Qed.

(** C20: an import changes no other exchange than the one it found: every
    other document of the collection is still stored as it was. *)
Theorem consumerImport_frame b c d r :
  findOne (ImportRequest.providerDataExchange b) (store c) = Some d -> resp c = None ->
  r ∈ records (store c) -> _id r <> _id d ->
  r ∈ records (store (fst (consumerImport b c))).
Proof.
  intros Hf Hr Hin Hne.
  destruct (consumerImport_outcome b c d Hf Hr) as (_ & _ & st & err & _ & ->).
  by apply updateStatus_other.
Qed.
End Resolution.

(** ** What the handler reads of the found document *)

Section Identity.
Context `{Services}.

(** After the lookup the handler reads only the identifier, the provider
    endpoint, the contract, the resource and the purpose of the document
    it found, and hands the whole document to [selfDescriptionProcessor]
    (line 151): two versions of a document that agree on these fields,
    and on which the processor throws alike, give the same run. *)
Lemma import_after_identity d d' b c :
  _id d' = _id d -> providerEndpoint d' = providerEndpoint d -> contract d' = contract d ->
  resourceId d' = resourceId d -> purposeId d' = purposeId d ->
  (forall cr, selfDescriptionProcessor (resourceId d) d' (contract d) cr =
              selfDescriptionProcessor (resourceId d) d (contract d) cr) ->
  import_after (Some d') b c = import_after (Some d) b c.
Proof.
  intros Hid Hpe Hc Hr Hp Hsdp. unfold import_after, import_pipeline. unfold_js.
  rewrite Hc. cbn -[doc_updateStatus rest_dispatch handle].
  destruct (handle (getContract (contract d))) as [cr e].
  cbn -[doc_updateStatus rest_dispatch handle selfDescriptionProcessor].
  rewrite Hr, Hsdp, Hp. destruct d, d'; simpl in *; subst. reflexivity.
Qed.
End Identity.

(** ** What the handler reads back of the found document *)

Section ReadBack.
Context `{Services}.

(** An import that finds [d], and whose self-description processing does
    not throw, first fetches the contract [d] names (line 148) and then
    looks the catalog up by the purpose [d] names (line 161); the calls
    it makes after these two depend on the catalog's answers. *)
Lemma consumerImport_reads b c d :
  findOne (ImportRequest.providerDataExchange b) (store c) = Some d ->
  selfDescriptionProcessor (resourceId d) d (contract d)
    (fst (handle (getContract (contract d)))) = None ->
  exists rest, calls (fst (consumerImport b c)) =
    calls c ++ CGetContract (contract d) :: CGetCatalog (purposeId d) :: rest.
Proof.
  intros Hf Hsdp.
  unfold consumerImport, import_after, import_catch, import_pipeline, first_software_resource,
    rest_dispatch, DataExchange_findOne.
  unfold_js. cbn -[doc_updateStatus findOne handle]. rewrite Hf.
  cbn -[doc_updateStatus handle]. destruct (handle (getContract _)) as [cr e1].
  simpl in Hsdp. rewrite Hsdp. cbn -[doc_updateStatus handle].
  repeat (case_match; rewrite ?run_updateStatus in *; simplify_eq/=);
    eexists; rewrite <- ?app_assoc; reflexivity.
Qed.
End ReadBack.

(** ** Witnesses *)

Lemma consumerImport_unknown_exchange_witness :
  let b := ImportRequest.mk (Some "unknown") (Some "payload") true in
  findOne (ImportRequest.providerDataExchange b) pending_store = None /\
  @consumerImport (svc_rest true) b (init_ctx pending_store) =
    (mkCtx pending_store None [exn_message (TypeError true "contract")] [] 0,
     Throw (TypeError true "updateStatus")).
Proof.
  split; [reflexivity|].
  apply (@consumerImport_unknown_exchange (svc_rest true)). reflexivity.
Defined.

Lemma consumerImport_no_endpoint_witness :
  let svc := sample_services (mkProviderSD None) (mkCatalogEntry None None false) in
  let r := @consumerImport svc (known_import true) (init_ctx pending_store) in
  findOne (Some "provider-exchange-1") pending_store = Some pending_exchange /\
  snd r = Ret tt /\ resp (fst r) = Some (200, Envelope true None) /\
  store (fst r) = fst (updateStatus pending_exchange CONSUMER_IMPORT_ERROR None pending_store).
Proof.
  split; [reflexivity|].
  apply (@consumerImport_no_endpoint (sample_services (mkProviderSD None) (mkCatalogEntry None None false))
           (known_import true) (init_ctx pending_store) pending_exchange (Some "sr-1"));
    vm_compute; reflexivity.
Defined.

Lemma consumerImport_rest_api_witness :
  let r := @consumerImport (svc_rest true) (known_import true) (init_ctx pending_store) in
  getCatalogData (Services := svc_rest true) (Some "sr-1") = Fulfilled (rest_resource true) /\
  snd r = Ret tt /\ resp (fst r) = Some (200, Raw (Some "accepted")) /\
  calls (fst r) = [CGetContract (Some "https://contract.example/bilaterals/3");
                   CGetCatalog (Some "purpose-1"); CGetCatalog (Some "sr-1");
                   CPost (Some "post") (Some "https://consumer.example/in") (Some "payload")
                     (Some "token");
                   CProviderImport (Some "https://provider.example/") (Some "accepted") 0] /\
  store (fst r) = fst (updateStatus pending_exchange IMPORT_SUCCESS None pending_store).
Proof.
  split; [reflexivity|].
  eapply (@consumerImport_rest_api (svc_rest true) (known_import true) (init_ctx pending_store)
            pending_exchange (Some "sr-1") (rest_resource true) rest_rep "https://consumer.example/in");
    try (vm_compute; reflexivity); discriminate.
Defined.

Lemma consumerImport_rest_not_api_witness :
  let r := @consumerImport (svc_rest false) (known_import true) (init_ctx pending_store) in
  isAPI (rest_resource false) = false /\
  snd r = Ret tt /\ resp (fst r) = Some (200, Envelope true None) /\
  calls (fst r) = [CGetContract (Some "https://contract.example/bilaterals/3");
                   CGetCatalog (Some "purpose-1"); CGetCatalog (Some "sr-1");
                   CPost (Some "post") (Some "https://consumer.example/in") (Some "payload")
                     (Some "token")] /\
  store (fst r) = fst (updateStatus pending_exchange IMPORT_SUCCESS None pending_store).
Proof.
  split; [reflexivity|].
  eapply (@consumerImport_rest_not_api (svc_rest false) (known_import true) (init_ctx pending_store)
            pending_exchange (Some "sr-1") (rest_resource false) rest_rep "https://consumer.example/in");
    try (vm_compute; reflexivity); discriminate.
Defined.

Lemma consumerImport_other_type_witness :
  let svc := sample_services (mkProviderSD None) (typed_resource "GRAPHQL") in
  let r := @consumerImport svc (known_import true) (init_ctx pending_store) in
  Some "GRAPHQL" <> Some "REST" /\
  snd r = Ret tt /\ resp (fst r) = Some (200, Envelope true None) /\
  calls (fst r) = [CGetContract (Some "https://contract.example/bilaterals/3");
                   CGetCatalog (Some "purpose-1"); CGetCatalog (Some "sr-1")] /\
  store (fst r) = fst (updateStatus pending_exchange IMPORT_SUCCESS None pending_store).
Proof.
  split; [discriminate|].
  eapply (@consumerImport_other_type (sample_services (mkProviderSD None) (typed_resource "GRAPHQL"))
            (known_import true) (init_ctx pending_store)
            pending_exchange (Some "sr-1") (typed_resource "GRAPHQL") (typed_rep "GRAPHQL")
            "https://consumer.example/in");
    try (vm_compute; reflexivity); discriminate.
Defined.

Lemma consumerImport_pipeline_error_witness :
  let svc := sample_services_with (mkProviderSD None) (mkCatalogEntry None None false)
               (rest_resource true) in
  let r := @consumerImport svc (known_import true) (init_ctx pending_store) in
  software_resource_ref (Some (mkCatalogEntry None None false)) = None /\
  snd r = Ret tt /\ resp (fst r) = Some (500, Envelope false None) /\
  store (fst r) = fst (updateStatus pending_exchange CONSUMER_IMPORT_ERROR
                         (Some (exn_message (TypeError false "0"))) pending_store).
Proof.
  split; [reflexivity|].
  apply (@consumerImport_pipeline_error
           (sample_services_with (mkProviderSD None) (mkCatalogEntry None None false)
              (rest_resource true))
           (known_import true) (init_ctx pending_store) pending_exchange (TypeError false "0"));
    [vm_compute; reflexivity| |reflexivity].
  right. split_and!; vm_compute; reflexivity.
Defined.

Lemma consumerImport_known_resolves_witness :
  let r := @consumerImport (svc_rest true) (known_import false) (init_ctx pending_store) in
  findOne (Some "provider-exchange-1") pending_store = Some pending_exchange /\
  snd r = Ret tt /\ resp (fst r) <> None /\
  exists d', find_by_id 0 (records (store (fst r))) = Some d' /\ is_terminal (status d') = true.
Proof.
  split; [reflexivity|].
  apply (@consumerImport_known_resolves (svc_rest true) (known_import false)
           (init_ctx pending_store) pending_exchange); reflexivity.
Defined.

Lemma consumerImport_duplicate_callback_witness :
  let r := @consumerImport (svc_rest true) (known_import true) (init_ctx resolved_store) in
  findOne (Some "provider-exchange-1") resolved_store = Some resolved_exchange /\
  is_terminal (status resolved_exchange) = true /\
  snd r = Ret tt /\ resp (fst r) <> None /\ store (fst r) = resolved_store.
Proof.
  split; [reflexivity|]. split; [reflexivity|].
  apply (@consumerImport_duplicate_callback (svc_rest true) (known_import true)
           (init_ctx resolved_store) resolved_exchange resolved_exchange); reflexivity.
Defined.

Lemma consumerImport_frame_witness :
  findOne (Some "provider-exchange-1") two_store = Some pending_exchange /\
  other_exchange ∈ records two_store /\
  other_exchange ∈ records (store (fst (@consumerImport (svc_rest true) (known_import true)
                                          (init_ctx two_store)))).
Proof.
  split; [reflexivity|]. split; [vm_compute; right; left|].
  apply (@consumerImport_frame (svc_rest true) (known_import true) (init_ctx two_store)
           pending_exchange other_exchange); [reflexivity|reflexivity| |discriminate].
  vm_compute. right. left.
Defined.
