(* ===== verification/System.v ===== *)
(** * The connector as a transition system

    One step of the connector serves one request, export or import, to
    completion on the current DataExchange collection, with the
    collaborators answering however they answer at that moment. The
    abstract specification is the lifecycle of each exchange of the
    specification (section 4.2): absent, created PENDING, then resolved
    once into a terminal status that never changes. The steps of the
    connector refine the abstract lifecycle: every step moves each
    exchange along it. Requests are served one at a time here; the
    interleaving of the [await]s of concurrent requests is the subject of
    [Interleaving]. The last section composes the two handlers: an export
    followed by the provider's callback, when the registration succeeds
    and when it fails. *)

From stdpp Require Import base list sets strings relations.
From Stdlib Require Import String.
From S2P Require Import Prelude Services ExchangeStore Runtime ConsumerExchange ConsumerImport.

Inductive Request : Type :=
| RqExport (b : ExchangeRequest.t)
| RqImport (b : ImportRequest.t).

(** The route handler of a request. *)
Definition handler (svc : Services) (rq : Request) : M Ctx unit :=
  match rq with
  | RqExport b => @consumerExchange svc b
  | RqImport b => @consumerImport svc b
  end.

(** The collection after serving [rq] as a fresh request. *)
Definition serve (svc : Services) (rq : Request) (s : Store) : Store :=
  store (fst (handler svc rq (init_ctx s))).

Inductive step : Store -> Store -> Prop :=
| step_serve svc rq s : step s (serve svc rq s).

Definition reachable (s : Store) : Prop := rtc step empty_store s.

(** ** The abstract lifecycle of an exchange *)

Inductive exch_step : option DataExchangeStatusEnum -> option DataExchangeStatusEnum -> Prop :=
| exch_absent : exch_step None None
| exch_create : exch_step None (Some PENDING)
| exch_keep st : exch_step (Some st) (Some st)
| exch_resolve st : is_terminal st = true -> exch_step (Some PENDING) (Some st).

(** The abstract state: the status of each exchange identifier. *)
Definition abs_view (s : Store) (id : nat) : option DataExchangeStatusEnum :=
  status <$> find_by_id id (records s).

Definition abs_step (v v' : nat -> option DataExchangeStatusEnum) : Prop :=
  forall id, exch_step (v id) (v' id).

(** ** Fixtures of the witnesses *)

Definition svc_ok : Services := sample_services sample_sd (rest_resource true).

Definition svc_no_url : Services := sample_services sample_sd (mkCatalogEntry None None false).

Definition import_request : ImportRequest.t :=
  ImportRequest.mk (Some "provider-exchange-1") (Some "payload") true.

(** The collaborators of [svc_ok] with a provider that refuses every
    registration. *)
Definition svc_unregistered : Services := {|
  getContract := @getContract svc_ok;
  axios_get := @axios_get svc_ok;
  getCatalogData := @getCatalogData svc_ok;
  postRepresentation := @postRepresentation svc_ok;
  providerExport := @providerExport svc_ok;
  providerImport := @providerImport svc_ok;
  registerAtProvider := fun _ _ => Failed "provider unreachable";
  selfDescriptionProcessor := @selfDescriptionProcessor svc_ok
|}.

(** A callback whose body has no [providerDataExchange]. *)
Definition anonymous_import : ImportRequest.t :=
  ImportRequest.mk None (Some "payload") false.

Definition store1 : Store := serve svc_ok (RqExport bil_request) empty_store.

Definition store2 : Store := serve svc_ok (RqImport import_request) store1.

Definition store3 : Store := serve svc_no_url (RqImport import_request) store2.

(** The exchange the bilateral export of [store1] creates. *)
Definition exchange1 : DataExchange :=
  set_provider_exchange
    (new_record (mkFields (Some "https://provider.example/") (Some "so-1") (Some "purpose-1")
                  (Some bil_ref) PENDING) 0 0) "provider-exchange-1" 1.

(** ** Lemmas *)

Lemma exch_step_pending st : exch_step (Some PENDING) (Some st).
Proof. destruct st; constructor; done. Qed.

Lemma abs_view_elem s r :
  store_wf s -> r ∈ records s -> abs_view s (_id r) = Some (status r).
Proof. intros [Hnd _] Hr. unfold abs_view. by rewrite find_by_id_elem. Qed.

Lemma abs_view_Some s id st :
  abs_view s id = Some st -> exists r, r ∈ records s /\ _id r = id /\ status r = st.
Proof.
  unfold abs_view. destruct (find_by_id id _) as [r|] eqn:F; [|done].
  intros [= <-]. apply find_by_id_Some in F as [Hr Hid]. by exists r.
Qed.

Lemma abs_view_None s r : r ∈ records s -> abs_view s (_id r) <> None.
Proof.
  intros Hr. destruct (find_by_id_exists _ _ Hr) as [cur F].
  unfold abs_view. by rewrite F.
Qed.

(** An exchange that exists keeps existing, and keeps a terminal status. *)
Lemma abs_view_store_le s s' id st :
  store_wf s -> store_wf s' -> store_le s s' -> abs_view s id = Some st ->
  exists st', abs_view s' id = Some st' /\ (is_terminal st = true -> st' = st).
Proof.
  intros Hwf Hwf' [_ Hle] (r & Hr & <- & <-)%abs_view_Some.
  destruct (Hle r Hr) as (r' & Hr' & Hid & _ & _ & _ & _ & _ & Hfr).
  exists (status r'). rewrite <- Hid. split; [by apply abs_view_elem|].
  intros Ht. by destruct (Hfr Ht).
Qed.

Lemma abs_step_existing s s' id st :
  store_wf s -> store_wf s' -> store_le s s' -> abs_view s id = Some st ->
  exch_step (Some st) (abs_view s' id).
Proof.
  intros Hwf Hwf' Hle Hv.
  destruct (abs_view_store_le s s' id st Hwf Hwf' Hle Hv) as (st' & -> & Hfr).
  destruct (is_terminal st) eqn:Ht.
  - rewrite Hfr by done. constructor.
  - destruct st; [apply exch_step_pending|done..].
Qed.

Lemma abs_step_export s s' id :
  store_wf s -> status_kept s s' -> abs_view s id = None ->
  exch_step None (abs_view s' id).
Proof.
  intros Hwf [_ Hk] Hv. destruct (abs_view s' id) as [st|] eqn:Hv'; [|constructor].
  apply abs_view_Some in Hv' as (r' & Hr' & <- & <-).
  destruct (Hk r' Hr') as [(r & Hr & Hid & _)|[_ ->]]; [|constructor].
  exfalso. apply (abs_view_None s r Hr). by rewrite Hid.
Qed.

Lemma abs_step_import s s' id :
  no_new s s' -> abs_view s id = None -> exch_step None (abs_view s' id).
Proof.
  intros [_ Hk] Hv. destruct (abs_view s' id) as [st|] eqn:Hv'; [|constructor].
  apply abs_view_Some in Hv' as (r' & Hr' & <- & <-).
  destruct (Hk r' Hr') as (r & Hr & Hid).
  exfalso. apply (abs_view_None s r Hr). by rewrite Hid.
Qed.

(** A forward evolution of the export handler or of the import handler
    between well-formed collections is a step of the abstract lifecycle. *)
Lemma rel_abs_step s s' :
  store_ok s -> store_ok s' -> export_rel s s' \/ import_rel s s' ->
  abs_step (abs_view s) (abs_view s').
Proof.
  intros Hok Hok' [[Hle Hk]|[Hle Hk]] id; destruct (abs_view s id) eqn:Hv.
  - eapply abs_step_existing; [apply Hok|apply Hok'|done|done].
  - eapply abs_step_export; [apply Hok|done|done].
  - eapply abs_step_existing; [apply Hok|apply Hok'|done|done].
  - by eapply abs_step_import.
Qed.

(** One step keeps the invariant and is a step of the abstract
    lifecycle. *)
Lemma step_abs_step s s' :
  store_ok s -> step s s' -> store_ok s' /\ abs_step (abs_view s) (abs_view s').
Proof.
  intros Hok Hs. inversion Hs as [svc rq s0 Hs0 Hs']; subst. unfold serve, handler.
  destruct rq as [b|b].
  - destruct (@consumerExchange_export_rel svc b (init_ctx s) Hok) as [Hok' Hrel].
    split; [done|]. by apply rel_abs_step; [..|left].
  - destruct (@consumerImport_import_rel svc b (init_ctx s) Hok) as [Hok' Hrel].
    split; [done|]. by apply rel_abs_step; [..|right].
Qed.

Lemma empty_store_ok : store_ok empty_store.
Proof.
  split; [split; constructor|]. split; [constructor|].
  split; [intros r1 r2 Hr1; inversion Hr1|constructor].
Qed.

Lemma steps_store_ok s s' : store_ok s -> rtc step s s' -> store_ok s'.
Proof. intros Hok Hs. induction Hs; [done|]. apply IHHs. by apply (step_abs_step x). Qed.

(** Serving requests moves every exchange along its abstract lifecycle. *)
Lemma steps_refine s s' :
  store_ok s -> rtc step s s' -> rtc abs_step (abs_view s) (abs_view s').
Proof.
  intros Hok Hs. revert Hok. induction Hs as [|x y z Hxy Hyz IH]; intros Hok; [done|].
  destruct (step_abs_step x y Hok Hxy) as [Hok' Habs].
  eapply rtc_l; [exact Habs|]. by apply IH.
Qed.

(** One step only moves the collection forward. *)
Lemma step_store_le s s' : store_ok s -> step s s' -> store_le s s'.
Proof.
  intros Hok Hs. inversion Hs as [svc rq s0 Hs0 Hs']; subst. unfold serve, handler.
  destruct rq as [b|b].
  - by destruct (@consumerExchange_export_rel svc b (init_ctx s) Hok) as [_ [Hle _]].
  - by destruct (@consumerImport_import_rel svc b (init_ctx s) Hok) as [_ [Hle _]].
Qed.

Lemma steps_store_le s s' : store_ok s -> rtc step s s' -> store_le s s'.
Proof.
  intros Hok Hs. revert Hok. induction Hs as [|x y z Hxy Hyz IH]; intros Hok; [reflexivity|].
  transitivity y; [by apply step_store_le|]. apply IH. by apply (step_abs_step x).
Qed.

(** Under the collection invariant, two in-flight documents with the same
    conflict key are the same document. *)
Lemma store_ok_inflight_unique s r1 r2 :
  store_ok s -> r1 ∈ records s -> r2 ∈ records s ->
  is_terminal (status r1) = false -> is_terminal (status r2) = false ->
  contract r1 = contract r2 -> resourceId r1 = resourceId r2 ->
  purposeId r1 = purposeId r2 -> providerEndpoint r1 = providerEndpoint r2 ->
  r1 = r2.
Proof.
  intros ([Hnd _] & _ & Hu & _) H1 H2 Ht1 Ht2 Hc Hres Hp He.
  assert (_id r1 = _id r2) as Hid.
  { apply Hu; [done|done|unfold inflight; by rewrite Ht1|unfold inflight; by rewrite Ht2|].
    unfold exchange_key. congruence. }
  apply find_by_id_elem in H1, H2; [|done..]. rewrite Hid in H1. congruence.
Qed.

(** Under the collection invariant a document is either PENDING with its
    creation entry only, or in a terminal status recorded once after it. *)
Lemma store_ok_history s r :
  store_ok s -> r ∈ records s ->
  (status r = PENDING /\ error r = None /\ statusHistory r = [(PENDING, None)]) \/
  (is_terminal (status r) = true /\ statusHistory r = [(PENDING, None); (status r, error r)]).
Proof.
  intros ([_ Hwf] & _ & _ & Hh) Hr. unfold histories_ok in Hh.
  rewrite Forall_forall in Hwf, Hh. destruct (Hwf r Hr) as [_ Hl].
  destruct (Hh r Hr) as [E|E]; [left|by right].
  unfold history_ok in Hl. rewrite E in Hl. simpl in Hl. injection Hl as <- <-. auto.
Qed.

(** In the abstract lifecycle a terminal status is never left. *)
Lemma abs_steps_terminal v v' id st :
  rtc abs_step v v' -> v id = Some st -> is_terminal st = true -> v' id = Some st.
Proof.
  induction 1 as [|v1 v2 v3 H12 H23 IH]; intros Hv Ht; [done|].
  apply IH; [|done]. specialize (H12 id). rewrite Hv in H12.
  inversion H12 as [| |? Hs|? ? Hp]; subst; [done|]. done.
Qed.

(** ** Properties of the connector *)

(** C13: every collection the connector can reach, whatever requests it
    served and whatever its collaborators answered, is well-formed
    (distinct identifiers, status history ending in the current status)
    and holds no exchange in [PEP_ERROR]: the policy check being commented
    out, no request ever records a policy denial. *)
Theorem reachable_store_ok s :
  reachable s -> store_wf s /\ forall r, r ∈ records s -> status r <> PEP_ERROR.
Proof.
  intros Hr. destruct (steps_store_ok empty_store s empty_store_ok Hr) as (Hwf & Hnp & _).
  split; [done|]. unfold no_pep in Hnp. by rewrite Forall_forall in Hnp.
Qed.

(** C7: the connector refines the abstract lifecycle of the
    specification: the exchange statuses of every reachable collection are
    reached from "no exchange" by steps that create an exchange PENDING,
    resolve a PENDING exchange into a terminal status, or keep it. *)
Theorem reachable_refines_lifecycle s :
  reachable s -> rtc abs_step (fun _ => None) (abs_view s).
Proof. intros Hr. apply (steps_refine empty_store s empty_store_ok Hr). Qed.

(** C14: no sequence of requests moves an exchange out of a terminal
    status: from a reachable collection, an exchange that is
    [IMPORT_SUCCESS] or [CONSUMER_IMPORT_ERROR] keeps that status in every
    later collection. *)
Theorem reachable_terminal_frozen s s' id st :
  reachable s -> rtc step s s' -> abs_view s id = Some st -> is_terminal st = true ->
  abs_view s' id = Some st.
Proof.
  intros Hr Hs Hv Ht.
  apply (abs_steps_terminal (abs_view s)); [|done|done].
  apply steps_refine; [|done]. apply (steps_store_ok empty_store s empty_store_ok Hr).
Qed.

(** C22: the conflict invariant of the specification (section 3) holds in
    every reachable collection: two exchanges that are both in flight
    (not terminal) and have the same contract, resource, purpose and
    provider endpoint are the same exchange. *)
Theorem reachable_inflight_unique s r1 r2 :
  reachable s -> r1 ∈ records s -> r2 ∈ records s ->
  is_terminal (status r1) = false -> is_terminal (status r2) = false ->
  contract r1 = contract r2 -> resourceId r1 = resourceId r2 ->
  purposeId r1 = purposeId r2 -> providerEndpoint r1 = providerEndpoint r2 ->
  r1 = r2.
Proof.
  intros Hr. apply store_ok_inflight_unique.
  apply (steps_store_ok _ _ empty_store_ok Hr).
Qed.

(** C23: an exchange is never deleted and its identity never changes:
    from a reachable collection, whatever requests are served next, every
    exchange is still stored with the same identifier, provider endpoint,
    contract, resource, purpose and creation time (section 3: set once,
    at creation, never altered). *)
Theorem reachable_exchange_immutable s s' r :
  reachable s -> rtc step s s' -> r ∈ records s ->
  exists r', r' ∈ records s' /\ _id r' = _id r /\ providerEndpoint r' = providerEndpoint r /\
    contract r' = contract r /\ resourceId r' = resourceId r /\
    purposeId r' = purposeId r /\ createdAt r' = createdAt r.
Proof.
  intros Hr Hs Hin.
  destruct (steps_store_le s s' (steps_store_ok _ _ empty_store_ok Hr) Hs) as [_ Hle].
  destruct (Hle r Hin) as (r' & Hr' & Hid & Hpe & Hres & Hpu & Hc & Hca & _).
  exists r'. done.
Qed.

(** C29: every answer a request gets has the shape the connector's
    contract allows: none at all, the success envelope with 200, the
    failure envelope with 500, or the raw answer of the consumer's API
    with 200. No handler answers a success envelope with 500 or a failure
    envelope with 200. *)
Theorem handler_answer_shape svc rq s :
  let r := resp (fst (handler svc rq (init_ctx s))) in
  r = None \/ (exists m, r = Some (200, Envelope true m)) \/
  (exists m, r = Some (500, Envelope false m)) \/ (exists p, r = Some (200, Raw p)).
Proof.
  intros r. apply resp_ok_cases. unfold r, handler.
  destruct rq as [b|b]; [apply consumerExchange_keeps_resp|apply consumerImport_keeps_resp];
    done.
Qed.

Section EndToEnd.
Context `{svc : Services}.

(** An import whose lookup finds [d] in a well-formed collection leaves
    [d] in a terminal status, whatever the collaborators answer. *)
Lemma import_found_resolves (svc' : Services) b s d :
  store_wf s -> findOne (ImportRequest.providerDataExchange b) s = Some d ->
  exists st, abs_view (serve svc' (RqImport b) s) (_id d) = Some st /\ is_terminal st = true.
Proof.
  intros Hwf Hf. pose proof (findOne_elem _ _ _ Hf) as Hin.
  destruct (@consumerImport_outcome svc' b (init_ctx s) _ Hf eq_refl)
    as (_ & _ & st & err & Ht & Hst).
  destruct (updateStatus_terminal _ st err s _ Ht (find_by_id_elem _ _ (proj1 Hwf) Hin))
    as (d' & F & Ht').
  exists (status d'). unfold serve, handler, abs_view. rewrite Hst. simpl in F |- *.
  by rewrite F.
Qed.

(** After a bilateral export whose checks pass and whose registration
    answers a fresh identifier [p], looking [p] up finds the new document
    with [p] recorded. *)
Lemma export_registered_findOne b ref cr sd ep x ps p s :
  store_ok s ->
  ExchangeRequest.contract b = Some ref -> str_includes "contracts" ref = false ->
  getContract (Some ref) = Fulfilled cr -> axios_get (dataProvider cr) = Fulfilled sd ->
  dataspaceEndpoint sd = Some ep -> ep <> "" -> purpose cr = Some (x :: ps) ->
  existsb (same_key (mkFields (Some ep) (serviceOffering cr) x (Some ref) PENDING))
    (records s) = false ->
  registerAtProvider (Some ep) (next_id s) = Fulfilled p -> findOne (Some p) s = None ->
  findOne (Some p) (serve svc (RqExport b) s) =
    Some (set_provider_exchange
            (new_record (mkFields (Some ep) (serviceOffering cr) x (Some ref) PENDING)
               (next_id s) (clock s)) p (S (clock s))).
Proof.
  intros Hok Href Hinc Hgc Hax Hep Hne Hpu Hfresh Hreg Hnone. unfold serve, handler.
  destruct (consumerExchange_bilateral_run b ref cr sd ep x ps s) as (_ & _ & _ & _ & ->);
    [done..|]. rewrite Hreg.
  apply findOne_create_register; [apply Hok|done..].
Qed.

(** C21: an exchange started by a bilateral export is resolved by the
    provider's callback: when the export's checks pass on a well-formed
    collection and the provider registers the new exchange under an
    identifier [p] no document carried before, the export leaves the new
    exchange PENDING, and any import request carrying [p], whatever the
    collaborators answer then, moves it into a terminal status. *)
Theorem export_then_import_resolves b ref cr sd ep x ps p s :
  store_ok s ->
  ExchangeRequest.contract b = Some ref -> str_includes "contracts" ref = false ->
  getContract (Some ref) = Fulfilled cr -> axios_get (dataProvider cr) = Fulfilled sd ->
  dataspaceEndpoint sd = Some ep -> ep <> "" -> purpose cr = Some (x :: ps) ->
  existsb (same_key (mkFields (Some ep) (serviceOffering cr) x (Some ref) PENDING))
    (records s) = false ->
  registerAtProvider (Some ep) (next_id s) = Fulfilled p -> findOne (Some p) s = None ->
  let s1 := serve svc (RqExport b) s in
  abs_view s1 (next_id s) = Some PENDING /\
  forall (svc' : Services) (b' : ImportRequest.t),
    ImportRequest.providerDataExchange b' = Some p ->
    exists st, abs_view (serve svc' (RqImport b') s1) (next_id s) = Some st /\
      is_terminal st = true.
Proof.
  intros Hok Href Hinc Hgc Hax Hep Hne Hpu Hfresh Hreg Hnone s1.
  destruct (consumerExchange_export_rel b (init_ctx s) Hok) as [[Hwf1 _] _].
  pose proof (export_registered_findOne b ref cr sd ep x ps p s) as Hf. fold s1 in Hf.
  specialize (Hf Hok Href Hinc Hgc Hax Hep Hne Hpu Hfresh Hreg Hnone).
  fold s1 in Hwf1.
  split; [exact (abs_view_elem s1 _ Hwf1 (findOne_elem _ _ _ Hf))|].
  intros svc' b' Hb'. rewrite <- Hb' in Hf. exact (import_found_resolves svc' b' s1 _ Hwf1 Hf).
Qed.

(** C16: what the export writes is what the import reads back: after a
    bilateral export whose checks pass and whose registration answers a
    fresh identifier [p], the provider's callback carrying [p] (with a
    self-description processing that does not throw) first fetches the
    contract the requester named, then looks the catalog up by the
    contract's first purpose, which the export stored as the exchange's
    [purposeId] (lines 95-102, 148, 161). *)
Theorem export_import_roundtrip b ref cr sd ep x ps p s (svc' : Services) b' :
  store_ok s ->
  ExchangeRequest.contract b = Some ref -> str_includes "contracts" ref = false ->
  @getContract svc (Some ref) = Fulfilled cr ->
  @axios_get svc (dataProvider cr) = Fulfilled sd ->
  dataspaceEndpoint sd = Some ep -> ep <> "" -> purpose cr = Some (x :: ps) ->
  existsb (same_key (mkFields (Some ep) (serviceOffering cr) x (Some ref) PENDING))
    (records s) = false ->
  @registerAtProvider svc (Some ep) (next_id s) = Fulfilled p -> findOne (Some p) s = None ->
  ImportRequest.providerDataExchange b' = Some p ->
  (forall r dx cref cd, @selfDescriptionProcessor svc' r dx cref cd = None) ->
  exists rest,
    calls (fst (@consumerImport svc' b' (init_ctx (serve svc (RqExport b) s)))) =
      CGetContract (Some ref) :: CGetCatalog x :: rest.
Proof.
  intros Hok Href Hinc Hgc Hax Hep Hne Hpu Hfresh Hreg Hnone Hb' Hsdp.
  pose proof (export_registered_findOne b ref cr sd ep x ps p s Hok Href Hinc Hgc Hax Hep Hne
                Hpu Hfresh Hreg Hnone) as Hf.
  rewrite <- Hb' in Hf.
  destruct (@consumerImport_reads svc' b' (init_ctx (serve svc (RqExport b) s)) _ Hf
              (Hsdp _ _ _ _)) as [rest Hc].
  by exists rest.
Qed.

(** C35: a bilateral export whose registration at the provider fails
    leaves its exchange PENDING with no provider identifier: no callback
    that names an identifier can ever find it (every such lookup finds
    what it found before the export), as section 4.3 expects of an
    exchange left to reconciliation. But the first callback whose body
    has no [providerDataExchange] at all finds it, since
    [findOne({providerDataExchange: undefined})] matches the documents
    without the field, and settles it in a terminal status, whatever the
    collaborators answer then. *)
Theorem export_unregistered_anonymous_import b ref cr sd ep x ps e s :
  store_ok s ->
  ExchangeRequest.contract b = Some ref -> str_includes "contracts" ref = false ->
  getContract (Some ref) = Fulfilled cr -> axios_get (dataProvider cr) = Fulfilled sd ->
  dataspaceEndpoint sd = Some ep -> ep <> "" -> purpose cr = Some (x :: ps) ->
  existsb (same_key (mkFields (Some ep) (serviceOffering cr) x (Some ref) PENDING))
    (records s) = false ->
  registerAtProvider (Some ep) (next_id s) = Failed e -> findOne None s = None ->
  let s1 := serve svc (RqExport b) s in
  abs_view s1 (next_id s) = Some PENDING /\
  (forall p, findOne (Some p) s1 = findOne (Some p) s) /\
  forall (svc' : Services) (b' : ImportRequest.t),
    ImportRequest.providerDataExchange b' = None ->
    exists st, abs_view (serve svc' (RqImport b') s1) (next_id s) = Some st /\
      is_terminal st = true.
Proof.
  intros Hok Href Hinc Hgc Hax Hep Hne Hpu Hfresh Hreg Hnone s1.
  set (f := mkFields (Some ep) (serviceOffering cr) x (Some ref) PENDING) in Hfresh.
  destruct (consumerExchange_export_rel b (init_ctx s) Hok) as [[Hwf1 _] _]. fold s1 in Hwf1.
  assert (s1 = fst (create f s)) as Hs1.
  { unfold s1, serve, handler.
    destruct (consumerExchange_bilateral_run b ref cr sd ep x ps s) as (_ & _ & _ & _ & ->);
      [done..|]. by rewrite Hreg. }
  assert (findOne None s1 = Some (new_record f (next_id s) (clock s))) as Hf.
  { rewrite Hs1. by apply findOne_create_None. }
  split_and!.
  - exact (abs_view_elem s1 _ Hwf1 (findOne_elem _ _ _ Hf)).
  - intros p. rewrite Hs1. apply findOne_create_Some.
  - intros svc' b' Hb'. rewrite <- Hb' in Hf. exact (import_found_resolves svc' b' s1 _ Hwf1 Hf).
Qed.
End EndToEnd.

(** ** Witnesses: a bilateral export, its import, and a late duplicate
    import that cannot reopen the exchange *)

Lemma reachable_store2 : reachable store2.
Proof.
  eapply rtc_l; [apply (step_serve svc_ok (RqExport bil_request))|].
  eapply rtc_l; [apply (step_serve svc_ok (RqImport import_request))|].
  apply rtc_refl.
Qed.

Lemma reachable_store_ok_witness :
  reachable store2 /\ store_wf store2 /\
  forall r, r ∈ records store2 -> status r <> PEP_ERROR.
Proof. split; [exact reachable_store2|]. apply reachable_store_ok. exact reachable_store2. Defined.

Lemma reachable_refines_lifecycle_witness :
  reachable store2 /\ rtc abs_step (fun _ => None) (abs_view store2).
Proof.
  split; [exact reachable_store2|]. apply reachable_refines_lifecycle. exact reachable_store2.
Defined.

Lemma reachable_terminal_frozen_witness :
  reachable store2 /\ rtc step store2 store3 /\
  abs_view store2 0 = Some IMPORT_SUCCESS /\ abs_view store3 0 = Some IMPORT_SUCCESS.
Proof.
  split; [exact reachable_store2|].
  assert (rtc step store2 store3) as H23.
  { apply rtc_once. apply (step_serve svc_no_url (RqImport import_request)). }
  split; [exact H23|]. split; [vm_compute; reflexivity|].
  apply (reachable_terminal_frozen store2 store3 0 IMPORT_SUCCESS reachable_store2 H23);
    vm_compute; reflexivity.
Defined.

Lemma export_then_import_resolves_witness :
  store_ok empty_store /\ str_includes "contracts" bil_ref = false /\
  abs_view store1 0 = Some PENDING /\
  exists st, abs_view (serve svc_no_url (RqImport import_request) store1) 0 = Some st /\
    is_terminal st = true.
Proof.
  split; [exact empty_store_ok|]. split; [reflexivity|].
  destruct (@export_then_import_resolves svc_ok bil_request bil_ref sample_contract sample_sd
              "https://provider.example/" (Some "purpose-1") [] "provider-exchange-1"
              empty_store empty_store_ok) as [H1 H2];
    try reflexivity; try discriminate.
  split; [exact H1|]. exact (H2 svc_no_url import_request eq_refl).
Defined.

Lemma export_unregistered_anonymous_import_witness :
  store_ok empty_store /\ str_includes "contracts" bil_ref = false /\
  let s1 := serve svc_unregistered (RqExport bil_request) empty_store in
  abs_view s1 0 = Some PENDING /\
  findOne (Some "provider-exchange-1") s1 = None /\
  exists st, abs_view (serve svc_ok (RqImport anonymous_import) s1) 0 = Some st /\
    is_terminal st = true.
Proof.
  split; [exact empty_store_ok|]. split; [reflexivity|]. intros s1.
  destruct (@export_unregistered_anonymous_import svc_unregistered bil_request bil_ref
              sample_contract sample_sd "https://provider.example/" (Some "purpose-1") []
              "provider unreachable" empty_store empty_store_ok) as (H1 & H2 & H3);
    try reflexivity; try discriminate.
  split; [exact H1|]. split; [exact (H2 "provider-exchange-1")|].
  exact (H3 svc_ok anonymous_import eq_refl).
Defined.

Lemma export_import_roundtrip_witness :
  store_ok empty_store /\ str_includes "contracts" bil_ref = false /\
  exists rest, calls (fst (@consumerImport svc_ok import_request (init_ctx store1))) =
    CGetContract (Some bil_ref) :: CGetCatalog (Some "purpose-1") :: rest.
Proof.
  split; [exact empty_store_ok|]. split; [reflexivity|].
  apply (@export_import_roundtrip svc_ok bil_request bil_ref sample_contract sample_sd
           "https://provider.example/" (Some "purpose-1") [] "provider-exchange-1"
           empty_store svc_ok import_request empty_store_ok);
    try reflexivity; try discriminate.
Defined.

Lemma reachable_store1 : reachable store1.
Proof. apply rtc_once. apply (step_serve svc_ok (RqExport bil_request)). Qed.

Lemma exchange1_in_store1 : exchange1 ∈ records store1.
Proof. vm_compute. left. Qed.

Lemma reachable_inflight_unique_witness :
  reachable store1 /\ exchange1 ∈ records store1 /\
  is_terminal (status exchange1) = false /\ exchange1 = exchange1.
Proof.
  split; [exact reachable_store1|]. split; [exact exchange1_in_store1|].
  split; [reflexivity|].
  apply (reachable_inflight_unique store1 exchange1 exchange1 reachable_store1
           exchange1_in_store1 exchange1_in_store1); reflexivity.
Defined.

Lemma reachable_exchange_immutable_witness :
  reachable store1 /\ rtc step store1 store2 /\ exchange1 ∈ records store1 /\
  exists r', r' ∈ records store2 /\ _id r' = 0 /\
    providerEndpoint r' = Some "https://provider.example/" /\ contract r' = Some bil_ref /\
    resourceId r' = Some "so-1" /\ purposeId r' = Some "purpose-1" /\ createdAt r' = 0.
Proof.
  assert (rtc step store1 store2) as H12.
  { apply rtc_once. apply (step_serve svc_ok (RqImport import_request)). }
  split; [exact reachable_store1|]. split; [exact H12|]. split; [exact exchange1_in_store1|].
  exact (reachable_exchange_immutable store1 store2 exchange1 reachable_store1 H12
           exchange1_in_store1).
Defined.
