(* ===== verification/Interleaving.v ===== *)
(** * Requests interleaved at their awaits

    Node.js runs the handlers of concurrent requests on one thread and
    switches between them only at an [await]. The handlers touch the
    DataExchange collection at few points: the export handler creates its
    document ([await DataExchange.create], the end of [export_prefix]) and
    later records the provider's identifier (inside
    [createDataExchangeToOtherParticipant], the start of [export_suffix]);
    the import handler looks the exchange up ([await DataExchange.findOne])
    and later makes one transition ([doc_updateStatus], inside
    [import_after]). Between its two accesses a handler reads nothing of
    the collection, so the other requests' work in between can be taken to
    happen at the point where the handler resumes.

    A request is therefore run in two phases: [start] runs it to its first
    access to the collection and suspends it ([Suspended], with its own
    response, log and call trace); [resume] runs the rest of it on the
    collection as it is at that moment. [cstep] starts a request or resumes
    any suspended one, in any order. The serial connector of [System] is
    one schedule of it ([serial_is_interleaving]), and the executable
    scheduler [exec] reaches exactly its states ([creachable_exec]). The
    theorems show that
    the collection invariants, the conflict invariant included, and the
    freezing of terminal statuses hold under every interleaving, and that
    a delayed import acts as the serial handler run at its resumption. *)

From stdpp Require Import base list sets strings relations.
From Stdlib Require Import String Wf_nat Inclusion.
From S2P Require Import Prelude Services ExchangeStore Runtime ConsumerExchange ConsumerImport System.

(** A request suspended between its two accesses to the collection. *)
Inductive Suspended : Type :=
| SExport (svc : Services) (c : Ctx) (d : DataExchange) (pe : option string)
| SImport (svc : Services) (b : ImportRequest.t) (c : Ctx) (dx : option DataExchange).

Record CState : Type := mkCState {
  cstore : Store;
  pending : list Suspended
}.

(** Runs a request up to its first access to the collection, included. An
    export whose [try] block throws before the creation runs its [catch]
    block and ends; [findOne] does not throw. *)
Definition start (svc : Services) (rq : Request) (s : Store) : Store * option Suspended :=
  match rq with
  | RqExport b =>
      match @export_prefix svc b (init_ctx s) with
      | (c', Ret (d, pe)) => (store c', Some (SExport svc c' d pe))
      | (c', Throw e) => (store (fst (export_catch e c')), None)
      end
  | RqImport b =>
      match DataExchange_findOne (ImportRequest.providerDataExchange b) (init_ctx s) with
      | (c', Ret dx) => (store c', Some (SImport svc b c' dx))
      | (c', Throw _) => (store c', None)
      end
  end.

(** Runs the rest of a suspended request, with its own response, log and
    call trace, on the collection [s]. *)
Definition run_resumed (x : Suspended) (s : Store) : Ctx * outcome unit :=
  match x with
  | SExport svc c d pe => try_catch (@export_suffix svc d pe) export_catch (set_store s c)
  | SImport svc b c dx => @import_after svc dx b (set_store s c)
  end.

(** The collection a resumed request leaves. *)
Definition resume (x : Suspended) (s : Store) : Store := store (fst (run_resumed x s)).


Definition push (ox : option Suspended) (P : list Suspended) : list Suspended :=
  match ox with
  | Some x => x :: P
  | None => P
  end.

(** One step of the interleaved connector: a new request runs to its first
    access to the collection, or any suspended request runs to its end. *)
Inductive cstep : CState -> CState -> Prop :=
| cstep_start svc rq s P s' ox :
    start svc rq s = (s', ox) -> cstep (mkCState s P) (mkCState s' (push ox P))
| cstep_resume x s P1 P2 :
    cstep (mkCState s (P1 ++ x :: P2)) (mkCState (resume x s) (P1 ++ P2)).

Definition creachable (cs : CState) : Prop := rtc cstep (mkCState empty_store []) cs.

(** ** An executable scheduler *)

Inductive Action : Type :=
| AStart (svc : Services) (rq : Request)
| AResume (i : nat).

Definition exec_action (a : Action) (cs : CState) : option CState :=
  match a with
  | AStart svc rq =>
      let '(s', ox) := start svc rq (cstore cs) in Some (mkCState s' (push ox (pending cs)))
  | AResume i =>
      x ← pending cs !! i; Some (mkCState (resume x (cstore cs)) (delete i (pending cs)))
  end.

Fixpoint exec (acts : list Action) (cs : CState) : option CState :=
  match acts with
  | [] => Some cs
  | a :: acts' => cs' ← exec_action a cs; exec acts' cs'
  end.

(** A step that starts no request: a suspended request runs to its end. *)
Definition resume_step (cs cs' : CState) : Prop :=
  exists x P1 P2, pending cs = P1 ++ x :: P2 /\ cs' = mkCState (resume x (cstore cs)) (P1 ++ P2).

(** ** Fixtures of the witnesses *)

Definition init_cstate : CState := mkCState empty_store [].

Definition run_schedule (acts : list Action) : CState :=
  default init_cstate (exec acts init_cstate).

(** Two exports of the same bilateral exchange started together: the
    second is refused while the first is suspended. *)
Definition dup_schedule : list Action :=
  [AStart svc_ok (RqExport bil_request); AStart svc_ok (RqExport bil_request)].

(** An export, then two deliveries of the same exchange that both look it
    up before either resolves it; the one resumed first succeeds, the
    other one's catalog has no endpoint. *)
Definition race_prefix : list Action :=
  [AStart svc_ok (RqExport bil_request); AResume 0;
   AStart svc_ok (RqImport import_request); AStart svc_no_url (RqImport import_request);
   AResume 1].

Definition race_schedule : list Action := race_prefix ++ [AResume 0].

(** The document of [exchange1] as it was created, before the provider's
    identifier was recorded. *)
Definition exchange1_created : DataExchange :=
  new_record (mkFields (Some "https://provider.example/") (Some "so-1") (Some "purpose-1")
                (Some bil_ref) PENDING) 0 0.

(** The exchange of the race once the first delivery has resolved it. *)
Definition exchange1_resolved : DataExchange := set_status exchange1 IMPORT_SUCCESS None 2.

(** ** Each phase keeps the invariant and moves the collection forward *)

Lemma start_rel svc rq s s' ox :
  store_ok s -> start svc rq s = (s', ox) ->
  store_ok s' /\ (export_rel s s' \/ import_rel s s').
Proof.
  intros Hok. destruct rq as [b|b]; simpl.
  - destruct (@export_prefix_rel svc b (init_ctx s) Hok) as [Hok' Hrel].
    destruct (@export_prefix svc b (init_ctx s)) as [c' [[d pe]|e]];
      intros [= <- _]; simpl in *; auto.
  - intros [= <- _]. split; [done|]. right. reflexivity.
Qed.

Lemma resume_rel x s :
  store_ok s -> store_ok (resume x s) /\ (export_rel s (resume x s) \/ import_rel s (resume x s)).
Proof.
  intros Hok. destruct x as [svc c d pe|svc b c dx]; simpl.
  - destruct (@export_resume_rel svc d pe (set_store s c) Hok) as [Hok' Hrel]. auto.
  - destruct (@import_after_rel svc dx b (set_store s c) Hok) as [Hok' Hrel]. auto.
Qed.

(** One interleaved step keeps the invariant and is a step of the abstract
    lifecycle. *)
Lemma cstep_abs_step cs cs' :
  store_ok (cstore cs) -> cstep cs cs' ->
  store_ok (cstore cs') /\ abs_step (abs_view (cstore cs)) (abs_view (cstore cs')).
Proof.
  intros Hok Hs. destruct Hs as [svc rq s P s' ox Hst|x s P1 P2]; simpl in *.
  - destruct (start_rel svc rq s s' ox Hok Hst) as [Hok' Hrel].
    split; [done|]. by apply rel_abs_step.
  - destruct (resume_rel x s Hok) as [Hok' Hrel]. split; [done|]. by apply rel_abs_step.
Qed.

Lemma csteps_store_ok cs cs' : store_ok (cstore cs) -> rtc cstep cs cs' -> store_ok (cstore cs').
Proof. intros Hok Hs. induction Hs; [done|]. apply IHHs. by apply (cstep_abs_step x). Qed.

Lemma csteps_refine cs cs' :
  store_ok (cstore cs) -> rtc cstep cs cs' ->
  rtc abs_step (abs_view (cstore cs)) (abs_view (cstore cs')).
Proof.
  intros Hok Hs. revert Hok. induction Hs as [|x y z Hxy Hyz IH]; intros Hok; [done|].
  destruct (cstep_abs_step x y Hok Hxy) as [Hok' Habs].
  eapply rtc_l; [exact Habs|]. by apply IH.
Qed.

Lemma creachable_store_ok cs : creachable cs -> store_ok (cstore cs).
Proof. intros Hr. apply (csteps_store_ok (mkCState empty_store []) cs empty_store_ok Hr). Qed.

(** ** The scheduler runs interleaved steps *)

Lemma exec_action_cstep a cs cs' : exec_action a cs = Some cs' -> cstep cs cs'.
Proof.
  destruct cs as [s P]. destruct a as [svc rq|i]; simpl.
  - destruct (start svc rq s) as [s' ox] eqn:E. intros [= <-]. by apply (cstep_start svc rq).
  - destruct (P !! i) as [x|] eqn:Hi; simpl; [|done]. intros [= <-].
    rewrite (delete_take_drop P i).
    rewrite <- (take_drop_middle P i x Hi) at 1. constructor.
Qed.

Lemma exec_csteps acts cs cs' : exec acts cs = Some cs' -> rtc cstep cs cs'.
Proof.
  revert cs. induction acts as [|a acts IH]; simpl; intros cs.
  - intros [= <-]. reflexivity.
  - destruct (exec_action a cs) as [cs1|] eqn:E; simpl; [|done].
    intros H. eapply rtc_l; [by apply (exec_action_cstep a)|]. by apply IH.
Qed.

(** Every interleaved step is one action of the scheduler: a start is
    [AStart], the resumption of the request at position [length P1] of the
    suspended list is [AResume (length P1)]. *)
Lemma cstep_exec_action cs cs' : cstep cs cs' -> exists a, exec_action a cs = Some cs'.
Proof.
  intros [svc rq s P s' ox E|x s P1 P2].
  - exists (AStart svc rq). simpl. by rewrite E.
  - exists (AResume (List.length P1)). simpl.
    by rewrite list_lookup_middle, delete_middle.
Qed.

Lemma csteps_exec cs cs' : rtc cstep cs cs' -> exists acts, exec acts cs = Some cs'.
Proof.
  induction 1 as [cs|cs cs1 cs' Hs _ [acts IH]]; [by exists []|].
  destruct (cstep_exec_action _ _ Hs) as [a Ha].
  exists (a :: acts). simpl. by rewrite Ha.
Qed.

(** ** The serial connector is one schedule *)

Lemma set_store_store c : set_store (store c) c = c.
Proof. by destruct c. Qed.

Lemma step_csteps s s' P : step s s' -> rtc cstep (mkCState s P) (mkCState s' P).
Proof.
  intros Hs. inversion Hs as [svc rq s0 Hs0 Hs']; subst. unfold serve, handler.
  destruct rq as [b|b].
  - rewrite consumerExchange_split.
    destruct (@export_prefix svc b (init_ctx s)) as [c' [[d pe]|e]] eqn:E.
    + eapply rtc_l; [apply (cstep_start svc (RqExport b)); simpl; by rewrite E|].
      eapply rtc_l; [apply (cstep_resume _ _ [] P)|]. unfold resume, run_resumed. rewrite set_store_store.
      reflexivity.
    + apply rtc_once. apply (cstep_start svc (RqExport b) s P _ None). simpl. by rewrite E.
  - rewrite consumerImport_split.
    eapply rtc_l; [by apply (cstep_start svc (RqImport b))|].
    apply rtc_once.
    exact (cstep_resume (SImport svc b (init_ctx s)
                           (findOne (ImportRequest.providerDataExchange b) s)) s [] P).
Qed.

Lemma steps_csteps s s' P : rtc step s s' -> rtc cstep (mkCState s P) (mkCState s' P).
Proof.
  induction 1 as [|x y z Hxy Hyz IH]; [reflexivity|].
  etransitivity; [by apply step_csteps|done].
Qed.

(** The executable scheduler and the interleaving relation reach the
    same states: the schedules the witnesses evaluate are interleavings,
    and every interleaving is such a schedule. *)
Lemma creachable_exec cs : creachable cs <-> exists acts, exec acts init_cstate = Some cs.
Proof.
  split; [apply csteps_exec|]. intros [acts H]. exact (exec_csteps acts init_cstate cs H).
Qed.

(** ** Properties of the interleaved connector *)

(** The serial connector is one schedule of the interleaved one: every
    collection reached by serving requests one at a time is reached by
    starting each request and resuming it at once. *)
Lemma serial_is_interleaving s : reachable s -> creachable (mkCState s []).
Proof. intros Hr. by apply (steps_csteps empty_store s []). Qed.

(** C25: the conflict invariant holds under every interleaving: whatever
    requests are started and in whatever order the suspended ones are
    resumed, two in-flight exchanges with the same contract, resource,
    purpose and provider endpoint are the same exchange. The atomic
    duplicate check of [DataExchange.create] is what makes concurrent
    exports of the same exchange safe. *)
Theorem creachable_inflight_unique cs r1 r2 :
  creachable cs -> r1 ∈ records (cstore cs) -> r2 ∈ records (cstore cs) ->
  is_terminal (status r1) = false -> is_terminal (status r2) = false ->
  contract r1 = contract r2 -> resourceId r1 = resourceId r2 ->
  purposeId r1 = purposeId r2 -> providerEndpoint r1 = providerEndpoint r2 ->
  r1 = r2.
Proof. intros Hr. apply store_ok_inflight_unique. by apply creachable_store_ok. Qed.

(** C26: no update is lost under interleaving: once an exchange is in a
    terminal status, no schedule of the requests started or suspended
    (a concurrent import that looked the exchange up before it was
    resolved included) moves it out of that status. *)
Theorem creachable_terminal_frozen cs cs' id st :
  creachable cs -> rtc cstep cs cs' -> abs_view (cstore cs) id = Some st ->
  is_terminal st = true -> abs_view (cstore cs') id = Some st.
Proof.
  intros Hr Hs Hv Ht. apply (abs_steps_terminal (abs_view (cstore cs))); [|done|done].
  apply csteps_refine; [|done]. by apply creachable_store_ok.
Qed.

(** C27: a delayed import acts as if it ran at once when it resumes: an
    import that looked up a document [d] and resumes on a collection where
    its provider identifier now finds a version [d'] of the same exchange
    (same identifier, provider endpoint, contract, resource and purpose,
    and on which the self-description processor throws alike) runs
    exactly as the serial handler run at that moment: same answer, same
    calls, same collection. The status, the error and the history the
    stale version may lack are never read. *)
Theorem import_resume_serializable svc b c s d d' :
  findOne (ImportRequest.providerDataExchange b) s = Some d' ->
  _id d' = _id d -> providerEndpoint d' = providerEndpoint d -> contract d' = contract d ->
  resourceId d' = resourceId d -> purposeId d' = purposeId d ->
  (forall cr, @selfDescriptionProcessor svc (resourceId d) d' (contract d) cr =
              @selfDescriptionProcessor svc (resourceId d) d (contract d) cr) ->
  run_resumed (SImport svc b c (Some d)) s = @consumerImport svc b (set_store s c).
Proof.
  intros Hf Hid Hpe Hc Hr Hp Hsdp. rewrite consumerImport_split. simpl. rewrite Hf.
  symmetry. by apply import_after_identity.
Qed.

(** C28: the status history of every exchange, under every interleaving,
    follows the state machine of the specification: either the exchange
    is PENDING with no error and its history is the creation entry alone,
    or it is in a terminal status and its history is the creation entry
    followed by exactly one entry, its current status and error. A
    duplicate or late callback adds no entry (idempotence) and no
    exchange is resolved twice. *)
Theorem creachable_history_shape cs r :
  creachable cs -> r ∈ records (cstore cs) ->
  (status r = PENDING /\ error r = None /\ statusHistory r = [(PENDING, None)]) \/
  (is_terminal (status r) = true /\ statusHistory r = [(PENDING, None); (status r, error r)]).
Proof. intros Hr Hin. apply (store_ok_history (cstore cs)); [by apply creachable_store_ok|done]. Qed.

(** The scheduler cannot resume forever: each resumption removes one
    suspended request. *)
Lemma resume_terminates : well_founded (fun cs' cs => resume_step cs cs').
Proof.
  apply (wf_incl _ _ (ltof _ (fun cs => List.length (pending cs)))); [|apply well_founded_ltof].
  intros cs' cs (x & P1 & P2 & HP & ->). unfold ltof. simpl. rewrite HP, !length_app. simpl.
  lia.
Qed.

(** ** Witnesses *)

Lemma exec_dup : exec dup_schedule init_cstate = Some (run_schedule dup_schedule).
Proof. vm_compute. reflexivity. Qed.

Lemma exec_race_prefix : exec race_prefix init_cstate = Some (run_schedule race_prefix).
Proof. vm_compute. reflexivity. Qed.

Lemma exec_race_rest :
  exec [AResume 0] (run_schedule race_prefix) = Some (run_schedule race_schedule).
Proof. vm_compute. reflexivity. Qed.

Lemma creachable_inflight_unique_witness :
  creachable (run_schedule dup_schedule) /\
  List.length (records (cstore (run_schedule dup_schedule))) = 1 /\
  exchange1_created ∈ records (cstore (run_schedule dup_schedule)) /\
  exchange1_created = exchange1_created.
Proof.
  assert (creachable (run_schedule dup_schedule)) as Hr by exact (exec_csteps _ _ _ exec_dup).
  assert (exchange1_created ∈ records (cstore (run_schedule dup_schedule))) as Hin
    by (vm_compute; left).
  split; [exact Hr|]. split; [vm_compute; reflexivity|]. split; [exact Hin|].
  apply (creachable_inflight_unique _ _ _ Hr Hin Hin); reflexivity.
Defined.

Lemma creachable_terminal_frozen_witness :
  creachable (run_schedule race_prefix) /\
  rtc cstep (run_schedule race_prefix) (run_schedule race_schedule) /\
  abs_view (cstore (run_schedule race_prefix)) 0 = Some IMPORT_SUCCESS /\
  abs_view (cstore (run_schedule race_schedule)) 0 = Some IMPORT_SUCCESS.
Proof.
  assert (creachable (run_schedule race_prefix)) as Hr
    by exact (exec_csteps _ _ _ exec_race_prefix).
  assert (rtc cstep (run_schedule race_prefix) (run_schedule race_schedule)) as Hs
    by exact (exec_csteps _ _ _ exec_race_rest).
  split; [exact Hr|]. split; [exact Hs|]. split; [vm_compute; reflexivity|].
  apply (creachable_terminal_frozen _ _ 0 IMPORT_SUCCESS Hr Hs); vm_compute; reflexivity.
Defined.

Lemma import_resume_serializable_witness :
  findOne (Some "provider-exchange-1") store1 = Some exchange1 /\
  run_resumed (SImport svc_ok import_request (init_ctx store1) (Some exchange1_created)) store1 =
    @consumerImport svc_ok import_request (set_store store1 (init_ctx store1)).
Proof.
  split; [vm_compute; reflexivity|].
  apply (import_resume_serializable svc_ok import_request (init_ctx store1) store1
           exchange1_created exchange1); vm_compute; reflexivity.
Defined.

Lemma creachable_history_shape_witness :
  creachable (run_schedule race_schedule) /\
  exchange1_resolved ∈ records (cstore (run_schedule race_schedule)) /\
  statusHistory exchange1_resolved = [(PENDING, None); (IMPORT_SUCCESS, None)].
Proof.
  assert (creachable (run_schedule race_schedule)) as Hr.
  { apply (exec_csteps race_schedule init_cstate). vm_compute. reflexivity. }
  assert (exchange1_resolved ∈ records (cstore (run_schedule race_schedule))) as Hin
    by (vm_compute; left).
  split; [exact Hr|]. split; [exact Hin|].
  destruct (creachable_history_shape _ _ Hr Hin) as [(Hs & _)|(_ & Hh)];
    [discriminate Hs|exact Hh].
Defined.

